(** * swag: the checkout pipeline of the twg repository

    A shallow embedding of the Go packages [swag/urlpath] (path splitter)
    and [swag/http] (entity-resolving middleware, campaign presentation,
    order checkout), together with the properties of their specification.

    Conventions of the embedding:
    - a Go [string] is a sequence of bytes: Rocq's [string] (a list of
      8-bit [ascii]); the byte-level loops work on [list ascii];
    - a Go [int] and a [time.Duration] are 64-bit integers, modelled in [Z];
      Go's [/] truncates toward zero, which is [Z.quot];
    - a Go result pair of a value (or a pointer) and an [error] is a
      [result T]: either the value or the error (a pointer returned with a
      nil error is taken to point to a value);
    - the collaborators behind the handlers' interface fields (storage,
      payment client, templates, logger, clock) are functions over an
      abstract collaborator state [World], threaded through every call;
    - a handler is a computation over the collaborator state and a
      chronological trace of everything it asks of its collaborators and of
      the response writer; a Go panic is an outcome of its own. *)

From Stdlib Require Import ZArith Ascii String.
From stdpp Require Import base option list strings pretty gmap.

Local Open Scope Z_scope.

(** ** Bytes and strings *)

Module Bytes.

Definition isSlash (c : ascii) : bool := Ascii.eqb c "/"%char.
Definition isDot (c : ascii) : bool := Ascii.eqb c "."%char.

(** [s[len(s)-1]]: the last byte; [None] where Go panics with an index out
    of range (the empty string). *)
Fixpoint lastByte (s : list ascii) : option ascii :=
  match s with
  | [] => None
  | [c] => Some c
  | _ :: t => lastByte t
  end.

(** [strings.HasPrefix] on bytes. *)
Fixpoint hasPrefix (s p : list ascii) {struct p} : bool :=
  match p, s with
  | [], _ => true
  | _ :: _, [] => false
  | a :: p', b :: s' => Ascii.eqb a b && hasPrefix s' p'
  end.

(** First occurrence of [sep] in [s]: the bytes before it and the bytes
    after it ([strings.Index] and the two slices around the match). *)
Fixpoint cut (s sep : list ascii) : option (list ascii * list ascii) :=
  if hasPrefix s sep then Some ([], List.skipn (length sep) s)
  else match s with
       | [] => None
       | c :: t =>
           match cut t sep with
           | Some (a, b) => Some (c :: a, b)
           | None => None
           end
       end.

(** [strings.SplitN(s, sep, 2)] for a non-empty [sep]: at most two
    substrings, the second being the unsplit remainder. *)
Definition SplitN2 (s sep : string) : list string :=
  match cut (list_ascii_of_string s) (list_ascii_of_string sep) with
  | Some (a, b) => [string_of_list_ascii a; string_of_list_ascii b]
  | None => [s]
  end.

(** [strings.Replace(s, old, new, 1)]: the first instance of [old]
    replaced by [new]. *)
Definition ReplaceFirst (s old new : string) : string :=
  match cut (list_ascii_of_string s) (list_ascii_of_string old) with
  | Some (a, b) =>
      string_of_list_ascii (a ++ list_ascii_of_string new ++ b)
  | None => s
  end.

(** The line feed byte, and whether a string contains one. *)
Definition lf : ascii := ascii_of_nat 10.
Definition hasLF (s : string) : bool :=
  existsb (Ascii.eqb lf) (list_ascii_of_string s).

(** [c < utf8.RuneSelf] *)
Definition isASCIIByte (c : ascii) : bool := (N_of_ascii c <? 128)%N.

Definition upperByte (c : ascii) : ascii :=
  let n := N_of_ascii c in
  if (97 <=? n)%N && (n <=? 122)%N then ascii_of_N (n - 32) else c.

(** [strings.ToUpper]: ASCII-only strings are mapped byte by byte; any
    other string goes through [strings.Map(unicode.ToUpper, s)], which is
    the parameter [unicodeUpper]. *)
Definition ToUpper (unicodeUpper : string → string) (s : string) : string :=
  let bs := list_ascii_of_string s in
  if forallb isASCIIByte bs
  then string_of_list_ascii (map upperByte bs)
  else unicodeUpper s.

(** Go's [int] on a 64-bit platform. *)
Definition minInt : Z := - 2 ^ 63.
Definition maxInt : Z := 2 ^ 63 - 1.

Definition digitVal (c : ascii) : option Z :=
  let n := Z.of_N (N_of_ascii c) in
  if (48 <=? n) && (n <=? 57) then Some (n - 48) else None.

Fixpoint parseDigits (acc : Z) (s : list ascii) : option Z :=
  match s with
  | [] => Some acc
  | c :: t => d ← digitVal c; parseDigits (acc * 10 + d) t
  end.

(** [strconv.Atoi]: an optional sign, then one or more decimal digits,
    the value within the range of [int]; [None] is the error result. *)
Definition Atoi (s : string) : option Z :=
  match list_ascii_of_string s with
  | [] => None
  | c :: t =>
      let '(neg, ds) :=
        if Ascii.eqb c "-"%char then (true, t)
        else if Ascii.eqb c "+"%char then (false, t)
        else (false, c :: t) in
      match ds with
      | [] => None
      | _ =>
          n ← parseDigits 0 ds;
          let v := if neg : bool then - n else n in
          if (minInt <=? v) && (v <=? maxInt) then Some v else None
      end
  end.

End Bytes.

(** ** Decimal numerals

    What a path segment looks like when it carries a number, stated
    without the parser: the characters [0] to [9], and the numerals built
    from the decimal rendering of a natural number (the one [strconv.Itoa]
    and the verb [%d] produce), possibly behind a sign and leading
    zeros. *)

Module Numeral.

Definition digits : list ascii := list_ascii_of_string "0123456789".

Definition isDigit (c : ascii) : bool := bool_decide (c ∈ digits).

(** The bytes of [s] after an optional leading sign. *)
Definition unsigned (s : list ascii) : list ascii :=
  match s with
  | c :: t => if bool_decide (c = "+"%char ∨ c = "-"%char) then t else s
  | [] => []
  end.

(** [s] is an optional sign followed by one or more decimal digits. *)
Definition numeric (s : string) : bool :=
  let ds := unsigned (list_ascii_of_string s) in
  negb (bool_decide (ds = [])) && forallb isDigit ds.

(** The numeral with sign [sgn] (empty, [+] or [-]), [k] leading zeros and
    the decimal digits of [n]. *)
Definition numeral (sgn : string) (k : nat) (n : N) : string :=
  sgn +:+ string_of_list_ascii (replicate k "0"%char) +:+ pretty n.

(** The integer such a numeral denotes. *)
Definition value (sgn : string) (n : N) : Z :=
  if bool_decide (sgn = "-") then - Z.of_N n else Z.of_N n.

End Numeral.

(** ** The standard library's [path.Clean]

    [urlpath.Clean] delegates to Go's [path.Clean]. The library function
    reads [path] at index [r] and writes into a lazily allocated buffer
    [out] with write index [out.w]; the buffer's content is always the
    bytes written so far, so the model keeps [path[r:]] as the list [rest]
    and [out.buf[:out.w]] as the list [out], most recent byte first
    ([out.w] is its length, [out.append c] is [c :: out]). *)

Module stdpath.
Import Bytes.

(** [r == n || path[r] == '/'] for the position at the head of [rest]. *)
Definition endsElem (rest : list ascii) : bool :=
  match rest with
  | [] => true
  | c :: _ => isSlash c
  end.

(** The inner loop of the [..] case, entered after one [out.w--] that
    removed [removed]:
    [for out.w > dotdot && out.index(out.w) != '/' { out.w-- }]. *)
Fixpoint backtrackLoop (removed : ascii) (out : list ascii) (dotdot : nat)
  : list ascii :=
  match out with
  | [] => []
  | c :: out' =>
      if (dotdot <? length out)%nat && negb (isSlash removed)
      then backtrackLoop c out' dotdot
      else out
  end.

(** [out.w--] followed by the loop above. *)
Definition backtrack (out : list ascii) (dotdot : nat) : list ascii :=
  match out with
  | [] => []
  | c :: out' => backtrackLoop c out' dotdot
  end.

(** The main loop [for r < n { switch { ... } }]. *)
Fixpoint cleanLoop (rooted : bool) (rest : list ascii) (out : list ascii)
    (dotdot : nat) {struct rest} : list ascii :=
  match rest with
  | [] => out
  | c :: t =>
      if isSlash c then
        (* empty path element *)
        cleanLoop rooted t out dotdot
      else if isDot c && endsElem t then
        (* . element *)
        cleanLoop rooted t out dotdot
      else if isDot c &&
              match t with d :: t2 => isDot d && endsElem t2 | [] => false end
      then
        (* .. element: remove to last / *)
        match t with
        | _ :: t2 =>
            if (dotdot <? length out)%nat then
              cleanLoop rooted t2 (backtrack out dotdot) dotdot
            else if negb rooted then
              let out1 := if (0 <? length out)%nat
                          then "/"%char :: out else out in
              let out2 := "."%char :: "."%char :: out1 in
              cleanLoop rooted t2 out2 (length out2)
            else cleanLoop rooted t2 out dotdot
        | [] => out
        end
      else
        (* real path element: add slash if needed, then copy element *)
        let out1 :=
          if (rooted && negb (length out =? 1)%nat)
             || (negb rooted && negb (length out =? 0)%nat)
          then "/"%char :: out else out in
        (fix copy (l : list ascii) (o : list ascii) {struct l} : list ascii :=
           match l with
           | [] => o
           | d :: l' =>
               if isSlash d then cleanLoop rooted l o dotdot
               else copy l' (d :: o)
           end) t (c :: out1)
  end.

(** [path.Clean] on bytes. *)
Definition cleanBytes (path : list ascii) : list ascii :=
  match path with
  | [] => ["."%char]
  | c :: t =>
      let rooted := isSlash c in
      let out :=
        if rooted then cleanLoop true t ["/"%char] 1
        else cleanLoop false path [] 0 in
      (* Turn empty string into "." *)
      match out with
      | [] => ["."%char]
      | _ => rev out
      end
  end.

Definition Clean (path : string) : string :=
  string_of_list_ascii (cleanBytes (list_ascii_of_string path)).

End stdpath.

(** ** Canonical rooted paths

    The shape of the output buffer of [path.Clean] on a rooted path: a stack
    of proper path elements (the deepest directory last), each written after
    a slash. *)

Module Canon.
Import Bytes.

(** The bytes of a path element: up to the next slash. *)
Fixpoint takeElem (l : list ascii) : list ascii :=
  match l with
  | [] => []
  | d :: l' => if isSlash d then [] else d :: takeElem l'
  end.

Fixpoint dropElem (l : list ascii) : list ascii :=
  match l with
  | [] => []
  | d :: l' => if isSlash d then l else dropElem l'
  end.

Definition noSlash (e : list ascii) : Prop :=
  Forall (λ c, isSlash c = false) e.

(** A path element that [path.Clean] keeps. *)
Definition properElem (e : list ascii) : Prop :=
  e ≠ [] ∧ noSlash e ∧ e ≠ ["."%char] ∧ e ≠ ["."%char; "."%char].

(** The buffer (most recent byte first) holding the elements of [stack]. *)
Fixpoint joinR (stack : list (list ascii)) : list ascii :=
  match stack with
  | [] => []
  | e :: st => rev e ++ "/"%char :: joinR st
  end.

Definition outOf (stack : list (list ascii)) : list ascii :=
  match stack with
  | [] => ["/"%char]
  | _ => joinR stack
  end.

(** The canonical path with its closing slash, as [urlpath.Clean] returns
    it: ["/"] for the empty stack, ["/a/b/"] for the stack [b; a]. *)
Definition canon (stack : list (list ascii)) : list ascii :=
  rev ("/"%char :: joinR stack).

End Canon.

(** ** Package [urlpath] *)

Module urlpath.
Import Bytes.

(** [Clean]: [None] stands for the index-out-of-range panic of
    [path[len(path)-1]] on an empty string. *)
Definition Clean (path : string) : option string :=
  let path := stdpath.Clean ("/" +:+ path) in
  match lastByte (list_ascii_of_string path) with
  | None => None
  | Some c => if negb (isSlash c) then Some (path +:+ "/") else Some path
  end.

(** [path[1:]]: [None] where Go panics with a slice bound out of range. *)
Definition sliceFrom1 (s : string) : option string :=
  match s with
  | EmptyString => None
  | String _ t => Some t
  end.

(** [Split]: [None] stands for a run-time panic (of [Clean] or of the
    slice expression [path[1:]]). *)
Definition Split (path : string) : option (string * string) :=
  path ← Clean path;
  rest ← sliceFrom1 path;
  let parts := SplitN2 rest "/" in
  let parts := if (length parts <? 2)%nat then parts ++ ["/"] else parts in
  head ← parts !! 0%nat;
  tail0 ← parts !! 1%nat;
  tail ← Clean tail0;
  Some (head, tail).

End urlpath.

(** ** Package [time] (the part the handlers use) *)

Module time.

(** An instant, in nanoseconds from a fixed origin. *)
Definition Time : Type := Z.
(** [time.Duration]: an [int64] count of nanoseconds. *)
Definition Duration : Type := Z.

Definition Nanosecond : Duration := 1.
Definition Second : Duration := 1000000000 * Nanosecond.
Definition Minute : Duration := 60 * Second.
Definition Hour : Duration := 60 * Minute.

Definition minDuration : Duration := - 2 ^ 63.
Definition maxDuration : Duration := 2 ^ 63 - 1.

(** [t.Sub(u)]: the duration [t - u], saturated at the largest and the
    smallest [Duration] when the difference does not fit. *)
Definition Sub (t u : Time) : Duration :=
  let d := t - u in
  if d <? minDuration then minDuration
  else if maxDuration <? d then maxDuration
  else d.

End time.

(** ** Packages [db] and [stripe]: the types the handlers exchange *)

Module db.

Module Campaign.
Record t : Type := mk {
  ID : Z;
  StartsAt : time.Time;
  EndsAt : time.Time;
  Price : Z
}.
End Campaign.

Module Customer.
Record t : Type := mk { Name : string; Email : string }.
End Customer.

Module Address.
Record t : Type := mk {
  Street1 : string;
  Street2 : string;
  City : string;
  State : string;
  Zip : string;
  Country : string;
  Raw : string
}.
End Address.

Module Payment.
Record t : Type := mk {
  Source : string;
  CustomerID : string;
  ChargeID : string
}.
End Payment.

Module Order.
Record t : Type := mk {
  ID : Z;
  CampaignID : Z;
  Customer : Customer.t;
  Address : Address.t;
  Payment : Payment.t
}.

(** In-place field updates through the order pointer. *)
Definition setID (id : Z) (o : t) : t :=
  mk id (CampaignID o) (Customer o) (Address o) (Payment o).
Definition setAddressRaw (raw : string) (o : t) : t :=
  let a := Address o in
  mk (ID o) (CampaignID o) (Customer o)
     (Address.mk (Address.Street1 a) (Address.Street2 a) (Address.City a)
        (Address.State a) (Address.Zip a) (Address.Country a) raw)
     (Payment o).
Definition setChargeID (chg : string) (o : t) : t :=
  let p := Payment o in
  mk (ID o) (CampaignID o) (Customer o) (Address o)
     (Payment.mk (Payment.Source p) (Payment.CustomerID p) chg).
End Order.

End db.

Module stripe.

Module Customer.
Record t : Type := mk { ID : string }.
End Customer.

Module Charge.
Record t : Type := mk { ID : string; Status : string }.
End Charge.

(** [stripe.Error]: the payment processor's own error class. *)
Module Error.
Record t : Type := mk { Message : string }.
End Error.

End stripe.

(** Values of Go's [error] interface, by the classes the handlers tell
    apart: [sql.ErrNoRows] (compared with [==]), a [stripe.Error] (found by
    type assertion), and every other error. *)
Inductive error : Type :=
  | ErrNoRows
  | StripeError (e : stripe.Error.t)
  | OtherError (description : string).

Inductive result (A : Type) : Type :=
  | Ok (a : A)
  | Err (e : error).
Arguments Ok {A} a.
Arguments Err {A} e.

(** ** Package [http] of the repository *)

Module swaghttp.
Import Bytes.

(** The line feed inside Go's raw string literals and after [Fprintln]. *)
Definition LF : string := String lf EmptyString.

(** [url.Values] *)
Abbreviation Values := (gmap string (list string)).

(** [v.Get(key)], also [r.PostFormValue(key)] on the parsed form: the
    first value of the key, or the empty string. *)
Definition Get (v : Values) (key : string) : string :=
  match v !! key with
  | Some (x :: _) => x
  | _ => ""
  end.

(** Values stored in a request context, by dynamic type. *)
Inductive CtxVal : Type :=
  | VCampaign (c : db.Campaign.t)
  | VOrder (o : db.Order.t)
  | VString (s : string).

(** [context.Context]: the chain of [WithValue] pairs, innermost first. *)
Definition Context : Type := list (string * CtxVal).

Definition WithValue (ctx : Context) (key : string) (v : CtxVal) : Context :=
  (key, v) :: ctx.

Fixpoint Value (ctx : Context) (key : string) : option CtxVal :=
  match ctx with
  | [] => None
  | (k, v) :: ctx' => if decide (k = key) then Some v else Value ctx' key
  end.

Record Request : Type := mkRequest {
  Method : string;
  URLPath : string;
  PostForm : Values;
  Ctx : Context
}.

Definition WithContext (r : Request) (ctx : Context) : Request :=
  mkRequest (Method r) (URLPath r) (PostForm r) ctx.
Definition setURLPath (r : Request) (path : string) : Request :=
  mkRequest (Method r) path (PostForm r) (Ctx r).

(** The anonymous struct [formData] of [Create]. *)
Record createForm : Type := mkCreateForm {
  Name : string;
  Email : string;
  Street1 : string;
  Street2 : string;
  City : string;
  State : string;
  Zip : string;
  Country : string
}.

(** The data handed to the templates. The form template also receives an
    [OrderForm] field, which [New] leaves at its zero value. *)
Record newData : Type := mkNewData {
  newCampaignID : Z;
  newCampaignPrice : Z;
  newStripePublicKey : string
}.
Record reviewData : Type := mkReviewData {
  reviewOrderID : string;
  reviewOrderAddress : string;
  reviewCampaignPrice : Z
}.
Record showData : Type := mkShowData {
  showID : Z;
  showPrice : Z;
  showTimeLeftValue : Z;
  showTimeLeftUnit : string
}.

(** Arguments of a [Logger.Printf] call. *)
Inductive LogArg : Type :=
  | LogString (s : string)
  | LogError (e : error).

(** Why a handler panicked. *)
Inductive PanicValue : Type :=
  | PanicString (s : string)
  | PanicTypeAssertion (key : string)
  | PanicIndexOutOfRange.

(** Everything a handler does that is visible outside of it, in the order
    it happens: calls to the storage and payment collaborators with their
    results, the clock, the logger, and the calls on the response
    writer. *)
Inductive Event : Type :=
  | DBActiveCampaign (res : result db.Campaign.t)
  | DBGetCampaign (id : Z) (res : result db.Campaign.t)
  | DBCreateOrder (order : db.Order.t) (res : result Z)
  | DBGetOrderViaPayCus (payCusID : string) (res : result db.Order.t)
  | DBConfirmOrder (orderID : Z) (addressRaw chargeID : string)
      (res : option error)
  | StripeCustomer (token email : string) (res : result stripe.Customer.t)
  | StripeGetCharge (chargeID : string) (res : result stripe.Charge.t)
  | StripeCharge (customerID : string) (amount : Z)
      (res : result stripe.Charge.t)
  | TimeNow (now : time.Time)
  | LogPrintf (format : string) (args : list LogArg)
  | HTTPError (msg : string) (code : Z)
  | HTTPNotFound
  | HTTPRedirect (url : string) (code : Z)
  | Fprint (s : string)
  | Fprintln (s : string)
  | ExecuteNew (data : newData) (output : string) (err : option error)
  | ExecuteReview (data : reviewData) (output : string) (err : option error)
  | ExecuteShow (data : showData) (output : string) (err : option error)
  | ExecuteEnded (output : string) (err : option error).

Definition StatusOK : Z := 200.
Definition StatusFound : Z := 302.
Definition StatusBadRequest : Z := 400.
Definition StatusNotFound : Z := 404.
Definition StatusInternalServerError : Z := 500.

(** The status code an event puts on a response whose header is not
    written yet: [http.Error], [http.NotFound] and [http.Redirect] write
    the header with their code, a first write of body bytes writes it
    with 200. *)
Definition eventStatus (e : Event) : option Z :=
  match e with
  | HTTPError _ code => Some code
  | HTTPNotFound => Some StatusNotFound
  | HTTPRedirect _ code => Some code
  | Fprint s => Some StatusOK
  | Fprintln s => Some StatusOK
  | ExecuteNew _ out _ | ExecuteReview _ out _ | ExecuteShow _ out _
  | ExecuteEnded out _ =>
      if decide (out = "") then None else Some StatusOK
  | _ => None
  end.

(** The status code of the response after a handler has returned: the
    first header written, and 200 when the handler wrote nothing. *)
Definition responseStatus (tr : list Event) : Z :=
  match omap eventStatus tr with
  | code :: _ => code
  | [] => StatusOK
  end.

(** The body bytes an event writes; [None] for [http.Redirect], whose
    body the library composes. *)
Definition eventBody (e : Event) : option string :=
  match e with
  | HTTPError msg _ => Some (msg +:+ LF)
  | HTTPNotFound => Some ("404 page not found" +:+ LF)
  | HTTPRedirect _ _ => None
  | Fprint s => Some s
  | Fprintln s => Some (s +:+ LF)
  | ExecuteNew _ out _ | ExecuteReview _ out _ | ExecuteShow _ out _
  | ExecuteEnded out _ => Some out
  | _ => Some ""
  end.

Fixpoint responseBody (tr : list Event) : option string :=
  match tr with
  | [] => Some ""
  | e :: tr' =>
      b ← eventBody e; rest ← responseBody tr'; Some (b +:+ rest)
  end.

(** The target of the response's redirect, if any. *)
Definition redirectTarget (tr : list Event) : option string :=
  match omap (λ e, match e with HTTPRedirect url _ => Some url | _ => None end)
             tr with
  | url :: _ => Some url
  | [] => None
  end.

Section Handlers.

(** The state of the world behind the collaborators. *)
Variable World : Type.

(** [strings.Map(unicode.ToUpper, s)], for strings that are not plain
    ASCII (see [Bytes.ToUpper]). *)
Variable unicodeUpper : string → string.

(** [schema.NewDecoder().Decode(&formData, r.PostForm)] of the
    gorilla/schema library: the form as decoded into the struct (the
    error it returns is dropped by the caller). *)
Variable schemaDecode : Values → createForm.

(** *** Handler computations *)

Record HState : Type := mkHState {
  world : World;
  trace : list Event
}.

Inductive Outcome (A : Type) : Type :=
  | Returned (a : A)
  | Panicked (p : PanicValue).
Arguments Returned {A} a.
Arguments Panicked {A} p.

Definition M (A : Type) : Type := HState → Outcome A * HState.

Definition ret {A} (a : A) : M A := λ s, (Returned a, s).

Definition bind {A B} (m : M A) (k : A → M B) : M B :=
  λ s, match m s with
       | (Returned a, s') => k a s'
       | (Panicked p, s') => (Panicked p, s')
       end.

Definition panic {A} (p : PanicValue) : M A := λ s, (Panicked p, s).

(** Appends one event to the trace. *)
Definition emit (e : Event) : M unit :=
  λ s, (Returned tt, mkHState (world s) (trace s ++ [e])).

(** A call to a collaborator: it may change the world, and the call is
    recorded with its result. *)
Definition call {R} (f : World → World * R) (ev : R → Event) : M R :=
  λ s, let '(w', r) := f (world s) in
       (Returned r, mkHState w' (trace s ++ [ev r])).

(** A handler runs against a response writer and a request. *)
Definition HandlerFunc : Type := Request → M unit.

(** Running a handler on a fresh response writer. *)
Definition serve (h : HandlerFunc) (r : Request) (w : World)
  : Outcome unit * HState :=
  h r (mkHState w []).

(** *** The collaborators *)

(** A parsed template: [Execute(w, data)] writes [output] to the response
    and returns an error or nil. *)
Definition Template (D : Type) : Type := D → string * option error.

(** The [Logger] interface. *)
Record Logger : Type := mkLogger {
  Printf : string → list LogArg → World → World
}.

(** The [DB] field of [OrderHandler]. [CreateOrder] receives a pointer to
    the order; a successful call returns the ID it assigned (see
    [afterCreateOrder]). *)
Record OrderDB : Type := mkOrderDB {
  CreateOrder : db.Order.t → World → World * result Z;
  GetOrderViaPayCus : string → World → World * result db.Order.t;
  GetCampaign : Z → World → World * result db.Campaign.t;
  ConfirmOrder : Z → string → string → World → World * option error
}.

(** The [Stripe.Client] field of [OrderHandler]. *)
Record StripeClient : Type := mkStripeClient {
  Customer : string → string → World → World * result stripe.Customer.t;
  GetCharge : string → World → World * result stripe.Charge.t;
  Charge : string → Z → World → World * result stripe.Charge.t
}.

Record OrderHandler : Type := mkOrderHandler {
  DB : OrderDB;
  StripePublicKey : string;
  Client : StripeClient;
  TemplatesNew : Template newData;
  TemplatesReview : Template reviewData;
  OrderLogger : Logger
}.

Record CampaignDB : Type := mkCampaignDB {
  ActiveCampaign : World → World * result db.Campaign.t;
  CampaignGetCampaign : Z → World → World * result db.Campaign.t
}.

Record CampaignHandler : Type := mkCampaignHandler {
  CampaignHandlerDB : CampaignDB;
  CampaignLogger : Logger;
  TemplatesShow : Template showData;
  TemplatesEnded : Template unit;
  TimeNowFunc : World → World * time.Time
}.

(** Modelled from the spec: the storage layer (package [db]) is not part
    of the sources at hand. By the storage interface of the
    specification, CreateOrder "assigns ID" or fails: after a successful
    call the order behind the pointer is the same order with the ID
    assigned by storage. *)
Definition afterCreateOrder (order : db.Order.t) (res : result Z)
  : db.Order.t :=
  match res with
  | Ok id => db.Order.setID id order
  | Err _ => order
  end.

#[local] Instance M_ret : MRet M := @ret.
#[local] Instance M_bind : MBind M := λ A B k m, bind m k.

Definition logPrintf (l : Logger) (format : string) (args : list LogArg)
  : M unit :=
  λ s, (Returned tt,
        mkHState (Printf l format args (world s))
                 (trace s ++ [LogPrintf format args])).

(** [t.Execute(w, data)] *)
Definition execute {D} (t : Template D)
    (ev : D → string → option error → Event) (data : D)
  : M (option error) :=
  let '(out, err) := t data in
  emit (ev data out err);; mret err.

(** The type assertion of [r.Context().Value(key)] to a campaign
    pointer, in the form with [ok]. *)
Definition campaignOf (r : Request) (key : string) : option db.Campaign.t :=
  match Value (Ctx r) key with
  | Some (VCampaign c) => Some c
  | _ => None
  end.

(** The type assertion of [r.Context().Value(key)] to an order pointer,
    in the form with [ok]. *)
Definition orderOf (r : Request) (key : string) : option db.Order.t :=
  match Value (Ctx r) key with
  | Some (VOrder o) => Some o
  | _ => None
  end.

(** A type assertion without [ok] panics where the one with [ok]
    reports false. *)
Definition mustAssert {A} (key : string) (v : option A) : M A :=
  match v with
  | Some a => mret a
  | None => panic (PanicTypeAssertion key)
  end.

(** *** The texts sent to the client *)

Definition msgCampaignNotProvided : string := "Campaign not provided".
Definition msgGeneric : string := "Something went wrong...".
Definition msgPaymentInfo : string :=
  "Something went wrong processing your payment information. Try again, or contact me - jon@calhoun.io - if the problem persists.".
Definition msgLookupFailed : string :=
  "Failed to lookup the status of your order. Please try again, or contact me if this persists - jon@calhoun.io".
Definition msgSucceeded : string :=
  "Your order has been completed successfully! You will be contacted when it ships.".
Definition msgPending : string := "Your payment is still pending.".
Definition msgFailed : string :=
  "Your payment failed. :( Please create a new order with a new card if you want to try again.".
Definition msgCardFailed : string :=
  "Something went wrong processing your card. Please contact me for support - jon@calhoun.io".
Definition msgChargedNotSaved : string :=
  "You were charged, but something went wrong saving your data. Please contact me for support - jon@calhoun.io".

(** *** [OrderHandler] *)

Definition New (oh : OrderHandler) : HandlerFunc := λ r,
  match campaignOf r "campaign" with
  | None =>
      emit (HTTPError msgCampaignNotProvided StatusInternalServerError)
  | Some campaign =>
      let data :=
        mkNewData (db.Campaign.ID campaign)
                  (db.Campaign.Price campaign ÷ 100)
                  (StripePublicKey oh) in
      err ← execute (TemplatesNew oh) ExecuteNew data;
      match err with
      | Some e =>
          logPrintf (OrderLogger oh)
            "Error executing the new_order template. err = %v" [LogError e]
      | None => mret tt
      end
  end.

(** The raw address block built by [fmt.Sprintf] in [Create]. *)
Definition addressBlock (name street1 street2 city state zip country : string)
  : string :=
  name +:+ LF +:+
  street1 +:+ LF +:+
  street2 +:+ LF +:+
  city +:+ " " +:+ state +:+ "  " +:+ zip +:+ LF +:+
  country.

Definition rawAddress (f : createForm) : string :=
  let raw := addressBlock (Name f) (Street1 f) (Street2 f)
               (City f) (State f) (Zip f) (Country f) in
  let raw := ReplaceFirst raw (LF +:+ LF) LF in
  ToUpper unicodeUpper raw.

(** The order [Create] has built when it calls [CreateOrder]. *)
Definition newOrder (campaign : db.Campaign.t) (f : createForm)
    (cus : stripe.Customer.t) : db.Order.t :=
  db.Order.mk 0 (db.Campaign.ID campaign)
    (db.Customer.mk (Name f) (Email f))
    (db.Address.mk (Street1 f) (Street2 f) (City f) (State f) (Zip f)
       (Country f) (rawAddress f))
    (db.Payment.mk "stripe" (stripe.Customer.ID cus) "").

Definition Create (oh : OrderHandler) : HandlerFunc := λ r,
  campaign ← mustAssert "campaign" (campaignOf r "campaign");
  let formData := schemaDecode (PostForm r) in
  if decide (Email formData = "") then
    panic (PanicString "email wasn't parsed!")
  else
    let token := Get (PostForm r) "stripe-token" in
    res ← call (Customer (Client oh) token (Email formData))
               (StripeCustomer token (Email formData));
    match res with
    | Err err =>
        logPrintf (OrderLogger oh)
          "Error creating stripe customer. email = %s, err = %v"
          [LogString (Email formData); LogError err];;
        emit (HTTPError msgPaymentInfo StatusInternalServerError)
    | Ok cus =>
        let order := newOrder campaign formData cus in
        res ← call (CreateOrder (DB oh) order) (DBCreateOrder order);
        let order := afterCreateOrder order res in
        match res with
        | Err _ => emit (HTTPError msgGeneric StatusBadRequest)
        | Ok _ =>
            emit (HTTPRedirect
                    ("/orders/" +:+
                       db.Payment.CustomerID (db.Order.Payment order))
                    StatusFound)
        end
    end.

Definition OrderMw (oh : OrderHandler) (next : HandlerFunc) : HandlerFunc :=
  λ r,
  match urlpath.Split (URLPath r) with
  | None => panic PanicIndexOutOfRange
  | Some (payCusID, path) =>
      res ← call (GetOrderViaPayCus (DB oh) payCusID)
                 (DBGetOrderViaPayCus payCusID);
      match res with
      | Err _ => emit HTTPNotFound
      | Ok order =>
          let ctx := WithValue (Ctx r) "order" (VOrder order) in
          let r := WithContext r ctx in
          let r := setURLPath r path in
          next r
      end
  end.

Definition Show (oh : OrderHandler) : HandlerFunc := λ r,
  order ← mustAssert "order" (orderOf r "order");
  res ← call (GetCampaign (DB oh) (db.Order.CampaignID order))
             (DBGetCampaign (db.Order.CampaignID order));
  match res with
  | Err _ =>
      logPrintf (OrderLogger oh) ("error retrieving order campaign" +:+ LF) [];;
      emit (HTTPError msgGeneric StatusInternalServerError)
  | Ok campaign =>
      let chargeID := db.Payment.ChargeID (db.Order.Payment order) in
      if decide (chargeID ≠ "") then
        res ← call (GetCharge (Client oh) chargeID) (StripeGetCharge chargeID);
        match res with
        | Err err =>
            logPrintf (OrderLogger oh)
              "error looking up a customer's charge where chg.ID = %s; err = %v"
              [LogString chargeID; LogError err];;
            emit (Fprintln msgLookupFailed)
        | Ok chg =>
            let status := stripe.Charge.Status chg in
            if decide (status = "succeeded") then emit (Fprintln msgSucceeded)
            else if decide (status = "pending") then emit (Fprintln msgPending)
            else if decide (status = "failed") then emit (Fprintln msgFailed)
            else mret tt
        end
      else
        let data :=
          mkReviewData
            (db.Payment.CustomerID (db.Order.Payment order))
            (db.Address.Raw (db.Order.Address order))
            (db.Campaign.Price campaign ÷ 100) in
        execute (TemplatesReview oh) ExecuteReview data;; mret tt
  end.

(** [Confirm] updates the raw address and the charge ID of the order in
    place; the order is the request's own, and the updated fields reach the
    collaborators as the arguments of [ConfirmOrder]. *)
Definition Confirm (oh : OrderHandler) : HandlerFunc := λ r,
  order ← mustAssert "order" (orderOf r "order");
  res ← call (GetCampaign (DB oh) (db.Order.CampaignID order))
             (DBGetCampaign (db.Order.CampaignID order));
  match res with
  | Err _ =>
      logPrintf (OrderLogger oh) ("error retrieving order campaign" +:+ LF) [];;
      emit (HTTPError msgGeneric StatusInternalServerError)
  | Ok campaign =>
      let order := db.Order.setAddressRaw (Get (PostForm r) "address-raw") order in
      let customerID := db.Payment.CustomerID (db.Order.Payment order) in
      res ← call (Charge (Client oh) customerID (db.Campaign.Price campaign))
                 (StripeCharge customerID (db.Campaign.Price campaign));
      match res with
      | Err (StripeError se) => emit (Fprint (stripe.Error.Message se))
      | Err _ =>
          emit (HTTPError msgCardFailed StatusInternalServerError)
      | Ok chg =>
          let order := db.Order.setChargeID (stripe.Charge.ID chg) order in
          err ← call (ConfirmOrder (DB oh) (db.Order.ID order)
                        (db.Address.Raw (db.Order.Address order))
                        (db.Payment.ChargeID (db.Order.Payment order)))
                     (DBConfirmOrder (db.Order.ID order)
                        (db.Address.Raw (db.Order.Address order))
                        (db.Payment.ChargeID (db.Order.Payment order)));
          match err with
          | Some _ =>
              emit (HTTPError msgChargedNotSaved StatusInternalServerError)
          | None =>
              emit (HTTPRedirect
                      ("/orders/" +:+
                         db.Payment.CustomerID (db.Order.Payment order))
                      StatusFound)
          end
      end
  end.

(** *** [CampaignHandler] *)

(** The [switch] of [ShowActive] on the time left. *)
Definition timeLeft (left : time.Duration) : Z * string :=
  if 24 * time.Hour <=? left then (left ÷ (24 * time.Hour), "day(s)")
  else if time.Hour <=? left then (left ÷ time.Hour, "hour(s)")
  else if time.Minute <=? left then (left ÷ time.Minute, "minute(s)")
  else (left ÷ time.Second, "second(s)").

Definition ShowActive (ch : CampaignHandler) : HandlerFunc := λ r,
  res ← call (ActiveCampaign (CampaignHandlerDB ch)) DBActiveCampaign;
  match res with
  | Err ErrNoRows =>
      err ← execute (TemplatesEnded ch) (λ _, ExecuteEnded) tt;
      match err with
      | Some e =>
          logPrintf (CampaignLogger ch)
            "Error executing campaign ended template. err = %v" [LogError e]
      | None => mret tt
      end
  | Err err =>
      logPrintf (CampaignLogger ch)
        "Error retrieving the active campaign. err = %v" [LogError err];;
      emit (HTTPError msgGeneric StatusInternalServerError)
  | Ok campaign =>
      now ← call (TimeNowFunc ch) TimeNow;
      let left := time.Sub (db.Campaign.EndsAt campaign) now in
      let '(leftValue, leftUnit) := timeLeft left in
      let data :=
        mkShowData (db.Campaign.ID campaign)
                   (db.Campaign.Price campaign ÷ 100)
                   leftValue leftUnit in
      err ← execute (TemplatesShow ch) ExecuteShow data;
      match err with
      | Some e =>
          logPrintf (CampaignLogger ch)
            "Error executing campaign show template. err = %v" [LogError e]
      | None => mret tt
      end
  end.

Definition CampaignMw (ch : CampaignHandler) (next : HandlerFunc)
  : HandlerFunc := λ r,
  match urlpath.Split (URLPath r) with
  | None => panic PanicIndexOutOfRange
  | Some (idStr, path) =>
      match Atoi idStr with
      | None => emit HTTPNotFound
      | Some id =>
          res ← call (CampaignGetCampaign (CampaignHandlerDB ch) id)
                     (DBGetCampaign id);
          match res with
          | Err _ => emit HTTPNotFound
          | Ok campaign =>
              let ctx := WithValue (Ctx r) "campaign" (VCampaign campaign) in
              let r := WithContext r ctx in
              let r := setURLPath r path in
              next r
          end
      end
  end.

End Handlers.

Arguments mkHState {World} world trace.
Arguments world {World} h.
Arguments trace {World} h.
Arguments Returned {A} a.
Arguments Panicked {A} p.
Arguments serve {World} h r w.
Arguments mkLogger {World} Printf.
Arguments Printf {World} l format args w.
Arguments mkOrderDB {World} CreateOrder GetOrderViaPayCus GetCampaign
  ConfirmOrder.
Arguments CreateOrder {World} o order w.
Arguments GetOrderViaPayCus {World} o payCusID w.
Arguments GetCampaign {World} o id w.
Arguments ConfirmOrder {World} o orderID addressRaw chargeID w.
Arguments mkStripeClient {World} Customer GetCharge Charge.
Arguments Customer {World} s token email w.
Arguments GetCharge {World} s chargeID w.
Arguments Charge {World} s customerID amount w.
Arguments mkOrderHandler {World} DB StripePublicKey Client TemplatesNew
  TemplatesReview OrderLogger.
Arguments DB {World} o.
Arguments StripePublicKey {World} o.
Arguments Client {World} o.
Arguments TemplatesNew {World} o.
Arguments TemplatesReview {World} o.
Arguments OrderLogger {World} o.
Arguments mkCampaignDB {World} ActiveCampaign CampaignGetCampaign.
Arguments ActiveCampaign {World} c w.
Arguments CampaignGetCampaign {World} c id w.
Arguments mkCampaignHandler {World} CampaignHandlerDB CampaignLogger
  TemplatesShow TemplatesEnded TimeNowFunc.
Arguments CampaignHandlerDB {World} c.
Arguments CampaignLogger {World} c.
Arguments TemplatesShow {World} c.
Arguments TemplatesEnded {World} c.
Arguments TimeNowFunc {World} c w.
Arguments New {World} oh r.
Arguments Create {World} unicodeUpper schemaDecode oh r.
Arguments OrderMw {World} oh next r.
Arguments Show {World} oh r.
Arguments Confirm {World} oh r.
Arguments ShowActive {World} ch r.
Arguments CampaignMw {World} ch next r.

(** *** Reading a trace *)

(** The arguments of the [ConfirmOrder] calls of a trace. *)
Definition confirmOrderCalls (tr : list Event) : list (Z * string * string) :=
  omap (λ e, match e with
             | DBConfirmOrder id addr chg _ => Some (id, addr, chg)
             | _ => None
             end) tr.

(** The orders handed to [CreateOrder]. *)
Definition createOrderCalls (tr : list Event) : list db.Order.t :=
  omap (λ e, match e with
             | DBCreateOrder order _ => Some order
             | _ => None
             end) tr.

(** The charge-creating calls of a trace. *)
Definition chargeCalls (tr : list Event) : list (string * Z) :=
  omap (λ e, match e with
             | StripeCharge cus amount _ => Some (cus, amount)
             | _ => None
             end) tr.

(** The charge-status lookups of a trace. *)
Definition getChargeCalls (tr : list Event) : list string :=
  omap (λ e, match e with
             | StripeGetCharge chg _ => Some chg
             | _ => None
             end) tr.

(** The data of the review and of the campaign views rendered. *)
Definition reviewsRendered (tr : list Event) : list reviewData :=
  omap (λ e, match e with
             | ExecuteReview d _ _ => Some d
             | _ => None
             end) tr.
Definition campaignsShown (tr : list Event) : list showData :=
  omap (λ e, match e with
             | ExecuteShow d _ _ => Some d
             | _ => None
             end) tr.

(** Storage operations that write. *)
Definition isStorageWrite (e : Event) : bool :=
  match e with
  | DBCreateOrder _ _ | DBConfirmOrder _ _ _ _ => true
  | _ => false
  end.

End swaghttp.

(** ** Stand-ins for the collaborators

    In the manner of the repository's test doubles ([mockDB], [mockStripe],
    [logRecorder]): every call answers from a fixed script, and the world is
    the number of calls made so far. *)

Module Mock.
Import swaghttp.

Definition World : Type := nat.

Definition campaign : db.Campaign.t :=
  db.Campaign.mk 999 0 (2 * time.Hour) 1200.

Definition order (chargeID : string) : db.Order.t :=
  db.Order.mk 123 999
    (db.Customer.mk "Chris Greene" "chris@test.com")
    (db.Address.mk "PO BOX 295" "" "BEDFORD" "PA" "15522" "UNITED STATES"
       "CHRIS GREENE")
    (db.Payment.mk "stripe" "cus_abc123" chargeID).

Definition logger : Logger World := mkLogger (λ _ _ w, S w).

Definition orderDB (stored : db.Order.t) (confirmErr : option error)
  : OrderDB World :=
  mkOrderDB
    (λ _ w, (S w, Ok 123))
    (λ id w, (S w, if decide (id = "cus_abc123") then Ok stored
                   else Err ErrNoRows))
    (λ id w, (S w, if decide (id = 999) then Ok campaign else Err ErrNoRows))
    (λ _ _ _ w, (S w, confirmErr)).

Definition stripeClient (getCharge charge : result stripe.Charge.t)
  : StripeClient World :=
  mkStripeClient
    (λ _ _ w, (S w, Ok (stripe.Customer.mk "cus_X")))
    (λ _ w, (S w, getCharge))
    (λ _ _ w, (S w, charge)).

Definition orderHandler (stored : db.Order.t) (confirmErr : option error)
    (getCharge charge : result stripe.Charge.t) : OrderHandler World :=
  mkOrderHandler (orderDB stored confirmErr) "pk_test"
    (stripeClient getCharge charge)
    (λ _, ("new order form", None))
    (λ _, ("review order", None))
    logger.

Definition campaignHandler (active : result db.Campaign.t) (now : time.Time)
  : CampaignHandler World :=
  mkCampaignHandler
    (mkCampaignDB
       (λ w, (S w, active))
       (λ id w, (S w, if decide (id = 999) then Ok campaign
                      else Err ErrNoRows)))
    logger
    (λ _, ("show campaign", None))
    (λ _, ("campaign ended", None))
    (λ w, (S w, now)).

(** A decoder that fills every field from the form value of its name. *)
Definition decode (v : Values) : createForm :=
  mkCreateForm (Get v "Name") (Get v "Email") (Get v "Street1")
    (Get v "Street2") (Get v "City") (Get v "State") (Get v "Zip")
    (Get v "Country").

Definition request (method path : string) (form : list (string * string))
    (ctx : Context) : Request :=
  mkRequest method path (list_to_map ((λ kv, (kv.1, [kv.2])) <$> form)) ctx.

Definition createRequest (street1 street2 : string) (ctx : Context)
  : Request :=
  request "POST" "/" 
    [("Name", "Chris Greene"); ("Email", "a@b.com");
     ("Street1", street1); ("Street2", street2); ("City", "Bedford");
     ("State", "PA"); ("Zip", "15522"); ("Country", "United States");
     ("stripe-token", "tok_1")]
    ctx.

Definition confirmRequest (chargeID : string) : Request :=
  request "POST" "/confirm/" [("address-raw", "NEW ADDRESS HERE")]
    [("order", VOrder (order chargeID))].

Definition showRequest (chargeID : string) : Request :=
  request "GET" "/" [] [("order", VOrder (order chargeID))].

Definition charged : stripe.Charge.t := stripe.Charge.mk "chg_Y" "succeeded".
Definition declined : error :=
  StripeError (stripe.Error.mk "Your card was declined.").
Definition campaignCtx : Context := [("campaign", VCampaign campaign)].

(** An inner handler that writes the path it is given. *)
Definition echoPath : HandlerFunc World :=
  λ r, emit World (Fprintln (URLPath r)).

End Mock.

(** ** Paths by their segments *)

Module Segments.
Import Bytes.

(** A segment that a cleaned path can hold: not empty, without a slash, and
    neither [.] nor [..]. *)
Definition properSeg (seg : string) : Prop :=
  Canon.properElem (list_ascii_of_string seg).

(** The same as a test. *)
Definition properSegb (seg : string) : bool :=
  let e := list_ascii_of_string seg in
  negb (bool_decide (e = []))
  && forallb (λ c, negb (isSlash c)) e
  && negb (bool_decide (e = ["."%char]))
  && negb (bool_decide (e = ["."%char; "."%char])).

(** The segments in order, each closed by a slash. *)
Fixpoint segsPath (segs : list string) : string :=
  match segs with
  | [] => ""
  | seg :: rest => seg +:+ "/" +:+ segsPath rest
  end.

(** The cleaned path with the given segments: ["/"] for none,
    ["/a/b/"] for [a; b]. *)
Definition pathOf (segs : list string) : string := "/" +:+ segsPath segs.

End Segments.

(** ** The standard library's [http.ServeMux] and [http.StripPrefix]

    The request multiplexer as the program uses it: patterns that are
    rooted paths (no host names), on requests that the server has accepted
    (the request URI is not the bare [*]) and whose URL carries no separate
    raw path. *)

Module nethttp.
Import Bytes swaghttp.

(** [cleanPath]: the canonical path for [p], with its trailing slash put
    back. *)
Definition cleanPath (p : string) : string :=
  match p with
  | EmptyString => "/"
  | String c _ =>
      let p := if negb (isSlash c) then "/" +:+ p else p in
      let np := stdpath.Clean p in
      if bool_decide (lastByte (list_ascii_of_string p) = Some "/"%char)
         && negb (bool_decide (np = "/"))
      then
        if (String.length p =? String.length np + 1)%nat
           && hasPrefix (list_ascii_of_string p) (list_ascii_of_string np)
        then p
        else np +:+ "/"
      else np
  end.

(** [strings.TrimPrefix] *)
Definition TrimPrefix (s prefix : string) : string :=
  if hasPrefix (list_ascii_of_string s) (list_ascii_of_string prefix)
  then string_of_list_ascii
         (List.skipn (String.length prefix) (list_ascii_of_string s))
  else s.

Section Mux.

Variable World : Type.

(** [u.String()] for the URL the multiplexer redirects to: the given path
    with the query of the request. *)
Variable redirectURL : Request → string → string.

Record muxEntry : Type := mkMuxEntry {
  h : HandlerFunc World;
  pattern : string
}.

(** [m] holds every registered entry, [es] the entries whose pattern ends
    in a slash, from the longest pattern to the shortest. *)
Record ServeMux : Type := mkServeMux {
  m : list muxEntry;
  es : list muxEntry
}.

Definition NewServeMux : ServeMux := mkServeMux [] [].

(** [appendSorted]: the entry goes before the first entry with a shorter
    pattern. *)
Fixpoint appendSorted (es : list muxEntry) (e : muxEntry) : list muxEntry :=
  match es with
  | [] => [e]
  | e' :: rest =>
      if (String.length (pattern e') <? String.length (pattern e))%nat
      then e :: es
      else e' :: appendSorted rest e
  end.

(** [mux.Handle(pattern, handler)], for a pattern that is not empty and not
    registered yet (the library panics otherwise). *)
Definition Handle (mux : ServeMux) (pat : string) (handler : HandlerFunc World)
  : ServeMux :=
  let e := mkMuxEntry handler pat in
  mkServeMux (m mux ++ [e])
    (if bool_decide (lastByte (list_ascii_of_string pat) = Some "/"%char)
     then appendSorted (es mux) e else es mux).

(** [mux.match(path)]: an exact match first, else the longest pattern that
    is a prefix of the path. *)
Definition muxMatch (mux : ServeMux) (path : string) : option muxEntry :=
  match find (λ e, bool_decide (pattern e = path)) (m mux) with
  | Some e => Some e
  | None =>
      find (λ e, hasPrefix (list_ascii_of_string path)
                   (list_ascii_of_string (pattern e))) (es mux)
  end.

Definition NotFoundHandler : HandlerFunc World := λ r, emit World HTTPNotFound.

Definition RedirectHandler (url : string) (code : Z) : HandlerFunc World :=
  λ r, emit World (HTTPRedirect url code).

Definition StatusMovedPermanently : Z := 301.

(** [mux.handler(host, path)] without host patterns. *)
Definition handler (mux : ServeMux) (path : string) : HandlerFunc World :=
  match muxMatch mux path with
  | Some e => h e
  | None => NotFoundHandler
  end.

(** [mux.shouldRedirectRLocked]: the path is not registered, but the path
    with a slash appended is. *)
Definition shouldRedirect (mux : ServeMux) (path : string) : bool :=
  if existsb (λ e, bool_decide (pattern e = path)) (m mux) then false
  else if (String.length path =? 0)%nat then false
  else if existsb (λ e, bool_decide (pattern e = path +:+ "/")) (m mux)
  then negb (bool_decide
               (lastByte (list_ascii_of_string path) = Some "/"%char))
  else false.

(** [mux.Handler(r)] *)
Definition Handler (mux : ServeMux) (r : Request) : HandlerFunc World :=
  if bool_decide (Method r = "CONNECT") then
    if shouldRedirect mux (URLPath r)
    then RedirectHandler (redirectURL r (URLPath r +:+ "/"))
           StatusMovedPermanently
    else handler mux (URLPath r)
  else
    let path := cleanPath (URLPath r) in
    if shouldRedirect mux path
    then RedirectHandler (redirectURL r (path +:+ "/")) StatusMovedPermanently
    else if negb (bool_decide (path = URLPath r))
    then RedirectHandler (redirectURL r path) StatusMovedPermanently
    else handler mux (URLPath r).

(** [mux.ServeHTTP(w, r)] *)
Definition ServeHTTP (mux : ServeMux) : HandlerFunc World :=
  λ r, Handler mux r r.

(** [http.StripPrefix(prefix, h)] *)
Definition StripPrefix (prefix : string) (next : HandlerFunc World)
  : HandlerFunc World :=
  if bool_decide (prefix = "") then next
  else λ r,
    let p := TrimPrefix (URLPath r) prefix in
    if (String.length p <? String.length (URLPath r))%nat
    then next (setURLPath r p)
    else emit World HTTPNotFound.

End Mux.

Arguments mkMuxEntry {World} h pattern.
Arguments h {World} m.
Arguments pattern {World} m.
Arguments mkServeMux {World} m es.
Arguments m {World} s.
Arguments es {World} s.
Arguments NewServeMux {World}.
Arguments Handle {World} mux pat handler.
Arguments muxMatch {World} mux path.
Arguments handler {World} mux path.
Arguments shouldRedirect {World} mux path.
Arguments Handler {World} redirectURL mux r.
Arguments ServeHTTP {World} redirectURL mux r.
Arguments StripPrefix {World} prefix next r.
Arguments NotFoundHandler {World} r.
Arguments RedirectHandler {World} url code r.

End nethttp.

(** ** Package [main]: the route composition of [server.go] *)

Module server.
Import Bytes swaghttp nethttp.

Section Routes.

Variable World : Type.
Variable unicodeUpper : string → string.
Variable schemaDecode : Values → createForm.
Variable redirectURL : Request → string → string.

Definition ordersMux
    (orderMw : HandlerFunc World → HandlerFunc World)
    (showOrder confirmOrder : HandlerFunc World) : HandlerFunc World :=
  (* The order mux expects the order to be set in the context
     and the ID to be trimmed from the path. *)
  let ordMux := NewServeMux in
  let ordMux := Handle ordMux "/confirm/" confirmOrder in
  let ordMux := Handle ordMux "/" showOrder in
  orderMw (ServeHTTP redirectURL ordMux).

Definition campaignsMux
    (campaignMw : HandlerFunc World → HandlerFunc World)
    (newOrder createOrder : HandlerFunc World) : HandlerFunc World :=
  let cmpOrdMux := NewServeMux in
  let cmpOrdMux := Handle cmpOrdMux "/new/" newOrder in
  let cmpOrdMux :=
    Handle cmpOrdMux "/"
      (λ r, if bool_decide (Method r = "POST") then createOrder r
            else emit World HTTPNotFound) in
  (* The campaign mux expects the campaign to be set in the context
     and the ID to be trimmed from the path. *)
  let cmpMux := NewServeMux in
  let cmpMux :=
    Handle cmpMux "/orders/"
      (StripPrefix "/orders" (ServeHTTP redirectURL cmpOrdMux)) in
  campaignMw (ServeHTTP redirectURL cmpMux).

(** The multiplexer [resourceMux] that [main] builds. *)
Definition resourceMux (ch : CampaignHandler World) (oh : OrderHandler World)
  : ServeMux World :=
  let resourceMux := NewServeMux in
  let resourceMux := Handle resourceMux "/" (ShowActive ch) in
  let resourceMux :=
    Handle resourceMux "/campaigns/"
      (StripPrefix "/campaigns"
         (campaignsMux (CampaignMw ch) (New oh)
            (Create unicodeUpper schemaDecode oh))) in
  let resourceMux :=
    Handle resourceMux "/orders/"
      (StripPrefix "/orders"
         (ordersMux (OrderMw oh) (Show oh) (Confirm oh))) in
  resourceMux.

(** The function [main] registers for the pattern ["/"] of its outer
    multiplexer: it cleans the path and hands the request to
    [resourceMux]. *)
Definition serveResources (ch : CampaignHandler World)
    (oh : OrderHandler World) : HandlerFunc World :=
  λ r,
    match urlpath.Clean (URLPath r) with
    | None => panic World PanicIndexOutOfRange
    | Some path => ServeHTTP redirectURL (resourceMux ch oh) (setURLPath r path)
    end.

End Routes.

Arguments ordersMux {World} redirectURL orderMw showOrder confirmOrder r.
Arguments campaignsMux {World} redirectURL campaignMw newOrder createOrder r.
Arguments resourceMux {World} unicodeUpper schemaDecode redirectURL ch oh.
Arguments serveResources {World} unicodeUpper schemaDecode redirectURL ch oh r.

End server.

(** ** More stand-ins: collaborators that fail *)

Module Failing.
Import swaghttp.

(** An order whose campaign the stand-in storage does not know. *)
Definition orphanOrder : db.Order.t :=
  db.Order.mk 124 7
    (db.Customer.mk "Chris Greene" "chris@test.com")
    (db.Address.mk "PO BOX 295" "" "BEDFORD" "PA" "15522" "UNITED STATES"
       "CHRIS GREENE")
    (db.Payment.mk "stripe" "cus_def456" "").

Definition orderHandler (customer : result stripe.Customer.t)
    (created : result Z) (newTemplate : string * option error)
  : OrderHandler Mock.World :=
  mkOrderHandler
    (mkOrderDB
       (λ _ w, (S w, created))
       (λ id w, (S w, if decide (id = "cus_abc123") then Ok (Mock.order "")
                      else Err ErrNoRows))
       (λ id w, (S w, if decide (id = 999) then Ok Mock.campaign
                      else Err ErrNoRows))
       (λ _ _ _ w, (S w, None)))
    "pk_test"
    (mkStripeClient
       (λ _ _ w, (S w, customer))
       (λ _ w, (S w, Ok Mock.charged))
       (λ _ _ w, (S w, Ok Mock.charged)))
    (λ _, newTemplate)
    (λ _, ("review order", None))
    Mock.logger.

(** The redirect URL of the multiplexer, without a query. *)
Definition redirectURL (r : Request) (path : string) : string := path.

End Failing.

(** * Properties *)

(** ** The library models on examples *)

Example stdClean_dots : stdpath.Clean "/a/b/../c/./d//" = "/a/c/d".
Proof. reflexivity. Qed.
Example stdClean_relative : stdpath.Clean "a/../../b" = "../b".
Proof. reflexivity. Qed.
Example stdClean_above_root : stdpath.Clean "/../.." = "/".
Proof. reflexivity. Qed.
Example stdClean_empty : stdpath.Clean "" = ".".
Proof. reflexivity. Qed.
Example stdClean_dotdot_only : stdpath.Clean "abc/def/../../.." = "..".
Proof. reflexivity. Qed.
Example stdClean_dotted_names : stdpath.Clean "/abc/..def/.x/..." = "/abc/..def/.x/...".
Proof. reflexivity. Qed.
Example Clean_adds_slashes : urlpath.Clean "cus_abc123/id/here" = Some "/cus_abc123/id/here/".
Proof. reflexivity. Qed.
Example Split_order_path : urlpath.Split "/cus_abc123/id/here" = Some ("cus_abc123", "/id/here/").
Proof. reflexivity. Qed.
Example Split_empty : urlpath.Split "" = Some ("", "/").
Proof. reflexivity. Qed.
Example Split_one_segment : urlpath.Split "/12" = Some ("12", "/").
Proof. reflexivity. Qed.
Example Atoi_negative : Bytes.Atoi "-12" = Some (-12).
Proof. reflexivity. Qed.
Example Atoi_out_of_range : Bytes.Atoi "9223372036854775808" = None.
Proof. reflexivity. Qed.
Example Atoi_sign_only : Bytes.Atoi "+" = None.
Proof. reflexivity. Qed.
Example ToUpper_ascii : Bytes.ToUpper id "abc Xz{`" = "ABC XZ{`".
Proof. reflexivity. Qed.
Example ReplaceFirst_first_only : Bytes.ReplaceFirst "a
b

c

d" "

" "
" = "a
b
c

d".
Proof. reflexivity. Qed.

(** ** Strings and bytes *)

Lemma list_ascii_of_string_app (a b : string) :
  list_ascii_of_string (a +:+ b)
  = list_ascii_of_string a ++ list_ascii_of_string b.
Proof.
  induction a as [|c a IH]; [reflexivity|].
  change (String c a +:+ b) with (String c (a +:+ b)).
  simpl. by rewrite IH.
Qed.

Lemma string_of_list_ascii_app (a b : list ascii) :
  string_of_list_ascii (a ++ b)
  = string_of_list_ascii a +:+ string_of_list_ascii b.
Proof.
  induction a as [|c a IH]; [reflexivity|].
  simpl. rewrite IH. reflexivity.
Qed.

Lemma string_app_nil_r (s : string) : s +:+ "" = s.
Proof.
  induction s as [|c s IH]; [reflexivity|].
  change (String c s +:+ "") with (String c (s +:+ "")). by rewrite IH.
Qed.

Lemma string_app_assoc (a b c : string) : (a +:+ b) +:+ c = a +:+ b +:+ c.
Proof.
  induction a as [|x a IH]; [reflexivity|].
  change ((String x a +:+ b) +:+ c) with (String x ((a +:+ b) +:+ c)).
  by rewrite IH.
Qed.

Lemma lastByte_snoc (l : list ascii) (c : ascii) :
  Bytes.lastByte (l ++ [c]) = Some c.
Proof.
  induction l as [|d l IH]; [reflexivity|].
  simpl. rewrite IH. by destruct l.
Qed.

(** ** [path.Clean] on rooted paths *)

Module stdpath_facts.
Import Bytes stdpath Canon.

Local Abbreviation dotdotTest c t :=
  (isDot c &&
   match t with d :: t2 => isDot d && endsElem t2 | [] => false end).

Lemma isSlash_true c : isSlash c = true ↔ c = "/"%char.
Proof. unfold isSlash. apply Ascii.eqb_eq. Qed.

Lemma isDot_true c : isDot c = true ↔ c = "."%char.
Proof. unfold isDot. apply Ascii.eqb_eq. Qed.

Lemma take_drop_elem l : takeElem l ++ dropElem l = l.
Proof.
  induction l as [|d l IH]; [reflexivity|].
  simpl. destruct (isSlash d); [reflexivity|]. simpl. by rewrite IH.
Qed.

Lemma takeElem_noSlash l : noSlash (takeElem l).
Proof.
  induction l as [|d l IH]; simpl; [constructor|].
  destruct (isSlash d) eqn:E; [constructor|]. by constructor.
Qed.

Lemma dropElem_ends l : endsElem (dropElem l) = true.
Proof.
  induction l as [|d l IH]; simpl; [reflexivity|].
  destruct (isSlash d) eqn:E; [simpl; exact E|exact IH].
Qed.

Lemma dropElem_length l : (length (dropElem l) ≤ length l)%nat.
Proof.
  induction l as [|d l IH]; simpl; [lia|].
  destruct (isSlash d); simpl; lia.
Qed.

Lemma takeElem_app e x :
  noSlash e → endsElem x = true → takeElem (e ++ x) = e.
Proof.
  induction 1 as [|c e Hc He IH]; intros Hx; simpl.
  - destruct x as [|d x]; [reflexivity|]. simpl in *. by rewrite Hx.
  - rewrite Hc. by rewrite IH.
Qed.

Lemma dropElem_app e x :
  noSlash e → endsElem x = true → dropElem (e ++ x) = x.
Proof.
  induction 1 as [|c e Hc He IH]; intros Hx; simpl.
  - destruct x as [|d x]; [reflexivity|]. simpl in *. by rewrite Hx.
  - rewrite Hc. by rewrite IH.
Qed.

(** The element-copy loop copies the element and hands over to the main
    loop. *)
Lemma copy_spec rooted dotdot l : ∀ o,
  (fix copy (l : list ascii) (o : list ascii) {struct l} : list ascii :=
     match l with
     | [] => o
     | d :: l' =>
         if isSlash d then cleanLoop rooted l o dotdot
         else copy l' (d :: o)
     end) l o
  = cleanLoop rooted (dropElem l) (rev (takeElem l) ++ o) dotdot.
Proof.
  induction l as [|d l IH]; intros o; [reflexivity|].
  cbn [dropElem takeElem].
  destruct (isSlash d) eqn:E; [reflexivity|].
  rewrite IH. cbn [rev]. by rewrite <- app_assoc.
Qed.

(** One iteration of the main loop. *)
Lemma cleanLoop_cons rooted c t out dotdot :
  cleanLoop rooted (c :: t) out dotdot =
    if isSlash c then cleanLoop rooted t out dotdot
    else if isDot c && endsElem t then cleanLoop rooted t out dotdot
    else if isDot c &&
            match t with d :: t2 => isDot d && endsElem t2 | [] => false end
    then
      match t with
      | _ :: t2 =>
          if (dotdot <? length out)%nat then
            cleanLoop rooted t2 (backtrack out dotdot) dotdot
          else if negb rooted then
            let out1 := if (0 <? length out)%nat
                        then "/"%char :: out else out in
            let out2 := "."%char :: "."%char :: out1 in
            cleanLoop rooted t2 out2 (length out2)
          else cleanLoop rooted t2 out dotdot
      | [] => out
      end
    else
      let out1 :=
        if (rooted && negb (length out =? 1)%nat)
           || (negb rooted && negb (length out =? 0)%nat)
        then "/"%char :: out else out in
      cleanLoop rooted (dropElem t) (rev (c :: takeElem t) ++ out1) dotdot.
Proof.
  cbn [cleanLoop].
  destruct (isSlash c); [reflexivity|].
  destruct (isDot c && endsElem t); [reflexivity|].
  destruct (dotdotTest c t); [reflexivity|].
  cbv zeta. rewrite copy_spec. cbn [rev]. by rewrite <- app_assoc.
Qed.

(** The first two tests of the loop recognise exactly the elements [.]
    and [..]. *)
Lemma dot_case c t :
  isSlash c = false →
  isDot c && endsElem t = true ↔ c :: takeElem t = ["."%char].
Proof.
  intros Hc. rewrite andb_true_iff, isDot_true. split.
  - intros [-> Ht]. destruct t as [|d t]; [reflexivity|].
    simpl in *. by rewrite Ht.
  - intros [= -> Ht]. split; [reflexivity|].
    destruct t as [|d t]; [reflexivity|]. simpl in *.
    destruct (isSlash d); [reflexivity|discriminate].
Qed.

Lemma dotdot_case c t :
  isSlash c = false →
  isDot c && match t with d :: t2 => isDot d && endsElem t2 | [] => false end
    = true
  ↔ c :: takeElem t = ["."%char; "."%char].
Proof.
  intros Hc. rewrite andb_true_iff, isDot_true. split.
  - intros [-> Ht]. destruct t as [|d t]; [discriminate|].
    apply andb_true_iff in Ht as [Hd Ht]. apply isDot_true in Hd as ->.
    simpl. destruct t as [|d t]; [reflexivity|]. simpl in *. by rewrite Ht.
  - intros [= -> Ht]. split; [reflexivity|].
    destruct t as [|d t]; [discriminate|]. simpl in Ht.
    destruct (isSlash d) eqn:Hd; [discriminate|].
    injection Ht as -> Ht. simpl.
    destruct t as [|d t]; [reflexivity|]. simpl in *.
    destruct (isSlash d); [reflexivity|discriminate].
Qed.

Lemma joinR_length_cons e st :
  e ≠ [] → (2 ≤ length (joinR (e :: st)))%nat.
Proof.
  intros He. simpl. rewrite length_app, length_rev. simpl.
  destruct e; [done|]. simpl. lia.
Qed.

Lemma outOf_length stack :
  Forall properElem stack → (length (outOf stack) =? 1)%nat = bool_decide (stack = []).
Proof.
  intros Hs. destruct stack as [|e st]; [reflexivity|].
  inversion Hs as [|?? [He _] _]; subst.
  pose proof (joinR_length_cons e st He) as Hl.
  unfold outOf. rewrite bool_decide_eq_false_2 by done.
  apply Nat.eqb_neq. lia.
Qed.

(** Pushing an element: the slash is added unless the buffer is the bare
    root. *)
Lemma push_elem e st :
  Forall properElem st →
  rev e ++ (if true && negb (length (outOf st) =? 1)%nat
               || negb true && negb (length (outOf st) =? 0)%nat
            then "/"%char :: outOf st else outOf st)
  = outOf (e :: st).
Proof.
  intros Hs. rewrite outOf_length by done.
  destruct st as [|e' st]; reflexivity.
Qed.

(** Backtracking over an element of the buffer. *)
Lemma backtrackLoop_elem re : ∀ b tl,
  isSlash b = false → noSlash re →
  backtrackLoop b (re ++ "/"%char :: tl) 1
  = match tl with [] => ["/"%char] | _ => tl end.
Proof.
  induction re as [|c re IH]; intros b tl Hb Hre.
  - simpl. rewrite Hb. destruct tl as [|d tl]; [reflexivity|].
    simpl. by rewrite andb_false_r.
  - inversion Hre as [|?? Hc Hre']; subst.
    cbn [app backtrackLoop]. rewrite Hb.
    replace (1 <? length (c :: re ++ "/"%char :: tl))%nat with true.
    + simpl. by apply IH.
    + symmetry. apply Nat.ltb_lt. simpl. rewrite length_app. simpl. lia.
Qed.

Lemma noSlash_rev e : noSlash e → noSlash (rev e).
Proof. apply List.Forall_rev. Qed.

Lemma backtrack_pop e st :
  properElem e →
  backtrack (outOf (e :: st)) 1 = outOf st.
Proof.
  intros (He & Hns & _). unfold outOf at 1. cbn [joinR].
  pose proof (noSlash_rev e Hns) as Hr.
  destruct (rev e) as [|b re] eqn:E.
  { apply (f_equal (@rev ascii)) in E. rewrite rev_involutive in E. done. }
  inversion Hr as [|?? Hb Hre]; subst.
  cbn [app backtrack]. rewrite backtrackLoop_elem by done.
  destruct st as [|e' st]; [reflexivity|].
  unfold outOf. destruct (joinR (e' :: st)) eqn:Ej; [|reflexivity].
  simpl in Ej. by destruct (rev e').
Qed.

(** The loop keeps the buffer a stack of proper elements. *)
Lemma cleanLoop_canonical n : ∀ rest stack,
  (length rest ≤ n)%nat → Forall properElem stack →
  ∃ stack', Forall properElem stack' ∧
            cleanLoop true rest (outOf stack) 1 = outOf stack'.
Proof.
  induction n as [|n IH]; intros rest stack Hn Hs.
  { destruct rest; [|simpl in Hn; lia]. by exists stack. }
  destruct rest as [|c t]; [by exists stack|].
  simpl in Hn. rewrite cleanLoop_cons.
  destruct (isSlash c) eqn:Hc; [apply IH; [lia|done]|].
  pose proof (dot_case c t Hc) as Hdot.
  pose proof (dotdot_case c t Hc) as Hdd.
  destruct (isDot c && endsElem t) eqn:E1; [apply IH; [lia|done]|].
  destruct (dotdotTest c t) eqn:E2.
  - destruct t as [|d t2]; [by exists stack|]. simpl in Hn.
    destruct stack as [|e st].
    + simpl. apply (IH t2 []); [lia|done].
    + inversion Hs as [|?? He Hst]; subst.
      pose proof (joinR_length_cons e st (proj1 He)) as Hl.
      replace (1 <? length (outOf (e :: st)))%nat with true
        by (symmetry; apply Nat.ltb_lt; unfold outOf; lia).
      rewrite backtrack_pop by done. apply IH; [lia|done].
  - cbv zeta. cbn [rev]. rewrite <- app_assoc.
    change (rev (takeElem t) ++ [c] ++ ?x) with (rev (takeElem t) ++ [c] ++ x).
    rewrite app_assoc. change (rev (takeElem t) ++ [c]) with (rev (c :: takeElem t)).
    rewrite push_elem by done.
    apply IH.
    + pose proof (dropElem_length t). lia.
    + constructor; [|done]. repeat split.
      * done.
      * constructor; [done|apply takeElem_noSlash].
      * intros Heq. apply Hdot in Heq. congruence.
      * intros Heq. apply Hdd in Heq. congruence.
Qed.

(** Cleaning a canonical path written with extra slashes rebuilds it. *)
Lemma cleanLoop_elem e x st :
  properElem e → endsElem x = true → Forall properElem st →
  cleanLoop true (e ++ x) (outOf st) 1 = cleanLoop true x (outOf (e :: st)) 1.
Proof.
  intros (He & Hns & Hd & Hdd) Hx Hst.
  destruct e as [|c e]; [done|].
  inversion Hns as [|?? Hc Hns']; subst.
  cbn [app]. rewrite cleanLoop_cons. rewrite Hc.
  assert (Ht : takeElem (e ++ x) = e) by by apply takeElem_app.
  destruct (isDot c && endsElem (e ++ x)) eqn:E1.
  { apply (dot_case c _ Hc) in E1. rewrite Ht in E1. done. }
  destruct (dotdotTest c (e ++ x)) eqn:E2.
  { apply (dotdot_case c _ Hc) in E2. rewrite Ht in E2. done. }
  cbv zeta. rewrite Ht, dropElem_app by done.
  by rewrite push_elem.
Qed.

Lemma joinR_app a b : joinR (a ++ b) = joinR a ++ joinR b.
Proof.
  induction a as [|e a IH]; [reflexivity|].
  cbn [app joinR]. rewrite IH, <- app_assoc. reflexivity.
Qed.

Lemma canon_snoc st e :
  canon (st ++ [e]) = "/"%char :: e ++ canon st.
Proof.
  unfold canon. rewrite joinR_app. cbn [joinR rev].
  rewrite !rev_app_distr, rev_involutive. cbn [rev app].
  rewrite <- !app_assoc. reflexivity.
Qed.

Lemma canon_ends st : endsElem (canon st) = true.
Proof.
  destruct st as [|e st] using rev_ind; [reflexivity|].
  by rewrite canon_snoc.
Qed.

Lemma cleanLoop_canon stack : ∀ st0,
  Forall properElem stack → Forall properElem st0 →
  cleanLoop true (canon stack) (outOf st0) 1 = outOf (stack ++ st0).
Proof.
  induction stack as [|e st IH] using rev_ind; intros st0 Hs H0.
  - reflexivity.
  - apply Forall_app in Hs as [Hst He]. inversion He as [|?? Hp _]; subst.
    rewrite canon_snoc, cleanLoop_cons.
    change (isSlash "/") with true. cbv iota.
    rewrite cleanLoop_elem by (done || apply canon_ends).
    rewrite IH by (done || by constructor).
    by rewrite <- app_assoc.
Qed.

End stdpath_facts.

(** ** [urlpath.Clean] and [urlpath.Split] *)

Module urlpath_facts.
Import Bytes stdpath Canon stdpath_facts.

Lemma canon_unfold stack : canon stack = rev (joinR stack) ++ ["/"%char].
Proof. reflexivity. Qed.

Lemma canon_starts stack : ∃ t, canon stack = "/"%char :: t.
Proof.
  destruct stack as [|e st _] using rev_ind; [by exists []|].
  rewrite canon_snoc. eauto.
Qed.

Lemma outOf_nonempty stack : outOf stack ≠ [].
Proof.
  destruct stack as [|e st]; [done|]. simpl. by destruct (rev e).
Qed.

(** The last byte of the cleaned rooted path is a slash only for the
    root. *)
Lemma lastByte_rev_outOf stack :
  Forall properElem stack →
  ∃ c, lastByte (rev (outOf stack)) = Some c ∧
       isSlash c = bool_decide (stack = []).
Proof.
  intros Hs. destruct stack as [|e st]; [by exists "/"%char|].
  inversion Hs as [|?? (He & Hns & _) _]; subst.
  unfold outOf. cbn [joinR]. rewrite rev_app_distr, rev_involutive.
  destruct e as [|c e _] using rev_ind; [done|].
  exists c. rewrite app_assoc, lastByte_snoc. split; [done|].
  apply Forall_app in Hns as [_ Hc]. by inversion Hc.
Qed.

(** What [Clean] returns, from the final buffer of [path.Clean]. *)
Lemma Clean_of_loop l stack :
  Forall properElem stack →
  cleanLoop true l ["/"%char] 1 = outOf stack →
  urlpath.Clean (string_of_list_ascii l)
  = Some (string_of_list_ascii (canon stack)).
Proof.
  intros Hs Hl.
  assert (Hstd : stdpath.Clean ("/" +:+ string_of_list_ascii l)
                 = string_of_list_ascii (rev (outOf stack))).
  { unfold stdpath.Clean. rewrite list_ascii_of_string_app.
    rewrite list_ascii_of_string_of_list_ascii.
    cbn [list_ascii_of_string app cleanBytes].
    change (isSlash "/") with true. cbv iota zeta. rewrite Hl.
    pose proof (outOf_nonempty stack) as Hne.
    by destruct (outOf stack). }
  unfold urlpath.Clean. cbv zeta. rewrite Hstd.
  rewrite list_ascii_of_string_of_list_ascii.
  destruct (lastByte_rev_outOf stack Hs) as (c & -> & Hc). rewrite Hc.
  destruct stack as [|e st]; [reflexivity|].
  rewrite bool_decide_eq_false_2 by done. cbn [negb].
  change "/" with (string_of_list_ascii ["/"%char]) at 1.
  by rewrite <- string_of_list_ascii_app.
Qed.

(** [Clean] never panics, and its result is a canonical path. *)
Lemma Clean_canonical (p : string) :
  ∃ stack, Forall properElem stack ∧
           urlpath.Clean p = Some (string_of_list_ascii (canon stack)).
Proof.
  destruct (cleanLoop_canonical (length (list_ascii_of_string p))
              (list_ascii_of_string p) []) as (stack & Hs & Hl); [lia|done|].
  exists stack. split; [done|].
  rewrite <- (string_of_list_ascii_of_string p) at 1.
  by apply Clean_of_loop.
Qed.

(** A canonical path is a fixed point of [Clean]. *)
Lemma Clean_canon stack :
  Forall properElem stack →
  urlpath.Clean (string_of_list_ascii (canon stack))
  = Some (string_of_list_ascii (canon stack)).
Proof.
  intros Hs. apply Clean_of_loop; [done|].
  change ["/"%char] with (outOf []).
  rewrite cleanLoop_canon by done. by rewrite app_nil_r.
Qed.

Lemma Clean_total (p : string) : ∃ q, urlpath.Clean p = Some q.
Proof. destruct (Clean_canonical p) as (stack & _ & ->). eauto. Qed.

(** [Split] never panics, and the tail it returns is a cleaned path. *)
Lemma Split_total (p : string) :
  ∃ head tail, urlpath.Split p = Some (head, tail) ∧
               urlpath.Clean tail = Some tail.
Proof.
  unfold urlpath.Split.
  destruct (Clean_canonical p) as (stack & Hs & ->). cbn [mbind option_bind].
  destruct (canon_starts stack) as [t ->]. cbn [string_of_list_ascii urlpath.sliceFrom1].
  cbn [mbind option_bind].
  set (parts := SplitN2 (string_of_list_ascii t) "/").
  assert (Hparts : ∃ h t0 r,
    (if (length parts <? 2)%nat then parts ++ ["/"] else parts) = h :: t0 :: r).
  { unfold parts, SplitN2. destruct (cut _ _) as [[a b]|]; simpl; eauto. }
  destruct Hparts as (h & t0 & r & ->). cbn.
  destruct (Clean_canonical t0) as (st' & Hs' & E). rewrite E. cbn.
  eexists _, _. split; [reflexivity|]. by apply Clean_canon.
Qed.

End urlpath_facts.

(** C8. For every path [p], [Clean p] returns (it never panics) a path [q]
    that starts with a slash, ends with a slash, and is a fixed point of
    [Clean]: [Clean (Clean p) = Clean p]. *)
Theorem Clean_idempotent_slashes (p : string) :
  ∃ q, urlpath.Clean p = Some q
       ∧ urlpath.Clean q = Some q
       ∧ (∃ t, q = String "/" t)
       ∧ (∃ t, q = t +:+ "/").
Proof.
  destruct (urlpath_facts.Clean_canonical p) as (stack & Hs & Hp).
  exists (string_of_list_ascii (Canon.canon stack)).
  split; [done|]. split; [by apply urlpath_facts.Clean_canon|]. split.
  - destruct (urlpath_facts.canon_starts stack) as [t ->].
    by exists (string_of_list_ascii t).
  - exists (string_of_list_ascii (rev (Canon.joinR stack))).
    rewrite urlpath_facts.canon_unfold. by rewrite string_of_list_ascii_app.
Qed.

(** ** Replacing the first blank line *)

Module Replace_facts.
Import Bytes swaghttp.

Abbreviation lfs := [lf; lf].
Abbreviation noLF l := (existsb (Ascii.eqb lf) l = false).

Lemma cut_none (x : list ascii) : noLF x → cut x lfs = None.
Proof.
  induction x as [|c x IH]; [reflexivity|].
  cbn [existsb]. intros [Hc Hx]%orb_false_elim.
  cbn [cut hasPrefix]. rewrite Hc. cbn [andb]. by rewrite IH.
Qed.

(** No blank line starts inside a segment without line feeds. *)
Lemma cut_skip (x rest : list ascii) :
  noLF x →
  cut (x ++ rest) lfs
  = match cut rest lfs with
    | Some (a, b) => Some (x ++ a, b)
    | None => None
    end.
Proof.
  induction x as [|c x IH]; intros Hx.
  - cbn [app]. by destruct (cut rest lfs) as [[a b]|].
  - cbn [existsb] in Hx. apply orb_false_elim in Hx as [Hc Hx].
    cbn [app cut hasPrefix]. rewrite Hc. cbn [andb]. rewrite IH by done.
    by destruct (cut rest lfs) as [[a b]|].
Qed.

(** A line feed followed by a non-empty line starts no blank line. *)
Lemma cut_line (y rest : list ascii) :
  y ≠ [] → noLF y →
  cut (lf :: y ++ rest) lfs
  = match cut rest lfs with
    | Some (a, b) => Some (lf :: y ++ a, b)
    | None => None
    end.
Proof.
  intros Hy Hn. destruct y as [|c y]; [done|].
  pose proof Hn as Hn'. cbn [existsb] in Hn'.
  apply orb_false_elim in Hn' as [Hc _].
  cbn [cut]. cbn [app hasPrefix]. rewrite Hc.
  rewrite andb_false_r. change (c :: y ++ rest) with ((c :: y) ++ rest).
  rewrite cut_skip by done.
  by destruct (cut rest lfs) as [[a b]|].
Qed.

Lemma cut_last_line (y : list ascii) : noLF y → cut (lf :: y) lfs = None.
Proof.
  intros Hn. destruct y as [|c y]; [reflexivity|].
  rewrite <- (app_nil_r (c :: y)). by rewrite cut_line.
Qed.

Lemma cut_blank (rest : list ascii) : cut (lf :: lf :: rest) lfs = Some ([], rest).
Proof. reflexivity. Qed.

Lemma hasLF_app (a b : string) : hasLF (a +:+ b) = hasLF a || hasLF b.
Proof. unfold hasLF. by rewrite list_ascii_of_string_app, existsb_app. Qed.

Lemma nonempty_bytes (s : string) : s ≠ "" → list_ascii_of_string s ≠ [].
Proof. by destruct s. Qed.

(** The bytes of the address block. *)
Lemma addressBlock_bytes (name street1 street2 cityLine country : string) :
  list_ascii_of_string
    (name +:+ LF +:+ street1 +:+ LF +:+ street2 +:+ LF +:+ cityLine +:+ LF
     +:+ country)
  = list_ascii_of_string name ++ lf ::
    list_ascii_of_string street1 ++ lf ::
    list_ascii_of_string street2 ++ lf ::
    list_ascii_of_string cityLine ++ lf :: list_ascii_of_string country.
Proof. by rewrite !list_ascii_of_string_app. Qed.

(** An empty second line after a non-empty first line: the blank line is
    the first pair of line feeds, and it is the one collapsed. *)
Lemma ReplaceFirst_empty_street2 (name street1 cityLine country : string) :
  hasLF name = false → hasLF street1 = false → street1 ≠ "" →
  ReplaceFirst
    (name +:+ LF +:+ street1 +:+ LF +:+ "" +:+ LF +:+ cityLine +:+ LF
     +:+ country)
    (LF +:+ LF) LF
  = name +:+ LF +:+ street1 +:+ LF +:+ cityLine +:+ LF +:+ country.
Proof.
  intros Hn H1 Hne. unfold ReplaceFirst.
  rewrite addressBlock_bytes.
  change (list_ascii_of_string (LF +:+ LF)) with lfs.
  change (list_ascii_of_string "") with (@nil ascii). cbn [app].
  rewrite cut_skip by done.
  rewrite cut_line by (done || by apply nonempty_bytes).
  rewrite cut_blank.
  rewrite <- (string_of_list_ascii_of_string
                (name +:+ LF +:+ street1 +:+ LF +:+ cityLine +:+ LF
                 +:+ country)).
  f_equal. rewrite !list_ascii_of_string_app. cbn [list_ascii_of_string LF app].
  rewrite <- !app_assoc. cbn [app]. by rewrite app_nil_r.
Qed.

(** Non-empty address lines and no line feed in any field: the block has
    no blank line, and nothing is replaced. *)
Lemma ReplaceFirst_no_blank (name street1 street2 cityLine country : string) :
  hasLF name = false → hasLF street1 = false → hasLF street2 = false →
  hasLF cityLine = false → hasLF country = false →
  street1 ≠ "" → street2 ≠ "" → cityLine ≠ "" →
  ReplaceFirst
    (name +:+ LF +:+ street1 +:+ LF +:+ street2 +:+ LF +:+ cityLine +:+ LF
     +:+ country)
    (LF +:+ LF) LF
  = name +:+ LF +:+ street1 +:+ LF +:+ street2 +:+ LF +:+ cityLine +:+ LF
    +:+ country.
Proof.
  intros Hn H1 H2 Hc Hco N1 N2 Nc. unfold ReplaceFirst.
  rewrite addressBlock_bytes.
  change (list_ascii_of_string (LF +:+ LF)) with lfs.
  rewrite cut_skip by done.
  rewrite !cut_line by (done || by apply nonempty_bytes).
  by rewrite cut_last_line.
Qed.

End Replace_facts.

(** ** The handlers *)

(** ** [strconv.Atoi] on decimal numerals *)

Module Atoi_facts.
Import Bytes Numeral.

Lemma digitVal_char (m : N) :
  (m < 10)%N → digitVal (pretty_N_char m) = Some (Z.of_N m).
Proof.
  intros Hm.
  assert (m = 0 ∨ m = 1 ∨ m = 2 ∨ m = 3 ∨ m = 4 ∨ m = 5 ∨ m = 6 ∨ m = 7
          ∨ m = 8 ∨ m = 9)%N as Hcases by lia.
  repeat (destruct Hcases as [->|Hcases]; [reflexivity|]).
  by subst.
Qed.

Lemma digitVal_isDigit (c : ascii) (d : Z) :
  digitVal c = Some d → isDigit c = true.
Proof.
  destruct c as [[] [] [] [] [] [] [] []]; vm_compute; congruence.
Qed.

Lemma parseDigits_isDigit (ds : list ascii) :
  ∀ acc n, parseDigits acc ds = Some n → forallb isDigit ds = true.
Proof.
  induction ds as [|c t IH]; intros acc n; [done|].
  cbn [parseDigits forallb]. destruct (digitVal c) as [d|] eqn:Hd; [|done].
  cbn. intros Hp. rewrite (digitVal_isDigit _ _ Hd). by eapply IH.
Qed.

(** The digits that [pretty] puts in front of [s]: they read back as [x]. *)
Lemma pretty_go_digits (x : N) :
  ∀ s, ∃ ds,
    list_ascii_of_string (pretty_N_go x s) = ds ++ list_ascii_of_string s
    ∧ ((0 < x)%N → ds ≠ [])
    ∧ Forall (λ c, is_Some (digitVal c)) ds
    ∧ ∀ rest, parseDigits 0 (ds ++ rest) = parseDigits (Z.of_N x) rest.
Proof.
  induction (N.lt_wf_0 x) as [x _ IH]. intros s.
  assert (x = 0 ∨ 0 < x)%N as [->|Hx] by lia.
  { exists []. rewrite pretty_N_go_0. repeat split; [lia|constructor]. }
  rewrite pretty_N_go_step by done.
  destruct (IH (x `div` 10)%N (N.div_lt x 10 Hx eq_refl)
              (String (pretty_N_char (x `mod` 10)) s))
    as (ds & Hds & _ & Hall & Hparse).
  assert (Hm : (x `mod` 10 < 10)%N) by (apply N.mod_lt; lia).
  exists (ds ++ [pretty_N_char (x `mod` 10)]).
  split; [|split; [|split]].
  - rewrite Hds. cbn [list_ascii_of_string]. by rewrite <- app_assoc.
  - intros _ Heq. by destruct ds.
  - apply Forall_app. split; [done|]. constructor; [|constructor].
    rewrite (digitVal_char _ Hm). by eexists.
  - intros rest. rewrite <- app_assoc. cbn [app]. rewrite Hparse.
    cbn [parseDigits]. rewrite (digitVal_char _ Hm). cbn.
    f_equal. pose proof (N.div_mod x 10). lia.
Qed.

Lemma pretty_digits (n : N) :
  ∃ c t,
    list_ascii_of_string (pretty n) = c :: t
    ∧ is_Some (digitVal c)
    ∧ parseDigits 0 (c :: t) = Some (Z.of_N n).
Proof.
  unfold pretty, pretty_N. destruct (decide (n = 0)%N) as [->|Hn].
  { exists "0"%char, []. repeat split. by eexists. }
  destruct (pretty_go_digits n "") as (ds & Hds & Hne & Hall & Hparse).
  cbn [list_ascii_of_string] in Hds. rewrite app_nil_r in Hds.
  destruct ds as [|c t]; [destruct Hne; [lia|done]|].
  exists c, t. split; [done|]. split; [by inversion Hall|].
  specialize (Hparse []). by rewrite app_nil_r in Hparse.
Qed.

Lemma numeral_digits (k : nat) (n : N) :
  ∃ c t,
    replicate k "0"%char ++ list_ascii_of_string (pretty n) = c :: t
    ∧ is_Some (digitVal c)
    ∧ parseDigits 0 (c :: t) = Some (Z.of_N n).
Proof.
  induction k as [|k (c & t & Heq & Hc & Hp)]; [apply pretty_digits|].
  exists "0"%char, (c :: t). cbn [replicate app]. rewrite Heq.
  split; [done|]. split; [by eexists|]. exact Hp.
Qed.

Lemma in_range (v : Z) :
  (minInt <=? v) && (v <=? maxInt) = bool_decide (minInt ≤ v ≤ maxInt).
Proof.
  destruct (Z.leb_spec minInt v), (Z.leb_spec v maxInt); cbn;
    symmetry; (apply bool_decide_eq_true_2 || apply bool_decide_eq_false_2);
    lia.
Qed.

(** [Atoi] reads a numeral as the integer it denotes, when that integer
    fits an [int], and fails otherwise. *)
Lemma Atoi_numeral (sgn : string) (k : nat) (n : N) :
  sgn ∈ [""; "+"; "-"] →
  Atoi (numeral sgn k n)
  = if bool_decide (minInt ≤ value sgn n ≤ maxInt)
    then Some (value sgn n) else None.
Proof.
  intros Hsgn.
  destruct (numeral_digits k n) as (c & t & Heq & [d Hc] & Hp).
  assert (Hbytes : list_ascii_of_string (numeral sgn k n)
                   = list_ascii_of_string sgn ++ c :: t).
  { unfold numeral.
    by rewrite !list_ascii_of_string_app, list_ascii_of_string_of_list_ascii,
      <- Heq, app_assoc. }
  unfold Atoi. rewrite Hbytes, <- in_range.
  repeat (apply elem_of_cons in Hsgn as [->|Hsgn]);
    [| | |by apply elem_of_nil in Hsgn]; cbn [list_ascii_of_string app].
  - destruct (Ascii.eqb_spec c "-") as [->|_]; [done|].
    destruct (Ascii.eqb_spec c "+") as [->|_]; [done|].
    rewrite Hp. reflexivity.
  - cbn [Ascii.eqb Bool.eqb]. rewrite Hp. reflexivity.
  - cbn [Ascii.eqb Bool.eqb]. rewrite Hp. reflexivity.
Qed.

(** What [Atoi] accepts is an optionally signed, non-empty run of
    digits. *)
Lemma Atoi_numeric (s : string) (v : Z) : Atoi s = Some v → numeric s = true.
Proof.
  assert (Hds : ∀ ds m, ds ≠ [] → parseDigits 0 ds = Some m →
                negb (bool_decide (ds = [])) && forallb isDigit ds = true).
  { intros ds m Hne Hp. rewrite (parseDigits_isDigit _ _ _ Hp).
    by rewrite bool_decide_eq_false_2. }
  unfold Atoi, numeric. destruct (list_ascii_of_string s) as [|c t]; [done|].
  cbv zeta. cbn [unsigned].
  destruct (Ascii.eqb_spec c "-") as [->|Hm].
  { rewrite (bool_decide_eq_true_2 (_ ∨ _)) by by right.
    destruct t as [|c' t']; [done|].
    destruct (parseDigits 0 (c' :: t')) as [m|] eqn:Hp; [|done].
    intros _. by eapply Hds. }
  destruct (Ascii.eqb_spec c "+") as [->|Hp'].
  { rewrite (bool_decide_eq_true_2 (_ ∨ _)) by by left.
    destruct t as [|c' t']; [done|].
    destruct (parseDigits 0 (c' :: t')) as [m|] eqn:Hp; [|done].
    intros _. by eapply Hds. }
  rewrite (bool_decide_eq_false_2 (_ ∨ _)) by (intros [?|?]; done).
  destruct (parseDigits 0 (c :: t)) as [m|] eqn:Hp; [|done].
  intros _. by eapply Hds.
Qed.

Lemma Atoi_not_numeric (s : string) : numeric s = false → Atoi s = None.
Proof.
  intros Hn. destruct (Atoi s) as [v|] eqn:Ha; [|done].
  by rewrite (Atoi_numeric _ _ Ha) in Hn.
Qed.

End Atoi_facts.

Section HandlerProperties.
Import swaghttp.

Context {World : Type}.
Variable unicodeUpper : string → string.
Variable schemaDecode : Values → createForm.

Implicit Types (oh : OrderHandler World) (ch : CampaignHandler World).
Implicit Types (r : Request) (w : World).

(** Symbolic execution of a handler: unfold the computation, then replace
    each collaborator call by the answer the hypotheses give for it. *)
Ltac unfold_handler :=
  cbv [serve New Create OrderMw Show Confirm ShowActive CampaignMw
       mbind M_bind bind call emit mret M_ret ret mustAssert panic
       logPrintf execute afterCreateOrder];
  cbn [world trace app].

Ltac step_with H := rewrite H; cbn [world trace app].

Ltac simpl_order :=
  cbn [db.Order.setAddressRaw db.Order.setChargeID db.Order.setID
       db.Order.Payment db.Order.Address db.Order.ID db.Order.CampaignID
       db.Address.Raw db.Payment.CustomerID db.Payment.ChargeID
       db.Payment.Source].

(** C1. When the order's campaign is found, the charge succeeds with
    charge [chg] and the persistence call succeeds, [Confirm] calls
    [ConfirmOrder] exactly once, with the order's numeric ID, the
    submitted [address-raw] value as it is and the ID of [chg]; the
    response is a redirect with status 302 to [/orders/] followed by the
    order's payment customer ID. This holds whether or not the order
    already carries a charge ID. *)
Theorem Confirm_success oh r w order campaign chg w1 w2 w3 :
  orderOf r "order" = Some order →
  GetCampaign (DB oh) (db.Order.CampaignID order) w = (w1, Ok campaign) →
  Charge (Client oh) (db.Payment.CustomerID (db.Order.Payment order))
    (db.Campaign.Price campaign) w1 = (w2, Ok chg) →
  ConfirmOrder (DB oh) (db.Order.ID order) (Get (PostForm r) "address-raw")
    (stripe.Charge.ID chg) w2 = (w3, None) →
  ∃ tr,
    serve (Confirm oh) r w = (Returned tt, mkHState w3 tr)
    ∧ confirmOrderCalls tr
      = [(db.Order.ID order, Get (PostForm r) "address-raw",
          stripe.Charge.ID chg)]
    ∧ chargeCalls tr
      = [(db.Payment.CustomerID (db.Order.Payment order),
          db.Campaign.Price campaign)]
    ∧ responseStatus tr = StatusFound
    ∧ redirectTarget tr
      = Some ("/orders/" +:+ db.Payment.CustomerID (db.Order.Payment order))
    ∧ tr = [DBGetCampaign (db.Order.CampaignID order) (Ok campaign);
            StripeCharge (db.Payment.CustomerID (db.Order.Payment order))
              (db.Campaign.Price campaign) (Ok chg);
            DBConfirmOrder (db.Order.ID order)
              (Get (PostForm r) "address-raw") (stripe.Charge.ID chg) None;
            HTTPRedirect
              ("/orders/" +:+
                 db.Payment.CustomerID (db.Order.Payment order))
              StatusFound].
Proof.
  intros Ho Hc Hch Hp.
  eexists. split.
  { unfold_handler. rewrite Ho. cbn [world trace app].
    step_with Hc. simpl_order.
    step_with Hch. step_with Hp. reflexivity. }
  by repeat split.
Qed.

(** In every run of [Confirm], a [ConfirmOrder] call comes after a charge
    call that succeeded. *)
Lemma Confirm_persists_only_after_charge oh r w i id addr chg res :
  trace (serve (Confirm oh) r w).2 !! i = Some (DBConfirmOrder id addr chg res) →
  ∃ j cus amount c,
    (j < i)%nat ∧
    trace (serve (Confirm oh) r w).2 !! j
    = Some (StripeCharge cus amount (Ok c)).
Proof.
  unfold_handler.
  destruct (orderOf r "order") as [order|]; cbn [world trace app snd];
    [|by rewrite lookup_nil].
  destruct (GetCampaign _ _ _) as [w1 [campaign|e]]; cbn [world trace app snd].
  2:{ destruct i as [|[|[|i]]]; simpl; intros; simplify_eq. }
  simpl_order.
  destruct (Charge _ _ _ _) as [w2 [c|e]]; cbn [world trace app snd].
  - destruct (ConfirmOrder _ _ _ _ _) as [w3 [err|]]; cbn [world trace app snd].
    all: destruct i as [|[|[|[|[|i]]]]]; simpl; intros; simplify_eq.
    all: exists 1%nat; eexists _, _, _; split; [lia|reflexivity].
  - destruct e; cbn [world trace app snd].
    all: destruct i as [|[|[|[|i]]]]; simpl; intros; simplify_eq.
Qed.

(** C2. With the order in context and its campaign found, the outcome of
    [Confirm] follows the result of the charge call: on a payment
    processor's error its message alone is written to the user and
    [ConfirmOrder] is not called; on any other error the response is the
    generic 500 message with the support contact and [ConfirmOrder] is not
    called; when the charge succeeds and [ConfirmOrder] fails, the response
    is the 500 message that tells the user that they were charged. And in
    no run of [Confirm] at all is there a [ConfirmOrder] call that is not
    preceded by a successful charge call. *)
Theorem Confirm_failures oh r w order campaign w1 w2 res :
  orderOf r "order" = Some order →
  GetCampaign (DB oh) (db.Order.CampaignID order) w = (w1, Ok campaign) →
  Charge (Client oh) (db.Payment.CustomerID (db.Order.Payment order))
    (db.Campaign.Price campaign) w1 = (w2, res) →
  (∀ se, res = Err (StripeError se) →
     ∃ tr, serve (Confirm oh) r w = (Returned tt, mkHState w2 tr)
           ∧ responseBody tr = Some (stripe.Error.Message se)
           ∧ confirmOrderCalls tr = []
           ∧ tr = [DBGetCampaign (db.Order.CampaignID order) (Ok campaign);
                   StripeCharge
                     (db.Payment.CustomerID (db.Order.Payment order))
                     (db.Campaign.Price campaign) res;
                   Fprint (stripe.Error.Message se)])
  ∧ (∀ e, res = Err e → (∀ se, e ≠ StripeError se) →
     ∃ tr, serve (Confirm oh) r w = (Returned tt, mkHState w2 tr)
           ∧ responseStatus tr = StatusInternalServerError
           ∧ responseBody tr = Some (msgCardFailed +:+ LF)
           ∧ confirmOrderCalls tr = []
           ∧ tr = [DBGetCampaign (db.Order.CampaignID order) (Ok campaign);
                   StripeCharge
                     (db.Payment.CustomerID (db.Order.Payment order))
                     (db.Campaign.Price campaign) res;
                   HTTPError msgCardFailed StatusInternalServerError])
  ∧ (∀ chg w3 err, res = Ok chg →
     ConfirmOrder (DB oh) (db.Order.ID order)
       (Get (PostForm r) "address-raw") (stripe.Charge.ID chg) w2
       = (w3, Some err) →
     ∃ tr, serve (Confirm oh) r w = (Returned tt, mkHState w3 tr)
           ∧ responseStatus tr = StatusInternalServerError
           ∧ responseBody tr = Some (msgChargedNotSaved +:+ LF)
           ∧ tr = [DBGetCampaign (db.Order.CampaignID order) (Ok campaign);
                   StripeCharge
                     (db.Payment.CustomerID (db.Order.Payment order))
                     (db.Campaign.Price campaign) res;
                   DBConfirmOrder (db.Order.ID order)
                     (Get (PostForm r) "address-raw")
                     (stripe.Charge.ID chg) (Some err);
                   HTTPError msgChargedNotSaved StatusInternalServerError])
  ∧ (∃ rest, msgCardFailed = rest +:+ "contact me for support - jon@calhoun.io")
  ∧ (∃ rest, msgChargedNotSaved = "You were charged, but" +:+ rest)
  ∧ (∀ oh' r' w' i id addr chg res',
       trace (serve (Confirm oh') r' w').2 !! i
       = Some (DBConfirmOrder id addr chg res') →
       ∃ j cus amount c,
         (j < i)%nat ∧
         trace (serve (Confirm oh') r' w').2 !! j
         = Some (StripeCharge cus amount (Ok c))).
Proof.
  intros Ho Hc Hch.
  split; [|split; [|split; [|split; [|split]]]].
  - intros se ->. eexists. split.
    { unfold_handler. rewrite Ho. cbn [world trace app].
      step_with Hc. simpl_order. step_with Hch. reflexivity. }
    repeat split. cbn. by rewrite string_app_nil_r.
  - intros e -> Hne. eexists. split.
    { unfold_handler. rewrite Ho. cbn [world trace app].
      step_with Hc. simpl_order. step_with Hch.
      destruct e as [|se|d]; [reflexivity| |reflexivity].
      by destruct (Hne se). }
    by repeat split.
  - intros chg w3 err -> Hp. eexists. split.
    { unfold_handler. rewrite Ho. cbn [world trace app].
      step_with Hc. simpl_order. step_with Hch. step_with Hp.
      reflexivity. }
    by repeat split.
  - by exists "Something went wrong processing your card. Please ".
  - by exists " something went wrong saving your data. Please contact me for support - jon@calhoun.io".
  - intros *. apply Confirm_persists_only_after_charge.
Qed.

(** C3. With the order in context and its campaign found: when the order
    has a charge ID, [Show] asks the payment collaborator for that charge
    (once) and never creates a charge; a failed lookup is answered with
    status 200 and the lookup-failed text as body, and each of the three
    known statuses with status 200 and its own text, the texts being
    pairwise different. When the order has no charge ID, [Show] renders
    the review view with the payment customer ID as order ID, the raw
    address, and the campaign price divided by 100 as an integer. *)
Theorem Show_branches oh r w order campaign w1 :
  orderOf r "order" = Some order →
  GetCampaign (DB oh) (db.Order.CampaignID order) w = (w1, Ok campaign) →
  (db.Payment.ChargeID (db.Order.Payment order) ≠ "" →
   ∀ w2 res,
     GetCharge (Client oh) (db.Payment.ChargeID (db.Order.Payment order)) w1
     = (w2, res) →
     ∃ s, serve (Show oh) r w = (Returned tt, s)
          ∧ getChargeCalls (trace s)
            = [db.Payment.ChargeID (db.Order.Payment order)]
          ∧ chargeCalls (trace s) = []
          ∧ match res with
            | Err _ =>
                responseStatus (trace s) = StatusOK
                ∧ responseBody (trace s) = Some (msgLookupFailed +:+ LF)
            | Ok chg =>
                (stripe.Charge.Status chg = "succeeded" →
                 responseStatus (trace s) = StatusOK
                 ∧ responseBody (trace s) = Some (msgSucceeded +:+ LF))
                ∧ (stripe.Charge.Status chg = "pending" →
                   responseStatus (trace s) = StatusOK
                   ∧ responseBody (trace s) = Some (msgPending +:+ LF))
                ∧ (stripe.Charge.Status chg = "failed" →
                   responseStatus (trace s) = StatusOK
                   ∧ responseBody (trace s) = Some (msgFailed +:+ LF))
            end)
  ∧ (db.Payment.ChargeID (db.Order.Payment order) = "" →
     ∃ out err,
       TemplatesReview oh
         (mkReviewData (db.Payment.CustomerID (db.Order.Payment order))
            (db.Address.Raw (db.Order.Address order))
            (db.Campaign.Price campaign ÷ 100)) = (out, err)
       ∧ serve (Show oh) r w
         = (Returned tt,
            mkHState w1
              [DBGetCampaign (db.Order.CampaignID order) (Ok campaign);
               ExecuteReview
                 (mkReviewData
                    (db.Payment.CustomerID (db.Order.Payment order))
                    (db.Address.Raw (db.Order.Address order))
                    (db.Campaign.Price campaign ÷ 100)) out err]))
  ∧ msgSucceeded ≠ msgPending ∧ msgSucceeded ≠ msgFailed
  ∧ msgPending ≠ msgFailed.
Proof.
  intros Ho Hc. split; [|split; [|done]].
  - intros Hne w2 res Hg.
    assert (Hrun : serve (Show oh) r w
      = match res with
        | Err err =>
            (Returned tt,
             mkHState
               (Printf (OrderLogger oh)
                  "error looking up a customer's charge where chg.ID = %s; err = %v"
                  [LogString (db.Payment.ChargeID (db.Order.Payment order));
                   LogError err] w2)
               [DBGetCampaign (db.Order.CampaignID order) (Ok campaign);
                StripeGetCharge
                  (db.Payment.ChargeID (db.Order.Payment order)) res;
                LogPrintf
                  "error looking up a customer's charge where chg.ID = %s; err = %v"
                  [LogString (db.Payment.ChargeID (db.Order.Payment order));
                   LogError err];
                Fprintln msgLookupFailed])
        | Ok chg =>
            (Returned tt,
             mkHState w2
               ([DBGetCampaign (db.Order.CampaignID order) (Ok campaign);
                 StripeGetCharge
                   (db.Payment.ChargeID (db.Order.Payment order)) res] ++
                if decide (stripe.Charge.Status chg = "succeeded")
                then [Fprintln msgSucceeded]
                else if decide (stripe.Charge.Status chg = "pending")
                then [Fprintln msgPending]
                else if decide (stripe.Charge.Status chg = "failed")
                then [Fprintln msgFailed]
                else []))
        end).
    { unfold_handler. rewrite Ho. cbn [world trace app].
      step_with Hc. rewrite decide_True by done. cbn [world trace app].
      step_with Hg. destruct res as [chg|e]; [|reflexivity].
      repeat case_decide; reflexivity. }
    rewrite Hrun. destruct res as [chg|e]; [|by eexists; repeat split].
    eexists. split; [reflexivity|]. cbn [trace].
    repeat case_decide; repeat split; intros; (done || congruence).
  - intros He.
    destruct (TemplatesReview oh _) as [out err] eqn:Ht.
    exists out, err. split; [reflexivity|].
    unfold_handler. rewrite Ho. cbn [world trace app].
    step_with Hc. rewrite decide_False by (intros Hn; by apply Hn).
    cbn [world trace app]. rewrite Ht. reflexivity.
Qed.

(** C10. For a charged order whose campaign and charge lookups succeed,
    when the status of the charge is none of [succeeded], [pending] and
    [failed], [Show] returns after the two lookups without logging and
    without touching the response writer: the response is status 200 with
    an empty body. *)
Theorem Show_unrecognized_status oh r w order campaign chg w1 w2 :
  orderOf r "order" = Some order →
  GetCampaign (DB oh) (db.Order.CampaignID order) w = (w1, Ok campaign) →
  db.Payment.ChargeID (db.Order.Payment order) ≠ "" →
  GetCharge (Client oh) (db.Payment.ChargeID (db.Order.Payment order)) w1
  = (w2, Ok chg) →
  stripe.Charge.Status chg ≠ "succeeded" →
  stripe.Charge.Status chg ≠ "pending" →
  stripe.Charge.Status chg ≠ "failed" →
  ∃ tr,
    serve (Show oh) r w = (Returned tt, mkHState w2 tr)
    ∧ tr = [DBGetCampaign (db.Order.CampaignID order) (Ok campaign);
            StripeGetCharge (db.Payment.ChargeID (db.Order.Payment order))
              (Ok chg)]
    ∧ responseStatus tr = StatusOK
    ∧ responseBody tr = Some "".
Proof.
  intros Ho Hc Hne Hg H1 H2 H3.
  eexists. split.
  { unfold_handler. rewrite Ho. cbn [world trace app].
    step_with Hc. rewrite decide_True by done. cbn [world trace app].
    step_with Hg. rewrite !decide_False by done. reflexivity. }
  by repeat split.
Qed.

(** C4. With a campaign in context and a non-empty decoded email, when the
    customer-creation call returns customer [cus] and [CreateOrder]
    succeeds, exactly one order is handed to storage: it carries the ID of
    the context's campaign, the source tag [stripe], the ID of [cus] as
    payment customer ID and an empty charge ID; and the response is a
    redirect with status 302 to [/orders/] followed by the ID of [cus]. *)
Theorem Create_success oh r w campaign cus id w1 w2 :
  campaignOf r "campaign" = Some campaign →
  Email (schemaDecode (PostForm r)) ≠ "" →
  Customer (Client oh) (Get (PostForm r) "stripe-token")
    (Email (schemaDecode (PostForm r))) w = (w1, Ok cus) →
  CreateOrder (DB oh)
    (newOrder unicodeUpper campaign (schemaDecode (PostForm r)) cus) w1
  = (w2, Ok id) →
  ∃ tr order,
    serve (Create unicodeUpper schemaDecode oh) r w
    = (Returned tt, mkHState w2 tr)
    ∧ createOrderCalls tr = [order]
    ∧ db.Order.CampaignID order = db.Campaign.ID campaign
    ∧ db.Payment.Source (db.Order.Payment order) = "stripe"
    ∧ db.Payment.CustomerID (db.Order.Payment order) = stripe.Customer.ID cus
    ∧ db.Payment.ChargeID (db.Order.Payment order) = ""
    ∧ responseStatus tr = StatusFound
    ∧ redirectTarget tr = Some ("/orders/" +:+ stripe.Customer.ID cus)
    ∧ tr = [StripeCustomer (Get (PostForm r) "stripe-token")
              (Email (schemaDecode (PostForm r))) (Ok cus);
            DBCreateOrder order (Ok id);
            HTTPRedirect ("/orders/" +:+ stripe.Customer.ID cus) StatusFound].
Proof.
  intros Hc He Hcus Hdb.
  eexists _, (newOrder unicodeUpper campaign (schemaDecode (PostForm r)) cus).
  split.
  { unfold_handler. rewrite Hc. cbn [world trace app].
    rewrite decide_False by done. cbn [world trace app].
    step_with Hcus. step_with Hdb. reflexivity. }
  by repeat split.
Qed.

(** C9. A request that reaches [Create] without a campaign in its context
    makes [Create] panic at its first statement, before any collaborator
    is called and before anything is written to the response; on the same
    request [New] answers with status 500 and the text
    [Campaign not provided] (a line of its own) as body. *)
Theorem Create_panics_without_campaign oh r w :
  campaignOf r "campaign" = None →
  serve (Create unicodeUpper schemaDecode oh) r w
  = (Panicked (PanicTypeAssertion "campaign"), mkHState w [])
  ∧ ∃ tr, serve (New oh) r w = (Returned tt, mkHState w tr)
          ∧ tr = [HTTPError "Campaign not provided" StatusInternalServerError]
          ∧ responseStatus tr = StatusInternalServerError
          ∧ responseBody tr = Some ("Campaign not provided" +:+ LF).
Proof.
  intros Hc. split.
  - unfold_handler. by rewrite Hc.
  - eexists. split; [unfold_handler; by rewrite Hc|]. by repeat split.
Qed.

(** Go's integer division of a non-negative number counts the whole
    units that fit. *)
Lemma quot_bounds (a b : Z) :
  0 ≤ a → 0 < b → a ÷ b * b ≤ a ∧ a < (a ÷ b + 1) * b.
Proof.
  intros Ha Hb. rewrite Z.quot_div_nonneg by lia.
  pose proof (Z.mul_div_le a b Hb).
  pose proof (Z.mul_succ_div_gt a b Hb). lia.
Qed.

(** The unit and the value computed from the time left. *)
Lemma timeLeft_spec (left : time.Duration) :
  (24 * time.Hour ≤ left →
     (timeLeft left).2 = "day(s)"
     ∧ (timeLeft left).1 * (24 * time.Hour) ≤ left
       < ((timeLeft left).1 + 1) * (24 * time.Hour))
  ∧ (time.Hour ≤ left < 24 * time.Hour →
     (timeLeft left).2 = "hour(s)"
     ∧ (timeLeft left).1 * time.Hour ≤ left
       < ((timeLeft left).1 + 1) * time.Hour)
  ∧ (time.Minute ≤ left < time.Hour →
     (timeLeft left).2 = "minute(s)"
     ∧ (timeLeft left).1 * time.Minute ≤ left
       < ((timeLeft left).1 + 1) * time.Minute)
  ∧ (0 ≤ left < time.Minute →
     (timeLeft left).2 = "second(s)"
     ∧ (timeLeft left).1 * time.Second ≤ left
       < ((timeLeft left).1 + 1) * time.Second)
  ∧ (left < 0 →
     (timeLeft left).2 = "second(s)"
     ∧ (timeLeft left).1 = left ÷ time.Second).
Proof.
  unfold timeLeft.
  destruct (Z.leb_spec (24 * time.Hour) left);
    [|destruct (Z.leb_spec time.Hour left);
      [|destruct (Z.leb_spec time.Minute left)]];
    cbn [fst snd];
    unfold time.Hour, time.Minute, time.Second, time.Nanosecond in *;
    repeat split; intros; try reflexivity; try lia;
    apply quot_bounds; lia.
Qed.

(** C7. When an active campaign is found, [ShowActive] reads the clock and
    renders the campaign view once, with a single value and a single unit
    for the time left [EndsAt - now]: whole days from 24 hours on, else
    whole hours from one hour on, else whole minutes from one minute on,
    else seconds; the value is the number of whole units that fit. A
    campaign that ends in exactly two hours gives 2 and [hour(s)]. The
    price shown is the price divided by 100 as an integer; 1200 gives
    12. *)
Theorem ShowActive_time_left ch r w campaign now w1 w2 :
  ActiveCampaign (CampaignHandlerDB ch) w = (w1, Ok campaign) →
  TimeNowFunc ch w1 = (w2, now) →
  ∃ s value unit,
    serve (ShowActive ch) r w = (Returned tt, s)
    ∧ campaignsShown (trace s)
      = [mkShowData (db.Campaign.ID campaign)
           (db.Campaign.Price campaign ÷ 100) value unit]
    ∧ (24 * time.Hour ≤ time.Sub (db.Campaign.EndsAt campaign) now →
       unit = "day(s)"
       ∧ value * (24 * time.Hour)
         ≤ time.Sub (db.Campaign.EndsAt campaign) now
         < (value + 1) * (24 * time.Hour))
    ∧ (time.Hour ≤ time.Sub (db.Campaign.EndsAt campaign) now
         < 24 * time.Hour →
       unit = "hour(s)"
       ∧ value * time.Hour
         ≤ time.Sub (db.Campaign.EndsAt campaign) now
         < (value + 1) * time.Hour)
    ∧ (time.Minute ≤ time.Sub (db.Campaign.EndsAt campaign) now
         < time.Hour →
       unit = "minute(s)"
       ∧ value * time.Minute
         ≤ time.Sub (db.Campaign.EndsAt campaign) now
         < (value + 1) * time.Minute)
    ∧ (0 ≤ time.Sub (db.Campaign.EndsAt campaign) now < time.Minute →
       unit = "second(s)"
       ∧ value * time.Second
         ≤ time.Sub (db.Campaign.EndsAt campaign) now
         < (value + 1) * time.Second)
    ∧ (time.Sub (db.Campaign.EndsAt campaign) now < 0 →
       unit = "second(s)"
       ∧ value = time.Sub (db.Campaign.EndsAt campaign) now ÷ time.Second)
    ∧ (time.minDuration ≤ db.Campaign.EndsAt campaign - now
         ≤ time.maxDuration →
       time.Sub (db.Campaign.EndsAt campaign) now
       = db.Campaign.EndsAt campaign - now)
    ∧ (db.Campaign.EndsAt campaign = now + 2 * time.Hour →
       value = 2 ∧ unit = "hour(s)")
    ∧ (db.Campaign.Price campaign = 1200 →
       db.Campaign.Price campaign ÷ 100 = 12).
Proof.
  intros Ha Hn.
  set (left := time.Sub (db.Campaign.EndsAt campaign) now).
  destruct (TemplatesShow ch
              (mkShowData (db.Campaign.ID campaign)
                 (db.Campaign.Price campaign ÷ 100)
                 (timeLeft left).1 (timeLeft left).2)) as [out err] eqn:Ht.
  assert (Hrun : ∃ s, serve (ShowActive ch) r w = (Returned tt, s)
    ∧ campaignsShown (trace s)
      = [mkShowData (db.Campaign.ID campaign)
           (db.Campaign.Price campaign ÷ 100)
           (timeLeft left).1 (timeLeft left).2]).
  { unfold_handler. step_with Ha. step_with Hn. fold left.
    destruct (timeLeft left) as [v u]. cbn [fst snd] in Ht.
    rewrite Ht. cbn [world trace app].
    destruct err; eexists; (split; [reflexivity|reflexivity]). }
  destruct Hrun as (s & Hs & Hshown).
  exists s, (timeLeft left).1, (timeLeft left).2.
  destruct (timeLeft_spec left) as (Hd & Hh & Hm & Hsec & Hneg).
  repeat split; try done; try (intros; by apply Hd);
    try (intros; by apply Hh); try (intros; by apply Hm);
    try (intros; by apply Hsec); try (intros; by apply Hneg).
  - intros [? ?]. subst left. unfold time.Sub.
    rewrite !(proj2 (Z.ltb_ge _ _)) by done. reflexivity.
  - subst left. replace (time.Sub (db.Campaign.EndsAt campaign) now)
      with (2 * time.Hour); [reflexivity|].
    rewrite H. unfold time.Sub.
    replace (now + 2 * time.Hour - now) with (2 * time.Hour) by lia.
    reflexivity.
  - subst left. replace (time.Sub (db.Campaign.EndsAt campaign) now)
      with (2 * time.Hour); [reflexivity|].
    rewrite H. unfold time.Sub.
    replace (now + 2 * time.Hour - now) with (2 * time.Hour) by lia.
    reflexivity.
  - intros ->. reflexivity.
Qed.

(** C6. Both middlewares split the request path into a head segment and a
    cleaned tail (this never fails). The campaign middleware answers
    [not found] without running the inner handler when the head is not a
    number, and when the campaign lookup returns an error; otherwise it
    runs the inner handler on the request with the tail as path and the
    campaign found under the context key [campaign]. The order middleware
    answers [not found] when the lookup by payment customer ID returns an
    error; otherwise it runs the inner handler with the order found under
    the key [order] and the tail as path ([/cus_abc123/id/here] leaves
    [/id/here/]). The only storage operation either of them performs is
    its lookup.

    Which heads are numbers, and which campaign is then looked up, is
    stated on its own: a head that is not an optional sign followed by one
    or more decimal digits is answered [not found] with no lookup; a head
    that is the decimal numeral of an integer (with or without sign and
    leading zeros) within the range of [int] makes the campaign middleware
    call [GetCampaign] with exactly that integer, and run the inner handler
    on the campaign found, or answer [not found] when the lookup fails; a
    numeral beyond the range of [int] is answered [not found] with no
    lookup, as [strconv.Atoi] fails on it. *)
Theorem middleware_resolution ch oh (next : HandlerFunc World) r w :
  ∃ head tail,
    urlpath.Split (URLPath r) = Some (head, tail)
    ∧ urlpath.Clean tail = Some tail
    ∧ match Bytes.Atoi head with
      | None =>
          serve (CampaignMw ch next) r w
          = (Returned tt, mkHState w [HTTPNotFound])
      | Some id =>
          ∀ w1 res,
            CampaignGetCampaign (CampaignHandlerDB ch) id w = (w1, res) →
            existsb isStorageWrite [DBGetCampaign id res] = false
            ∧ match res with
              | Err _ =>
                  serve (CampaignMw ch next) r w
                  = (Returned tt,
                     mkHState w1 [DBGetCampaign id res; HTTPNotFound])
              | Ok campaign =>
                  ∃ r',
                    serve (CampaignMw ch next) r w
                    = next r' (mkHState w1 [DBGetCampaign id res])
                    ∧ URLPath r' = tail
                    ∧ Value (Ctx r') "campaign" = Some (VCampaign campaign)
                    ∧ r' = mkRequest (Method r) tail (PostForm r)
                             (("campaign", VCampaign campaign) :: Ctx r)
              end
      end
    ∧ (∀ w1 res,
         GetOrderViaPayCus (DB oh) head w = (w1, res) →
         existsb isStorageWrite [DBGetOrderViaPayCus head res] = false
         ∧ match res with
           | Err _ =>
               serve (OrderMw oh next) r w
               = (Returned tt,
                  mkHState w1 [DBGetOrderViaPayCus head res; HTTPNotFound])
           | Ok order =>
               ∃ r',
                 serve (OrderMw oh next) r w
                 = next r' (mkHState w1 [DBGetOrderViaPayCus head res])
                 ∧ URLPath r' = tail
                 ∧ Value (Ctx r') "order" = Some (VOrder order)
                 ∧ r' = mkRequest (Method r) tail (PostForm r)
                          (("order", VOrder order) :: Ctx r)
           end)
    ∧ responseStatus [HTTPNotFound] = StatusNotFound
    ∧ urlpath.Split "/cus_abc123/id/here" = Some ("cus_abc123", "/id/here/")
    ∧ (Numeral.numeric head = false →
       serve (CampaignMw ch next) r w
       = (Returned tt, mkHState w [HTTPNotFound]))
    ∧ (∀ sgn k n w1 res,
         sgn ∈ [""; "+"; "-"] →
         head = Numeral.numeral sgn k n →
         Bytes.minInt ≤ Numeral.value sgn n ≤ Bytes.maxInt →
         CampaignGetCampaign (CampaignHandlerDB ch) (Numeral.value sgn n) w
         = (w1, res) →
         serve (CampaignMw ch next) r w
         = match res with
           | Ok campaign =>
               next (mkRequest (Method r) tail (PostForm r)
                       (("campaign", VCampaign campaign) :: Ctx r))
                    (mkHState w1 [DBGetCampaign (Numeral.value sgn n) res])
           | Err _ =>
               (Returned tt,
                mkHState w1
                  [DBGetCampaign (Numeral.value sgn n) res; HTTPNotFound])
           end)
    ∧ (∀ sgn k n,
         sgn ∈ [""; "+"; "-"] →
         head = Numeral.numeral sgn k n →
         ¬ (Bytes.minInt ≤ Numeral.value sgn n ≤ Bytes.maxInt) →
         serve (CampaignMw ch next) r w
         = (Returned tt, mkHState w [HTTPNotFound])).
Proof.
  destruct (urlpath_facts.Split_total (URLPath r)) as (head & tail & Hs & Ht).
  exists head, tail. split; [done|]. split; [done|].
  split; [|split; [|split; [done|split; [done|split; [|split]]]]];
    [| |intros Hnum|intros sgn k n w1 res Hsgn -> Hrange Hg
     |intros sgn k n Hsgn -> Hrange].
  3:{ unfold_handler.
      by rewrite Hs, (Atoi_facts.Atoi_not_numeric _ Hnum). }
  3:{ unfold_handler.
      rewrite Hs, (Atoi_facts.Atoi_numeral _ _ _ Hsgn),
        bool_decide_eq_true_2 by done.
      cbn [world trace app]. step_with Hg. by destruct res. }
  3:{ unfold_handler.
      by rewrite Hs, (Atoi_facts.Atoi_numeral _ _ _ Hsgn),
        bool_decide_eq_false_2. }
  - destruct (Bytes.Atoi head) as [id|] eqn:Ha.
    + intros w1 res Hg. split; [reflexivity|].
      destruct res as [campaign|e].
      * eexists. split; [|by repeat split].
        unfold_handler. rewrite Hs, Ha. cbn [world trace app].
        step_with Hg. reflexivity.
      * unfold_handler. rewrite Hs, Ha. cbn [world trace app].
        step_with Hg. reflexivity.
    + unfold_handler. rewrite Hs, Ha. reflexivity.
  - intros w1 res Hg. split; [reflexivity|].
    destruct res as [order|e].
    + eexists. split; [|by repeat split].
      unfold_handler. rewrite Hs. cbn [world trace app].
      step_with Hg. reflexivity.
    + unfold_handler. rewrite Hs. cbn [world trace app].
      step_with Hg. reflexivity.
Qed.

(** C5, as the code has it. In every successful [Create] the raw address
    of the order handed to storage is the upper-casing of the block
    (name; street line 1; street line 2; city, state and zip; country,
    each on its own line) in which the first pair of consecutive line
    feeds, if there is one, is replaced by a single line feed. When the
    name and street line 1 hold no line feed and street line 1 is not
    empty, an empty second line has its blank line removed; when moreover
    no field holds a line feed and the second line is not empty, nothing
    is collapsed. *)
Theorem Create_raw_address oh r w campaign cus id w1 w2 f :
  schemaDecode (PostForm r) = f →
  campaignOf r "campaign" = Some campaign →
  Email f ≠ "" →
  Customer (Client oh) (Get (PostForm r) "stripe-token") (Email f) w
  = (w1, Ok cus) →
  CreateOrder (DB oh) (newOrder unicodeUpper campaign f cus) w1
  = (w2, Ok id) →
  ∃ order,
    createOrderCalls (trace (serve (Create unicodeUpper schemaDecode oh) r w).2)
    = [order]
    ∧ db.Address.Raw (db.Order.Address order)
      = Bytes.ToUpper unicodeUpper
          (Bytes.ReplaceFirst
             (addressBlock (Name f) (Street1 f) (Street2 f) (City f)
                (State f) (Zip f) (Country f))
             (LF +:+ LF) LF)
    ∧ (Bytes.hasLF (Name f) = false → Bytes.hasLF (Street1 f) = false →
       Street1 f ≠ "" → Street2 f = "" →
       db.Address.Raw (db.Order.Address order)
       = Bytes.ToUpper unicodeUpper
           (Name f +:+ LF +:+ Street1 f +:+ LF +:+
            City f +:+ " " +:+ State f +:+ "  " +:+ Zip f +:+ LF +:+
            Country f))
    ∧ (Bytes.hasLF (Name f) = false → Bytes.hasLF (Street1 f) = false →
       Bytes.hasLF (Street2 f) = false → Bytes.hasLF (City f) = false →
       Bytes.hasLF (State f) = false → Bytes.hasLF (Zip f) = false →
       Bytes.hasLF (Country f) = false →
       Street1 f ≠ "" → Street2 f ≠ "" →
       db.Address.Raw (db.Order.Address order)
       = Bytes.ToUpper unicodeUpper
           (addressBlock (Name f) (Street1 f) (Street2 f) (City f)
              (State f) (Zip f) (Country f))).
Proof.
  intros Hf Hc He Hcus Hdb.
  exists (newOrder unicodeUpper campaign f cus).
  assert (Hassoc : ∀ rest,
    City f +:+ " " +:+ State f +:+ "  " +:+ Zip f +:+ rest
    = (City f +:+ " " +:+ State f +:+ "  " +:+ Zip f) +:+ rest).
  { intros rest. by rewrite !string_app_assoc. }
  split; [|split; [reflexivity|split]].
  - unfold_handler. rewrite Hc. cbn [world trace app]. rewrite Hf.
    rewrite decide_False by done. cbn [world trace app].
    step_with Hcus. step_with Hdb. reflexivity.
  - intros Hn H1 N1 E2. cbn. unfold rawAddress, addressBlock.
    rewrite E2, !Hassoc.
    by rewrite Replace_facts.ReplaceFirst_empty_street2.
  - intros Hn H1 H2 Hci Hst Hz Hco N1 N2. cbn.
    unfold rawAddress, addressBlock. rewrite !Hassoc.
    rewrite Replace_facts.ReplaceFirst_no_blank; try done.
    + rewrite !Replace_facts.hasLF_app, Hci, Hst, Hz. reflexivity.
    + by destruct (City f).
Qed.

End HandlerProperties.

(** ** The theorems at work on the stand-in collaborators *)

Module Witnesses.
Import swaghttp Mock.

(** [Confirm] on an uncharged order, charge and persistence succeeding. *)
Lemma Confirm_success_witness :
  ∃ tr,
    serve (Confirm (Mock.orderHandler (Mock.order "") None (Ok charged)
                      (Ok charged)))
          (Mock.confirmRequest "") 0%nat
    = (Returned tt, mkHState 3%nat tr)
    ∧ confirmOrderCalls tr = [(123, "NEW ADDRESS HERE", "chg_Y")]
    ∧ redirectTarget tr = Some "/orders/cus_abc123".
Proof.
  destruct (Confirm_success
              (Mock.orderHandler (Mock.order "") None (Ok charged) (Ok charged))
              (Mock.confirmRequest "") 0%nat (Mock.order "") Mock.campaign
              charged 1%nat 2%nat 3%nat)
    as (tr & Hrun & Hcalls & _ & _ & Hredir & _);
    [reflexivity | reflexivity | reflexivity | vm_compute; reflexivity |].
  exists tr. split; [exact Hrun|]. split; [exact Hcalls|exact Hredir].
Defined.

(** [Confirm] when the payment processor declines the card. *)
Lemma Confirm_failures_witness :
  ∃ tr,
    serve (Confirm (Mock.orderHandler (Mock.order "") None (Ok charged)
                      (Err declined)))
          (Mock.confirmRequest "") 0%nat
    = (Returned tt, mkHState 2%nat tr)
    ∧ responseBody tr = Some "Your card was declined."
    ∧ confirmOrderCalls tr = [].
Proof.
  destruct (Confirm_failures
              (Mock.orderHandler (Mock.order "") None (Ok charged)
                 (Err declined))
              (Mock.confirmRequest "") 0%nat (Mock.order "") Mock.campaign
              1%nat 2%nat (Err declined))
    as (Hstripe & _); [reflexivity | reflexivity | reflexivity |].
  destruct (Hstripe (stripe.Error.mk "Your card was declined.") eq_refl)
    as (tr & Hrun & Hbody & Hcalls & _).
  exists tr. split; [exact Hrun|]. split; [exact Hbody|exact Hcalls].
Defined.

(** [Show] on a charged order whose payment is pending. *)
Lemma Show_branches_witness :
  ∃ s,
    serve (Show (Mock.orderHandler (Mock.order "chg_xyz890") None
                   (Ok (stripe.Charge.mk "chg_xyz890" "pending"))
                   (Ok charged)))
          (Mock.showRequest "chg_xyz890") 0%nat
    = (Returned tt, s)
    ∧ chargeCalls (trace s) = []
    ∧ responseStatus (trace s) = 200
    ∧ responseBody (trace s) = Some ("Your payment is still pending." +:+ LF).
Proof.
  destruct (Show_branches
              (Mock.orderHandler (Mock.order "chg_xyz890") None
                 (Ok (stripe.Charge.mk "chg_xyz890" "pending")) (Ok charged))
              (Mock.showRequest "chg_xyz890") 0%nat
              (Mock.order "chg_xyz890") Mock.campaign 1%nat)
    as (Hcharged & _); [reflexivity | reflexivity |].
  destruct (Hcharged ltac:(discriminate) 2%nat
              (Ok (stripe.Charge.mk "chg_xyz890" "pending")) eq_refl)
    as (s & Hrun & _ & Hnone & _ & Hpending & _).
  destruct (Hpending eq_refl) as [Hstatus Hbody].
  exists s. repeat split; assumption.
Defined.

(** [Show] on a charged order with a status the handler does not know. *)
Lemma Show_unrecognized_status_witness :
  ∃ tr,
    serve (Show (Mock.orderHandler (Mock.order "chg_xyz890") None
                   (Ok (stripe.Charge.mk "chg_xyz890" "canceled"))
                   (Ok charged)))
          (Mock.showRequest "chg_xyz890") 0%nat
    = (Returned tt, mkHState 2%nat tr)
    ∧ responseStatus tr = 200
    ∧ responseBody tr = Some "".
Proof.
  destruct (Show_unrecognized_status
              (Mock.orderHandler (Mock.order "chg_xyz890") None
                 (Ok (stripe.Charge.mk "chg_xyz890" "canceled")) (Ok charged))
              (Mock.showRequest "chg_xyz890") 0%nat
              (Mock.order "chg_xyz890") Mock.campaign
              (stripe.Charge.mk "chg_xyz890" "canceled") 1%nat 2%nat)
    as (tr & Hrun & _ & Hstatus & Hbody);
    [reflexivity | reflexivity | discriminate | reflexivity
    | discriminate | discriminate | discriminate |].
  exists tr. repeat split; assumption.
Defined.

(** [Create] for campaign 999 with the email [a@b.com]. *)
Lemma Create_success_witness :
  ∃ tr order,
    serve (Create id Mock.decode
             (Mock.orderHandler (Mock.order "") None (Ok charged) (Ok charged)))
          (Mock.createRequest "123 Sticker St" "" campaignCtx) 0%nat
    = (Returned tt, mkHState 2%nat tr)
    ∧ createOrderCalls tr = [order]
    ∧ db.Order.CampaignID order = 999
    ∧ db.Payment.ChargeID (db.Order.Payment order) = ""
    ∧ redirectTarget tr = Some "/orders/cus_X".
Proof.
  destruct (Create_success id Mock.decode
              (Mock.orderHandler (Mock.order "") None (Ok charged) (Ok charged))
              (Mock.createRequest "123 Sticker St" "" campaignCtx) 0%nat
              Mock.campaign (stripe.Customer.mk "cus_X") 123 1%nat 2%nat)
    as (tr & order & Hrun & Hcalls & Hcamp & _ & _ & Hchg & _ & Hredir & _);
    [reflexivity | vm_compute; discriminate | reflexivity | reflexivity |].
  exists tr, order. repeat split; assumption.
Defined.

(** [Create] with an empty second address line. *)
Lemma Create_raw_address_witness :
  ∃ order,
    createOrderCalls
      (trace (serve (Create id Mock.decode
                       (Mock.orderHandler (Mock.order "") None (Ok charged)
                          (Ok charged)))
                    (Mock.createRequest "123 Sticker St" "" campaignCtx)
                    0%nat).2)
    = [order]
    ∧ db.Address.Raw (db.Order.Address order)
      = "CHRIS GREENE" +:+ LF +:+ "123 STICKER ST" +:+ LF +:+
        "BEDFORD PA  15522" +:+ LF +:+ "UNITED STATES".
Proof.
  destruct (Create_raw_address id Mock.decode
              (Mock.orderHandler (Mock.order "") None (Ok charged) (Ok charged))
              (Mock.createRequest "123 Sticker St" "" campaignCtx) 0%nat
              Mock.campaign (stripe.Customer.mk "cus_X") 123 1%nat 2%nat
              (Mock.decode
                 (PostForm (Mock.createRequest "123 Sticker St" "" campaignCtx))))
    as (order & Hcalls & _ & Hempty & _);
    [reflexivity | reflexivity | vm_compute; discriminate | reflexivity
    | reflexivity |].
  exists order. split; [exact Hcalls|].
  rewrite Hempty; [vm_compute; reflexivity | vm_compute; reflexivity
                  | vm_compute; reflexivity | vm_compute; discriminate
                  | vm_compute; reflexivity].
Defined.

(** C5 as stated fails: with an empty street line 1 and a non-empty second
    line, [Create] collapses the blank line left by street line 1, so the
    raw address is not the upper-cased block although the second address
    line is not empty. *)
Lemma Create_collapses_despite_second_line :
  ∃ order,
    createOrderCalls
      (trace (serve (Create id Mock.decode
                       (Mock.orderHandler (Mock.order "") None (Ok charged)
                          (Ok charged)))
                    (Mock.createRequest "" "Apt 45" campaignCtx) 0%nat).2)
    = [order]
    ∧ db.Address.Street2 (db.Order.Address order) = "Apt 45"
    ∧ db.Address.Raw (db.Order.Address order)
      = "CHRIS GREENE" +:+ LF +:+ "APT 45" +:+ LF +:+
        "BEDFORD PA  15522" +:+ LF +:+ "UNITED STATES"
    ∧ db.Address.Raw (db.Order.Address order)
      ≠ Bytes.ToUpper id
          (addressBlock "Chris Greene" "" "Apt 45" "Bedford" "PA" "15522"
             "United States").
Proof.
  eexists. split; [vm_compute; reflexivity|].
  split; [reflexivity|]. split; [vm_compute; reflexivity|].
  vm_compute. discriminate.
Qed.

(** [ShowActive] two hours before the end of a campaign priced 1200. *)
Lemma ShowActive_time_left_witness :
  ∃ s,
    serve (ShowActive (Mock.campaignHandler (Ok Mock.campaign) 0))
          (Mock.request "GET" "/" [] []) 0%nat
    = (Returned tt, s)
    ∧ campaignsShown (trace s) = [mkShowData 999 12 2 "hour(s)"].
Proof.
  destruct (ShowActive_time_left
              (Mock.campaignHandler (Ok Mock.campaign) 0)
              (Mock.request "GET" "/" [] []) 0%nat Mock.campaign 0
              1%nat 2%nat)
    as (s & value & unit & Hrun & Hshown & _ & _ & _ & _ & _ & _ & Htwo & _);
    [reflexivity | reflexivity |].
  destruct (Htwo eq_refl) as [-> ->].
  exists s. split; [exact Hrun|exact Hshown].
Defined.

(** [Create] and [New] on a request without a campaign. *)
Lemma Create_panics_without_campaign_witness :
  serve (Create id Mock.decode
           (Mock.orderHandler (Mock.order "") None (Ok charged) (Ok charged)))
        (Mock.createRequest "123 Sticker St" "" []) 0%nat
  = (Panicked (PanicTypeAssertion "campaign"), mkHState 0%nat [])
  ∧ responseStatus
      (trace (serve (New (Mock.orderHandler (Mock.order "") None (Ok charged)
                            (Ok charged)))
                    (Mock.createRequest "123 Sticker St" "" []) 0%nat).2)
    = 500.
Proof.
  destruct (Create_panics_without_campaign id Mock.decode
              (Mock.orderHandler (Mock.order "") None (Ok charged) (Ok charged))
              (Mock.createRequest "123 Sticker St" "" []) 0%nat eq_refl)
    as (Hpanic & tr & Hnew & _ & Hstatus & _).
  split; [exact Hpanic|]. rewrite Hnew. exact Hstatus.
Defined.

(** The campaign middleware on [/999/orders/new] (campaign 999 is looked up
    and found), on [/12/orders/new] (campaign 12 is looked up and not
    found) and on [/abc/orders/new] (no lookup); the order middleware on
    [/cus_abc123/id/here]. *)
Lemma middleware_resolution_witness :
  serve (CampaignMw (Mock.campaignHandler (Ok Mock.campaign) 0) echoPath)
        (Mock.request "GET" "/999/orders/new" [] []) 0%nat
  = (Returned tt,
     mkHState 1%nat
       [DBGetCampaign 999 (Ok Mock.campaign); Fprintln "/orders/new/"])
  ∧ serve (CampaignMw (Mock.campaignHandler (Ok Mock.campaign) 0) echoPath)
          (Mock.request "GET" "/12/orders/new" [] []) 0%nat
    = (Returned tt,
       mkHState 1%nat [DBGetCampaign 12 (Err ErrNoRows); HTTPNotFound])
  ∧ serve (CampaignMw (Mock.campaignHandler (Ok Mock.campaign) 0) echoPath)
          (Mock.request "GET" "/abc/orders/new" [] []) 0%nat
    = (Returned tt, mkHState 0%nat [HTTPNotFound])
  ∧ serve (OrderMw (Mock.orderHandler (Mock.order "") None (Ok charged)
                      (Ok charged)) echoPath)
          (Mock.request "GET" "/cus_abc123/id/here" [] []) 0%nat
    = (Returned tt,
       mkHState 1%nat
         [DBGetOrderViaPayCus "cus_abc123" (Ok (Mock.order ""));
          Fprintln "/id/here/"]).
Proof.
  assert (Hsgn : "" ∈ [""; "+"; "-"]) by constructor.
  assert (Hrange : ∀ n, (n < 1000)%N →
            Bytes.minInt ≤ Numeral.value "" n ≤ Bytes.maxInt).
  { intros n Hn. unfold Numeral.value, Bytes.minInt, Bytes.maxInt.
    rewrite bool_decide_eq_false_2 by done. lia. }
  split; [|split; [|split]].
  - destruct (middleware_resolution
                (Mock.campaignHandler (Ok Mock.campaign) 0)
                (Mock.orderHandler (Mock.order "") None (Ok charged)
                   (Ok charged))
                echoPath (Mock.request "GET" "/999/orders/new" [] []) 0%nat)
      as (head & tail & Hsplit & _ & _ & _ & _ & _ & _ & Hnum & _).
    vm_compute in Hsplit. injection Hsplit as <- <-.
    exact (Hnum "" 0%nat 999%N 1%nat (Ok Mock.campaign) Hsgn eq_refl
             (Hrange 999%N eq_refl) eq_refl).
  - destruct (middleware_resolution
                (Mock.campaignHandler (Ok Mock.campaign) 0)
                (Mock.orderHandler (Mock.order "") None (Ok charged)
                   (Ok charged))
                echoPath (Mock.request "GET" "/12/orders/new" [] []) 0%nat)
      as (head & tail & Hsplit & _ & _ & _ & _ & _ & _ & Hnum & _).
    vm_compute in Hsplit. injection Hsplit as <- <-.
    exact (Hnum "" 0%nat 12%N 1%nat (Err ErrNoRows) Hsgn eq_refl
             (Hrange 12%N eq_refl) eq_refl).
  - destruct (middleware_resolution
                (Mock.campaignHandler (Ok Mock.campaign) 0)
                (Mock.orderHandler (Mock.order "") None (Ok charged)
                   (Ok charged))
                echoPath (Mock.request "GET" "/abc/orders/new" [] []) 0%nat)
      as (head & tail & Hsplit & _ & _ & _ & _ & _ & Hnon & _).
    vm_compute in Hsplit. injection Hsplit as <- <-.
    exact (Hnon eq_refl).
  - destruct (middleware_resolution
                (Mock.campaignHandler (Ok Mock.campaign) 0)
                (Mock.orderHandler (Mock.order "") None (Ok charged)
                   (Ok charged))
                echoPath (Mock.request "GET" "/cus_abc123/id/here" [] [])
                0%nat)
      as (head & tail & Hsplit & _ & _ & Horder & _).
    vm_compute in Hsplit. injection Hsplit as <- <-.
    destruct (Horder 1%nat (Ok (Mock.order "")) eq_refl)
      as (_ & r' & Hrun & _ & _ & ->).
    exact Hrun.
Defined.

End Witnesses.

(** * Further properties of the handlers *)

Section MoreHandlerProperties.
Import swaghttp.

Context {World : Type}.
Variable unicodeUpper : string → string.
Variable schemaDecode : Values → createForm.

Implicit Types (oh : OrderHandler World) (ch : CampaignHandler World).
Implicit Types (r : Request) (w : World).

Ltac run_handler :=
  cbv [serve New Create OrderMw Show Confirm ShowActive CampaignMw
       mbind M_bind bind call emit mret M_ret ret mustAssert panic
       logPrintf execute afterCreateOrder];
  cbn [world trace app].

Ltac answer_with H := rewrite H; cbn [world trace app].

Ltac order_fields :=
  cbn [db.Order.setAddressRaw db.Order.setChargeID db.Order.setID
       db.Order.Payment db.Order.Address db.Order.ID db.Order.CampaignID
       db.Address.Raw db.Payment.CustomerID db.Payment.ChargeID
       db.Payment.Source].

(** Closes the facts about a run whose trace is known: list lengths, and
    lookups at each position of the trace. *)
Ltac finish_run :=
  cbn; repeat split; try lia;
  try (let i := fresh "i" in
       let Hi := fresh "Hi" in
       intros i ? ? ? ? Hi || intros i ? ? Hi || intros i ? Hi;
       do 6 (try (destruct i as [|i]; simpl in Hi; simplify_eq))).

(** With a campaign in context and no email after decoding, [Create] panics
    before the payment collaborator is asked for anything. *)
Theorem Create_empty_email_panics oh r w campaign :
  campaignOf r "campaign" = Some campaign →
  Email (schemaDecode (PostForm r)) = "" →
  serve (Create unicodeUpper schemaDecode oh) r w
  = (Panicked (PanicString "email wasn't parsed!"), mkHState w []).
Proof.
  intros Hc He. run_handler. rewrite Hc. cbn [world trace app].
  by rewrite decide_True.
Qed.

(** When the customer-creation call fails, [Create] logs the email and the
    error, answers 500 with the payment text, and never calls
    [CreateOrder]. *)
Theorem Create_customer_failure oh r w campaign e w1 :
  campaignOf r "campaign" = Some campaign →
  Email (schemaDecode (PostForm r)) ≠ "" →
  Customer (Client oh) (Get (PostForm r) "stripe-token")
    (Email (schemaDecode (PostForm r))) w = (w1, Err e) →
  ∃ s,
    serve (Create unicodeUpper schemaDecode oh) r w = (Returned tt, s)
    ∧ createOrderCalls (trace s) = []
    ∧ responseStatus (trace s) = StatusInternalServerError
    ∧ responseBody (trace s) = Some (msgPaymentInfo +:+ LF)
    ∧ redirectTarget (trace s) = None
    ∧ trace s
      = [StripeCustomer (Get (PostForm r) "stripe-token")
           (Email (schemaDecode (PostForm r))) (Err e);
         LogPrintf "Error creating stripe customer. email = %s, err = %v"
           [LogString (Email (schemaDecode (PostForm r))); LogError e];
         HTTPError msgPaymentInfo StatusInternalServerError].
Proof.
  intros Hc He Hcus. eexists. split.
  { run_handler. rewrite Hc. cbn [world trace app].
    rewrite decide_False by done. cbn [world trace app].
    answer_with Hcus. reflexivity. }
  by repeat split.
Qed.

(** When [CreateOrder] fails, [Create] answers 400 with the generic text
    and does not redirect; the payment customer created just before stays
    as it is: no further call is made. *)
Theorem Create_persistence_failure oh r w campaign cus e w1 w2 :
  campaignOf r "campaign" = Some campaign →
  Email (schemaDecode (PostForm r)) ≠ "" →
  Customer (Client oh) (Get (PostForm r) "stripe-token")
    (Email (schemaDecode (PostForm r))) w = (w1, Ok cus) →
  CreateOrder (DB oh)
    (newOrder unicodeUpper campaign (schemaDecode (PostForm r)) cus) w1
  = (w2, Err e) →
  ∃ tr,
    serve (Create unicodeUpper schemaDecode oh) r w
    = (Returned tt, mkHState w2 tr)
    ∧ responseStatus tr = StatusBadRequest
    ∧ responseBody tr = Some (msgGeneric +:+ LF)
    ∧ redirectTarget tr = None
    ∧ tr = [StripeCustomer (Get (PostForm r) "stripe-token")
              (Email (schemaDecode (PostForm r))) (Ok cus);
            DBCreateOrder
              (newOrder unicodeUpper campaign (schemaDecode (PostForm r)) cus)
              (Err e);
            HTTPError msgGeneric StatusBadRequest].
Proof.
  intros Hc He Hcus Hdb. eexists. split.
  { run_handler. rewrite Hc. cbn [world trace app].
    rewrite decide_False by done. cbn [world trace app].
    answer_with Hcus. answer_with Hdb. reflexivity. }
  by repeat split.
Qed.

(** In every run of [Create], whatever the collaborators answer, the
    payment collaborator is asked for at most one customer and storage for
    at most one order, an order is handed to storage only after a customer
    was created, and no charge is ever made. *)
Theorem Create_no_retry oh r w :
  (length (omap (λ e, match e with
                      | StripeCustomer t m _ => Some (t, m)
                      | _ => None
                      end)
             (trace (serve (Create unicodeUpper schemaDecode oh) r w).2))
   ≤ 1)%nat
  ∧ (length (createOrderCalls
               (trace (serve (Create unicodeUpper schemaDecode oh) r w).2))
     ≤ 1)%nat
  ∧ chargeCalls (trace (serve (Create unicodeUpper schemaDecode oh) r w).2)
    = []
  ∧ (∀ i order res,
       trace (serve (Create unicodeUpper schemaDecode oh) r w).2 !! i
       = Some (DBCreateOrder order res) →
       ∃ j token email cus,
         (j < i)%nat ∧
         trace (serve (Create unicodeUpper schemaDecode oh) r w).2 !! j
         = Some (StripeCustomer token email (Ok cus))).
Proof.
  run_handler.
  destruct (campaignOf r "campaign") as [campaign|]; cbn [world trace app];
    [|by finish_run].
  destruct (decide _); cbn [world trace app]; [by finish_run|].
  destruct (Customer _ _ _ _) as [w1 [cus|e]]; cbn [world trace app];
    [|by finish_run].
  destruct (CreateOrder _ _ _) as [w2 [id|e]]; finish_run.
  all: exists 0%nat; eexists _, _, _; split; [lia|reflexivity].
Qed.

(** When the campaign of the order cannot be looked up, [Show] and
    [Confirm] log the failure and answer 500 with the generic text; neither
    asks the payment collaborator for anything, and [Confirm] neither
    charges nor persists. *)
Theorem campaign_lookup_failure oh r w order e w1 :
  orderOf r "order" = Some order →
  GetCampaign (DB oh) (db.Order.CampaignID order) w = (w1, Err e) →
  ∃ tr,
    serve (Show oh) r w
    = (Returned tt,
       mkHState
         (Printf (OrderLogger oh) ("error retrieving order campaign" +:+ LF)
            [] w1) tr)
    ∧ serve (Confirm oh) r w
      = (Returned tt,
         mkHState
           (Printf (OrderLogger oh) ("error retrieving order campaign" +:+ LF)
              [] w1) tr)
    ∧ responseStatus tr = StatusInternalServerError
    ∧ responseBody tr = Some (msgGeneric +:+ LF)
    ∧ chargeCalls tr = [] ∧ getChargeCalls tr = []
    ∧ confirmOrderCalls tr = []
    ∧ tr = [DBGetCampaign (db.Order.CampaignID order) (Err e);
            LogPrintf ("error retrieving order campaign" +:+ LF) [];
            HTTPError msgGeneric StatusInternalServerError].
Proof.
  intros Ho Hc. eexists. split; [|split].
  - run_handler. rewrite Ho. cbn [world trace app]. answer_with Hc.
    reflexivity.
  - run_handler. rewrite Ho. cbn [world trace app]. answer_with Hc.
    reflexivity.
  - by repeat split.
Qed.

(** A request that reaches [Show] or [Confirm] without an order in its
    context makes the handler panic at once: no lookup, no charge, nothing
    written. *)
Theorem order_handlers_panic_without_order oh r w :
  orderOf r "order" = None →
  serve (Show oh) r w = (Panicked (PanicTypeAssertion "order"), mkHState w [])
  ∧ serve (Confirm oh) r w
    = (Panicked (PanicTypeAssertion "order"), mkHState w []).
Proof.
  intros Ho. split; run_handler; by rewrite Ho.
Qed.

(** [Confirm] never looks at the charge ID the order already has: two
    requests that differ only in the charge ID of the order in context run
    exactly alike, so confirming a charged order charges the customer
    again. *)
Theorem Confirm_ignores_prior_charge oh r1 r2 w order chargeID :
  orderOf r1 "order" = Some order →
  orderOf r2 "order" = Some (db.Order.setChargeID chargeID order) →
  PostForm r1 = PostForm r2 →
  serve (Confirm oh) r1 w = serve (Confirm oh) r2 w.
Proof.
  intros H1 H2 Hf. run_handler. rewrite H1, H2, Hf. reflexivity.
Qed.

(** In every run of [Confirm], whatever the collaborators answer, at most
    one charge is created and at most one [ConfirmOrder] call is made: a
    failed call is never repeated. No customer is created, no order is
    created and no charge status is looked up. *)
Theorem Confirm_no_retry oh r w :
  (length (chargeCalls (trace (serve (Confirm oh) r w).2)) ≤ 1)%nat
  ∧ (length (confirmOrderCalls (trace (serve (Confirm oh) r w).2)) ≤ 1)%nat
  ∧ createOrderCalls (trace (serve (Confirm oh) r w).2) = []
  ∧ getChargeCalls (trace (serve (Confirm oh) r w).2) = [].
Proof.
  run_handler.
  destruct (orderOf r "order") as [order|]; cbn [world trace app];
    [|by finish_run].
  destruct (GetCampaign _ _ _) as [w1 [campaign|e]]; cbn [world trace app];
    [|by finish_run].
  order_fields.
  destruct (Charge _ _ _ _) as [w2 [chg|e]]; cbn [world trace app].
  - destruct (ConfirmOrder _ _ _ _ _) as [w3 [err|]]; by finish_run.
  - destruct e; by finish_run.
Qed.

(** [Show] only reads: in every run, whatever the collaborators answer, it
    makes no storage write, creates no charge and no customer, and looks
    the charge status up at most once. *)
Theorem Show_read_only oh r w :
  existsb isStorageWrite (trace (serve (Show oh) r w).2) = false
  ∧ chargeCalls (trace (serve (Show oh) r w).2) = []
  ∧ existsb (λ e, match e with StripeCustomer _ _ _ => true | _ => false end)
      (trace (serve (Show oh) r w).2) = false
  ∧ (length (getChargeCalls (trace (serve (Show oh) r w).2)) ≤ 1)%nat.
Proof.
  run_handler.
  destruct (orderOf r "order") as [order|]; cbn [world trace app];
    [|by finish_run].
  destruct (GetCampaign _ _ _) as [w1 [campaign|e]]; cbn [world trace app];
    [|by finish_run].
  destruct (decide _); cbn [world trace app].
  - destruct (GetCharge _ _ _) as [w2 [chg|e]]; cbn [world trace app];
      [|by finish_run].
    repeat (destruct (decide _); [by finish_run|]). by finish_run.
  - destruct (TemplatesReview oh _) as [out err]. by finish_run.
Qed.

(** A confirmation whose form has no [address-raw] field still charges, and
    then persists the empty string as the raw address of the order. *)
Theorem Confirm_missing_address oh r w order campaign chg w1 w2 w3 :
  PostForm r !! "address-raw" = None →
  orderOf r "order" = Some order →
  GetCampaign (DB oh) (db.Order.CampaignID order) w = (w1, Ok campaign) →
  Charge (Client oh) (db.Payment.CustomerID (db.Order.Payment order))
    (db.Campaign.Price campaign) w1 = (w2, Ok chg) →
  ConfirmOrder (DB oh) (db.Order.ID order) "" (stripe.Charge.ID chg) w2
  = (w3, None) →
  ∃ tr,
    serve (Confirm oh) r w = (Returned tt, mkHState w3 tr)
    ∧ chargeCalls tr
      = [(db.Payment.CustomerID (db.Order.Payment order),
          db.Campaign.Price campaign)]
    ∧ confirmOrderCalls tr = [(db.Order.ID order, "", stripe.Charge.ID chg)]
    ∧ responseStatus tr = StatusFound.
Proof.
  intros Hf Ho Hc Hch Hp.
  assert (Hget : Get (PostForm r) "address-raw" = "").
  { unfold Get. by rewrite Hf. }
  eexists. split.
  { run_handler. rewrite Ho. cbn [world trace app].
    answer_with Hc. order_fields. rewrite Hget.
    answer_with Hch. answer_with Hp. reflexivity. }
  by repeat split.
Qed.

(** With a campaign in context, [New] calls neither storage nor the payment
    collaborator: it renders the form once, with the campaign ID, the price
    divided by 100 as an integer and the public key. A failing template is
    logged and never turned into an error response. *)
Theorem New_renders_form oh r w campaign out err :
  campaignOf r "campaign" = Some campaign →
  TemplatesNew oh
    (mkNewData (db.Campaign.ID campaign) (db.Campaign.Price campaign ÷ 100)
       (StripePublicKey oh)) = (out, err) →
  ∃ s,
    serve (New oh) r w = (Returned tt, s)
    ∧ trace s
      = ExecuteNew
          (mkNewData (db.Campaign.ID campaign)
             (db.Campaign.Price campaign ÷ 100) (StripePublicKey oh))
          out err
        :: match err with
           | Some e =>
               [LogPrintf "Error executing the new_order template. err = %v"
                  [LogError e]]
           | None => []
           end
    ∧ responseBody (trace s) = Some out
    ∧ (out ≠ "" → responseStatus (trace s) = StatusOK).
Proof.
  intros Hc Ht.
  assert (Hrun : ∃ s, serve (New oh) r w = (Returned tt, s)
    ∧ trace s
      = ExecuteNew
          (mkNewData (db.Campaign.ID campaign)
             (db.Campaign.Price campaign ÷ 100) (StripePublicKey oh))
          out err
        :: match err with
           | Some e =>
               [LogPrintf "Error executing the new_order template. err = %v"
                  [LogError e]]
           | None => []
           end).
  { run_handler. rewrite Hc, Ht. cbn [world trace app].
    destruct err; eexists; split; reflexivity. }
  destruct Hrun as (s & Hs & Htr). exists s.
  split; [done|]. split; [done|]. rewrite Htr. split.
  - destruct err; cbn; by rewrite ?string_app_nil_r.
  - intros Hne. unfold responseStatus. cbn.
    by rewrite decide_False.
Qed.

(** When storage reports that no campaign is active, [ShowActive] renders
    the ended view with no data and answers with no error; when storage
    fails in any other way it logs the error and answers 500 with the
    generic text, rendering nothing. In both cases the clock is not
    read. *)
Theorem ShowActive_without_campaign ch r w e w1 out err :
  ActiveCampaign (CampaignHandlerDB ch) w = (w1, Err e) →
  TemplatesEnded ch tt = (out, err) →
  ∃ s,
    serve (ShowActive ch) r w = (Returned tt, s)
    ∧ campaignsShown (trace s) = []
    ∧ existsb (λ ev, match ev with TimeNow _ => true | _ => false end)
        (trace s) = false
    ∧ (e = ErrNoRows →
       trace s
       = DBActiveCampaign (Err e) :: ExecuteEnded out err
         :: match err with
            | Some e' =>
                [LogPrintf
                   "Error executing campaign ended template. err = %v"
                   [LogError e']]
            | None => []
            end)
    ∧ (e ≠ ErrNoRows →
       trace s
       = [DBActiveCampaign (Err e);
          LogPrintf "Error retrieving the active campaign. err = %v"
            [LogError e];
          HTTPError msgGeneric StatusInternalServerError]
       ∧ responseStatus (trace s) = StatusInternalServerError).
Proof.
  intros Ha Ht.
  destruct e as [|se|d].
  - assert (Hrun : ∃ s, serve (ShowActive ch) r w = (Returned tt, s)
      ∧ trace s
        = DBActiveCampaign (Err ErrNoRows) :: ExecuteEnded out err
          :: match err with
             | Some e' =>
                 [LogPrintf
                    "Error executing campaign ended template. err = %v"
                    [LogError e']]
             | None => []
             end).
    { run_handler. answer_with Ha. rewrite Ht. cbn [world trace app].
      destruct err; eexists; split; reflexivity. }
    destruct Hrun as (s & Hs & Htr). exists s. rewrite Htr.
    repeat split; try done; by destruct err.
  - eexists. split.
    { run_handler. answer_with Ha. reflexivity. }
    by repeat split.
  - eexists. split.
    { run_handler. answer_with Ha. reflexivity. }
    by repeat split.
Qed.

(** The value shown with each unit stays in that unit's range: at least one
    day; between 1 and 23 hours; between 1 and 59 minutes; between 0 and 59
    seconds when the time left is not negative, and never more than zero
    seconds when it is. *)
Theorem timeLeft_ranges (left : time.Duration) :
  (24 * time.Hour ≤ left → 1 ≤ (timeLeft left).1)
  ∧ (time.Hour ≤ left < 24 * time.Hour → 1 ≤ (timeLeft left).1 ≤ 23)
  ∧ (time.Minute ≤ left < time.Hour → 1 ≤ (timeLeft left).1 ≤ 59)
  ∧ (0 ≤ left < time.Minute → 0 ≤ (timeLeft left).1 ≤ 59)
  ∧ (left < 0 →
     (timeLeft left).2 = "second(s)" ∧ (timeLeft left).1 ≤ 0
     ∧ left ≤ (timeLeft left).1 * time.Second).
Proof.
  unfold timeLeft.
  destruct (Z.leb_spec (24 * time.Hour) left);
    [|destruct (Z.leb_spec time.Hour left);
      [|destruct (Z.leb_spec time.Minute left)]];
    cbn [fst snd];
    unfold time.Hour, time.Minute, time.Second, time.Nanosecond in *;
    repeat split; intros; try reflexivity; try lia.
  all: try (match goal with
            | |- context [?a ÷ ?b] =>
                let Hq := fresh in
                assert (Hq : 0 ≤ a) by lia;
                pose proof (quot_bounds a b Hq ltac:(lia))
            end; lia).
  all: match goal with
       | |- context [?a ÷ ?b] =>
           rewrite <- (Z.opp_involutive a), Z.quot_opp_l by lia;
           pose proof (quot_bounds (- a) b ltac:(lia) ltac:(lia))
       end; lia.
Qed.

End MoreHandlerProperties.

(** * Paths by their segments *)

Module Segments_facts.
Import Bytes stdpath Canon stdpath_facts urlpath_facts Segments.

Lemma segsPath_bytes (segs : list string) :
  list_ascii_of_string (segsPath segs)
  = concat (map (λ seg, list_ascii_of_string seg ++ ["/"%char]) segs).
Proof.
  induction segs as [|seg rest IH]; [reflexivity|].
  cbn [segsPath map concat]. rewrite !list_ascii_of_string_app, IH.
  by rewrite <- app_assoc.
Qed.

(** The canonical buffer of a stack is the path of its elements, the
    deepest directory first. *)
Lemma canon_segs (stack : list (list ascii)) :
  canon stack
  = "/"%char ::
    concat (map (λ e, e ++ ["/"%char]) (rev stack)).
Proof.
  induction stack as [|e st IH] using rev_ind; [reflexivity|].
  rewrite canon_snoc, IH, rev_app_distr. cbn [rev app map concat].
  by rewrite <- app_assoc.
Qed.

Lemma pathOf_canon (stack : list (list ascii)) :
  string_of_list_ascii (canon stack)
  = pathOf (map string_of_list_ascii (rev stack)).
Proof.
  rewrite <- (string_of_list_ascii_of_string (pathOf _)). f_equal.
  unfold pathOf. rewrite list_ascii_of_string_app, segsPath_bytes, canon_segs.
  cbn [list_ascii_of_string app]. f_equal.
  rewrite map_map. f_equal. apply map_ext. intros e.
  by rewrite list_ascii_of_string_of_list_ascii.
Qed.

Lemma canon_pathOf (segs : list string) :
  pathOf segs
  = string_of_list_ascii (canon (rev (map list_ascii_of_string segs))).
Proof.
  rewrite pathOf_canon, rev_involutive, map_map. f_equal.
  induction segs as [|seg rest IH]; [reflexivity|].
  cbn [map]. by rewrite string_of_list_ascii_of_string, <- IH.
Qed.

Lemma proper_stack (segs : list string) :
  Forall properSeg segs →
  Forall properElem (rev (map list_ascii_of_string segs)).
Proof.
  intros Hs. apply List.Forall_rev. by apply Forall_map.
Qed.

Lemma proper_segs (stack : list (list ascii)) :
  Forall properElem stack →
  Forall properSeg (map string_of_list_ascii (rev stack)).
Proof.
  intros Hs. apply Forall_map. apply List.Forall_rev in Hs.
  eapply Forall_impl; [exact Hs|]. intros e He. unfold properSeg.
  by rewrite list_ascii_of_string_of_list_ascii.
Qed.

(** [Clean] returns the path of a list of proper segments. *)
Lemma Clean_pathOf (p : string) :
  ∃ segs, Forall properSeg segs ∧ urlpath.Clean p = Some (pathOf segs).
Proof.
  destruct (Clean_canonical p) as (stack & Hs & Hp).
  exists (map string_of_list_ascii (rev stack)).
  split; [by apply proper_segs|]. by rewrite <- pathOf_canon.
Qed.

(** The path of proper segments is clean. *)
Lemma Clean_of_pathOf (segs : list string) :
  Forall properSeg segs → urlpath.Clean (pathOf segs) = Some (pathOf segs).
Proof.
  intros Hs. rewrite canon_pathOf. apply Clean_canon. by apply proper_stack.
Qed.

(** Proper segments are determined by their path. *)
Lemma segsPath_inj (a b : list string) :
  Forall properSeg a → Forall properSeg b →
  segsPath a = segsPath b → a = b.
Proof.
  intros Ha. revert b. induction Ha as [|x a Hx Ha IH]; intros b Hb Heq.
  - destruct b as [|y b]; [done|]. inversion Hb as [|?? (Hy & _) _]; subst.
    cbn [segsPath] in Heq. destruct y; [by destruct Hy|discriminate].
  - destruct b as [|y b].
    { destruct Hx as (Hne & _). cbn [segsPath] in Heq.
      destruct x; [by destruct Hne|discriminate]. }
    inversion Hb as [|?? Hy Hb']; subst.
    apply (f_equal list_ascii_of_string) in Heq.
    cbn [segsPath] in Heq. rewrite !list_ascii_of_string_app in Heq.
    cbn [list_ascii_of_string app] in Heq.
    assert (Hx' := proj1 (proj2 Hx)). assert (Hy' := proj1 (proj2 Hy)).
    assert (Hxy : list_ascii_of_string x = list_ascii_of_string y
                  ∧ list_ascii_of_string (segsPath a)
                    = list_ascii_of_string (segsPath b)).
    { pose proof (takeElem_app _ ("/"%char :: list_ascii_of_string (segsPath a))
                    Hx' eq_refl) as T1.
      pose proof (takeElem_app _ ("/"%char :: list_ascii_of_string (segsPath b))
                    Hy' eq_refl) as T2.
      pose proof (dropElem_app _ ("/"%char :: list_ascii_of_string (segsPath a))
                    Hx' eq_refl) as D1.
      pose proof (dropElem_app _ ("/"%char :: list_ascii_of_string (segsPath b))
                    Hy' eq_refl) as D2.
      rewrite Heq in T1, D1. split; [congruence|]. congruence. }
    destruct Hxy as [E1 E2].
    apply (f_equal string_of_list_ascii) in E1, E2.
    rewrite !string_of_list_ascii_of_string in E1, E2. subst y.
    f_equal. by apply IH.
Qed.

Lemma pathOf_bytes (segs : list string) :
  list_ascii_of_string (pathOf segs)
  = canon (rev (map list_ascii_of_string segs)).
Proof.
  rewrite canon_pathOf. apply list_ascii_of_string_of_list_ascii.
Qed.

Lemma pathOf_cons_bytes (seg : string) (rest : list string) :
  list_ascii_of_string (pathOf (seg :: rest))
  = "/"%char :: list_ascii_of_string seg
    ++ list_ascii_of_string (pathOf rest).
Proof.
  unfold pathOf. cbn [segsPath]. by rewrite !list_ascii_of_string_app.
Qed.

(** The main loop on a canonical path followed by more input. *)
Lemma cleanLoop_canon_app stack : ∀ x st0,
  Forall properElem stack → Forall properElem st0 →
  cleanLoop true (canon stack ++ x) (outOf st0) 1
  = cleanLoop true x (outOf (stack ++ st0)) 1.
Proof.
  induction stack as [|e st IH] using rev_ind; intros x st0 Hs H0.
  - cbn [canon joinR rev app]. by rewrite cleanLoop_cons.
  - apply Forall_app in Hs as [Hst He]. inversion He as [|?? Hp _]; subst.
    rewrite canon_snoc. cbn [app]. rewrite cleanLoop_cons.
    change (isSlash "/") with true. cbv iota.
    rewrite <- app_assoc. rewrite cleanLoop_elem; [|done| |done].
    + rewrite IH by (done || by constructor). by rewrite <- app_assoc.
    + destruct (canon_starts st) as [t ->]. reflexivity.
Qed.

(** A slash at the end of the input changes nothing. *)
Lemma cleanLoop_trailing_slash rooted n : ∀ rest out dotdot,
  (length rest ≤ n)%nat →
  cleanLoop rooted (rest ++ ["/"%char]) out dotdot
  = cleanLoop rooted rest out dotdot.
Proof.
  induction n as [|n IH]; intros rest out dotdot Hn.
  { destruct rest; [|simpl in Hn; lia]. reflexivity. }
  destruct rest as [|c t]; [reflexivity|].
  simpl in Hn. cbn [app]. rewrite !cleanLoop_cons.
  assert (Hends : endsElem (t ++ ["/"%char]) = endsElem t) by by destruct t.
  assert (Htake : takeElem (t ++ ["/"%char]) = takeElem t).
  { clear. induction t as [|d t IHt]; [reflexivity|].
    cbn [app takeElem]. by rewrite IHt. }
  assert (Hdrop : dropElem (t ++ ["/"%char]) = dropElem t ++ ["/"%char]).
  { clear. induction t as [|d t IHt]; [reflexivity|].
    cbn [app dropElem]. rewrite IHt. by destruct (isSlash d). }
  destruct (isSlash c); [apply IH; lia|].
  rewrite Hends.
  destruct (isDot c && endsElem t); [apply IH; lia|].
  destruct t as [|d t2].
  - cbn [app]. rewrite andb_false_r. cbv zeta. cbn [takeElem dropElem].
    change (isSlash "/") with true. cbv iota.
    rewrite (andb_false_r (isDot c)). reflexivity.
  - cbn [app].
    assert (Hends2 : endsElem (t2 ++ ["/"%char]) = endsElem t2)
      by by destruct t2.
    rewrite Hends2. simpl in Hn.
    destruct (isDot c && (isDot d && endsElem t2)).
    + destruct (dotdot <? length out)%nat; [apply IH; lia|].
      destruct (negb rooted); cbv zeta; apply IH; lia.
    + cbv zeta. change (d :: t2 ++ ["/"%char]) with ((d :: t2) ++ ["/"%char]).
      rewrite Htake, Hdrop. apply IH.
      pose proof (dropElem_length (d :: t2)). simpl in *. lia.
Qed.

Lemma Clean_segsPath (segs : list string) :
  Forall properSeg segs → urlpath.Clean (segsPath segs) = Some (pathOf segs).
Proof.
  intros Hs. rewrite canon_pathOf.
  rewrite <- (string_of_list_ascii_of_string (segsPath segs)) at 1.
  apply Clean_of_loop; [by apply proper_stack|].
  pose proof (cleanLoop_canon (rev (map list_ascii_of_string segs)) []
                (proper_stack segs Hs) (Forall_nil_2 _)) as Hc.
  rewrite app_nil_r in Hc. rewrite <- Hc.
  rewrite <- pathOf_bytes. unfold pathOf.
  rewrite list_ascii_of_string_app. cbn [list_ascii_of_string app].
  by rewrite cleanLoop_cons.
Qed.

Lemma cut_slash (e x : list ascii) :
  noSlash e → cut (e ++ "/"%char :: x) ["/"%char] = Some (e, x).
Proof.
  induction 1 as [|c e Hc He IH]; [reflexivity|].
  cbn [app cut hasPrefix]. unfold isSlash in Hc.
  rewrite Ascii.eqb_sym, Hc. cbn [andb]. by rewrite IH.
Qed.

Lemma Split_pathOf_cons (seg : string) (rest : list string) :
  Forall properSeg (seg :: rest) →
  urlpath.Split (pathOf (seg :: rest)) = Some (seg, pathOf rest).
Proof.
  intros Hs. inversion Hs as [|?? Hseg Hrest]; subst.
  unfold urlpath.Split. rewrite Clean_of_pathOf by done.
  cbn [mbind option_bind]. unfold pathOf at 1.
  change ("/" +:+ ?x) with (String "/" x). cbn [urlpath.sliceFrom1].
  cbn [mbind option_bind]. unfold SplitN2. cbn [segsPath].
  rewrite 2!list_ascii_of_string_app. cbn [list_ascii_of_string app].
  rewrite cut_slash by apply Hseg.
  cbn [length Nat.ltb Nat.leb lookup list_lookup mbind option_bind].
  rewrite !string_of_list_ascii_of_string.
  by rewrite Clean_segsPath.
Qed.

Lemma Split_of_Clean (p q : string) :
  urlpath.Clean p = Some q → urlpath.Clean q = Some q →
  urlpath.Split p = urlpath.Split q.
Proof. intros Hp Hq. unfold urlpath.Split. by rewrite Hp, Hq. Qed.

(** [Split] in terms of the segments of the cleaned path. *)
Lemma Split_segments (p : string) (segs : list string) :
  Forall properSeg segs → urlpath.Clean p = Some (pathOf segs) →
  urlpath.Split p
  = Some match segs with
         | [] => ("", "/")
         | seg :: rest => (seg, pathOf rest)
         end.
Proof.
  intros Hs Hp.
  rewrite (Split_of_Clean p (pathOf segs) Hp (Clean_of_pathOf segs Hs)).
  destruct segs as [|seg rest]; [reflexivity|]. by apply Split_pathOf_cons.
Qed.

End Segments_facts.

(** For every path, [Clean] returns a slash followed by the segments that
    remain, each closed by a slash: no segment is empty, holds a slash, or
    is [.] or [..]; the segments are determined by the result. *)
Theorem Clean_segments (p : string) :
  ∃ segs,
    Forall Segments.properSeg segs
    ∧ urlpath.Clean p = Some (Segments.pathOf segs)
    ∧ ∀ segs', Forall Segments.properSeg segs' →
               urlpath.Clean p = Some (Segments.pathOf segs') → segs' = segs.
Proof.
  destruct (Segments_facts.Clean_pathOf p) as (segs & Hs & Hp).
  exists segs. split; [done|]. split; [done|].
  intros segs' Hs' Hp'. rewrite Hp in Hp'. injection Hp' as Heq.
  unfold Segments.pathOf in Heq. apply (inj _) in Heq.
  symmetry. by apply Segments_facts.segsPath_inj.
Qed.

(** A slash added in front of a path or after it does not change what
    [Clean] and [Split] return. *)
Theorem Clean_ignores_outer_slashes (p : string) :
  urlpath.Clean ("/" +:+ p) = urlpath.Clean p
  ∧ urlpath.Clean (p +:+ "/") = urlpath.Clean p
  ∧ urlpath.Split ("/" +:+ p) = urlpath.Split p
  ∧ urlpath.Split (p +:+ "/") = urlpath.Split p.
Proof.
  assert (H1 : stdpath.Clean ("/" +:+ "/" +:+ p) = stdpath.Clean ("/" +:+ p)).
  { unfold stdpath.Clean. rewrite !list_ascii_of_string_app.
    cbn [list_ascii_of_string app stdpath.cleanBytes].
    change (Bytes.isSlash "/") with true. cbv iota zeta.
    by rewrite stdpath_facts.cleanLoop_cons. }
  assert (H2 : stdpath.Clean ("/" +:+ p +:+ "/") = stdpath.Clean ("/" +:+ p)).
  { unfold stdpath.Clean. rewrite !list_ascii_of_string_app.
    cbn [list_ascii_of_string app stdpath.cleanBytes].
    change (Bytes.isSlash "/") with true. cbv iota zeta.
    by rewrite (Segments_facts.cleanLoop_trailing_slash true _ _ _ _ (le_n _)). }
  assert (C1 : urlpath.Clean ("/" +:+ p) = urlpath.Clean p).
  { unfold urlpath.Clean. cbv zeta. by rewrite H1. }
  assert (C2 : urlpath.Clean (p +:+ "/") = urlpath.Clean p).
  { unfold urlpath.Clean. cbv zeta. by rewrite H2. }
  repeat split; try done; unfold urlpath.Split; by rewrite ?C1, ?C2.
Qed.

(** [Split] loses nothing but the normalisation: the head holds no slash,
    and the cleaned path is a slash, the head and the tail, except when
    nothing is left to split: then the head is empty and the tail and the
    cleaned path are both the root. Splitting the cleaned path gives the
    same pair. *)
Theorem Split_reassembles (p : string) :
  ∃ head tail q,
    urlpath.Split p = Some (head, tail)
    ∧ urlpath.Clean p = Some q
    ∧ urlpath.Split q = Some (head, tail)
    ∧ Bytes.cut (list_ascii_of_string head) ["/"%char] = None
    ∧ (head = "" → q = "/" ∧ tail = "/")
    ∧ (head ≠ "" → q = "/" +:+ head +:+ tail).
Proof.
  destruct (Segments_facts.Clean_pathOf p) as (segs & Hs & Hp).
  pose proof (Segments_facts.Split_segments p segs Hs Hp) as Hsplit.
  pose proof (Segments_facts.Clean_of_pathOf segs Hs) as Hq.
  pose proof (Segments_facts.Split_segments _ segs Hs Hq) as Hsplitq.
  destruct segs as [|seg rest].
  - exists "", "/", "/". by repeat split.
  - exists seg, (Segments.pathOf rest), (Segments.pathOf (seg :: rest)).
    inversion Hs as [|?? (Hne & Hns & _) _]; subst.
    split; [done|]. split; [done|]. split; [done|]. split; [|split].
    + clear -Hns. induction Hns as [|c e Hc He IH]; [reflexivity|].
      cbn [Bytes.cut Bytes.hasPrefix]. unfold Bytes.isSlash in Hc.
      rewrite Ascii.eqb_sym, Hc. cbn [andb]. by rewrite IH.
    + intros ->. by destruct Hne.
    + intros _. reflexivity.
Qed.

(** What [Clean] does with one more segment after a cleaned path. *)
Lemma Clean_after_pathOf (segs : list string) (x : string)
    (stack' : list (list ascii)) :
  Forall Segments.properSeg segs → Forall Canon.properElem stack' →
  stdpath.cleanLoop true (list_ascii_of_string x)
    (Canon.outOf (rev (map list_ascii_of_string segs))) 1
  = Canon.outOf stack' →
  urlpath.Clean (Segments.pathOf segs +:+ x)
  = Some (Segments.pathOf (map string_of_list_ascii (rev stack'))).
Proof.
  intros Hs Hs' Hloop.
  rewrite <- Segments_facts.pathOf_canon.
  rewrite <- (string_of_list_ascii_of_string (Segments.pathOf segs +:+ x)).
  apply urlpath_facts.Clean_of_loop; [done|].
  rewrite list_ascii_of_string_app, Segments_facts.pathOf_bytes.
  change ["/"%char] with (Canon.outOf []).
  rewrite Segments_facts.cleanLoop_canon_app
    by (by apply Segments_facts.proper_stack || done).
  by rewrite app_nil_r.
Qed.

Lemma map_bytes_roundtrip (segs : list string) :
  map string_of_list_ascii (map list_ascii_of_string segs) = segs.
Proof.
  induction segs as [|s segs IH]; [reflexivity|].
  cbn [map]. by rewrite string_of_list_ascii_of_string, IH.
Qed.

(** After a cleaned path, a segment [..] removes the last segment and does
    nothing at the root, so that no path climbs above the root; a segment
    [.] is dropped; any other segment without a slash is appended. *)
Theorem Clean_resolves_segment (segs : list string) (x : string) :
  Forall Segments.properSeg segs →
  urlpath.Clean (Segments.pathOf segs +:+ "..")
  = Some (Segments.pathOf (removelast segs))
  ∧ urlpath.Clean (Segments.pathOf segs +:+ ".")
    = Some (Segments.pathOf segs)
  ∧ (Segments.properSeg x →
     urlpath.Clean (Segments.pathOf segs +:+ x)
     = Some (Segments.pathOf (segs ++ [x]))).
Proof.
  intros Hs.
  pose proof (Segments_facts.proper_stack segs Hs) as Hst.
  split; [|split].
  - destruct segs as [|l init _] using rev_ind.
    + by rewrite (Clean_after_pathOf [] ".." []).
    + rewrite removelast_last.
      rewrite map_app, rev_app_distr in Hst. cbn [map rev app] in Hst.
      inversion Hst as [|?? Hl Hinit]; subst.
      rewrite (Clean_after_pathOf _ ".." (rev (map list_ascii_of_string init)));
        [by rewrite rev_involutive, map_bytes_roundtrip|done|done|].
      rewrite map_app, rev_app_distr. cbn [map rev app list_ascii_of_string].
      rewrite stdpath_facts.cleanLoop_cons.
      change (Bytes.isSlash ".") with false.
      change (Bytes.isDot ".") with true. cbn [andb stdpath.endsElem].
      change (Bytes.isSlash ".") with false. cbv iota.
      pose proof (stdpath_facts.joinR_length_cons (list_ascii_of_string l)
                    (rev (map list_ascii_of_string init)) (proj1 Hl)) as Hlen.
      replace (1 <? length (Canon.outOf (list_ascii_of_string l
                 :: rev (map list_ascii_of_string init))))%nat with true
        by (symmetry; apply Nat.ltb_lt; unfold Canon.outOf; lia).
      rewrite stdpath_facts.backtrack_pop by exact Hl. reflexivity.
  - rewrite (Clean_after_pathOf segs "." (rev (map list_ascii_of_string segs)));
      [by rewrite rev_involutive, map_bytes_roundtrip|done|done|].
    reflexivity.
  - intros Hx.
    rewrite (Clean_after_pathOf segs x
               (list_ascii_of_string x :: rev (map list_ascii_of_string segs)));
      [|done|by constructor|].
    + cbn [rev]. rewrite rev_involutive, map_app, map_bytes_roundtrip.
      cbn [map]. by rewrite string_of_list_ascii_of_string.
    + pose proof (stdpath_facts.cleanLoop_elem (list_ascii_of_string x) []
                    (rev (map list_ascii_of_string segs)) Hx eq_refl Hst)
        as Helem.
      rewrite app_nil_r in Helem. exact Helem.
Qed.

(** * The route composition *)

Module Route_facts.
Import Bytes swaghttp nethttp Segments.

Lemma string_length_bytes (s : string) :
  String.length s = length (list_ascii_of_string s).
Proof. induction s as [|c s IH]; [reflexivity|]. cbn. by rewrite IH. Qed.

Lemma hasPrefix_app (a b : list ascii) : hasPrefix (a ++ b) a = true.
Proof.
  induction a as [|c a IH]; [reflexivity|].
  cbn [app hasPrefix]. by rewrite Ascii.eqb_refl, IH.
Qed.

Lemma skipn_length_app (a b : list ascii) : List.skipn (length a) (a ++ b) = b.
Proof. induction a as [|c a IH]; [reflexivity|]. exact IH. Qed.

Lemma hasPrefix_refl (a : list ascii) : hasPrefix a a = true.
Proof. rewrite <- (app_nil_r a) at 1. apply hasPrefix_app. Qed.

Lemma hasPrefix_length (s p : list ascii) :
  hasPrefix s p = true → (length p ≤ length s)%nat.
Proof.
  revert s. induction p as [|a p IH]; intros s H; [simpl; lia|].
  destruct s as [|b s]; [discriminate|]. cbn [hasPrefix] in H.
  apply andb_true_iff in H as [_ H]. apply IH in H. simpl. lia.
Qed.

Lemma lastByte_pathOf (segs : list string) :
  lastByte (list_ascii_of_string (pathOf segs)) = Some "/"%char.
Proof.
  rewrite Segments_facts.pathOf_bytes, urlpath_facts.canon_unfold.
  apply lastByte_snoc.
Qed.

(** [path.Clean] on a cleaned path only takes the closing slash away. *)
Lemma stdClean_pathOf (segs : list string) :
  Forall properSeg segs →
  stdpath.Clean (pathOf segs)
  = string_of_list_ascii
      (rev (Canon.outOf (rev (map list_ascii_of_string segs)))).
Proof.
  intros Hs. pose proof (Segments_facts.proper_stack segs Hs) as Hst.
  unfold stdpath.Clean. rewrite Segments_facts.pathOf_bytes.
  destruct (urlpath_facts.canon_starts (rev (map list_ascii_of_string segs)))
    as [t Ht].
  pose proof (stdpath_facts.cleanLoop_canon _ [] Hst (Forall_nil_2 _)) as Hc.
  rewrite app_nil_r, Ht, stdpath_facts.cleanLoop_cons in Hc.
  change (isSlash "/") with true in Hc. cbv iota in Hc.
  rewrite Ht. cbn [stdpath.cleanBytes].
  change (isSlash "/") with true. cbv iota zeta.
  change (Canon.outOf []) with ["/"%char] in Hc. rewrite Hc.
  pose proof (urlpath_facts.outOf_nonempty
                (rev (map list_ascii_of_string segs))).
  by destruct (Canon.outOf _).
Qed.

Lemma cleanPath_pathOf (segs : list string) :
  Forall properSeg segs → cleanPath (pathOf segs) = pathOf segs.
Proof.
  intros Hs. destruct segs as [|seg rest]; [reflexivity|].
  unfold cleanPath.
  change (pathOf (seg :: rest))
    with (String "/" (segsPath (seg :: rest))) at 1.
  cbv iota. change (isSlash "/") with true. cbn [negb]. cbv zeta.
  change (String "/" (segsPath (seg :: rest))) with (pathOf (seg :: rest)).
  rewrite lastByte_pathOf, bool_decide_eq_true_2 by done. cbn [andb].
  rewrite stdClean_pathOf by done.
  set (stack := rev (map list_ascii_of_string (seg :: rest))).
  assert (Hstack : ∃ e st, stack = e :: st ∧ e ≠ []).
  { pose proof (Segments_facts.proper_stack _ Hs) as Hst. fold stack in Hst.
    destruct stack as [|e st] eqn:E.
    - apply (f_equal (@length _)) in E. subst stack.
      rewrite length_rev, length_map in E. discriminate.
    - inversion Hst as [|?? (Hne & _) _]. eauto. }
  destruct Hstack as (e & st & Hstack & Hne).
  assert (Hslash : string_of_list_ascii (rev (Canon.outOf stack)) +:+ "/"
                   = pathOf (seg :: rest)).
  { rewrite Segments_facts.canon_pathOf, urlpath_facts.canon_unfold.
    fold stack. rewrite string_of_list_ascii_app, Hstack. reflexivity. }
  assert (Hnp : string_of_list_ascii (rev (Canon.outOf stack)) ≠ "/").
  { intros Heq. apply (f_equal list_ascii_of_string) in Heq.
    rewrite list_ascii_of_string_of_list_ascii in Heq.
    apply (f_equal (@length _)) in Heq. rewrite length_rev, Hstack in Heq.
    pose proof (stdpath_facts.joinR_length_cons e st Hne) as Hlen.
    unfold Canon.outOf in Heq. simpl in Heq, Hlen. lia. }
  rewrite (bool_decide_eq_false_2 _ Hnp). cbn [negb].
  rewrite Hslash. by case_match.
Qed.

Lemma shouldRedirect_slash {World} (mux : ServeMux World) (path : string) :
  lastByte (list_ascii_of_string path) = Some "/"%char →
  shouldRedirect mux path = false.
Proof.
  intros Hl. unfold shouldRedirect. rewrite Hl.
  rewrite bool_decide_eq_true_2 by done. by repeat case_match.
Qed.

(** On a cleaned path the multiplexer redirects nothing: it dispatches. *)
Lemma ServeHTTP_pathOf {World} redirectURL (mux : ServeMux World)
    (r : Request) (segs : list string) :
  Forall properSeg segs → URLPath r = pathOf segs →
  ServeHTTP redirectURL mux r = handler mux (pathOf segs) r.
Proof.
  intros Hs Hp. unfold ServeHTTP, Handler. rewrite Hp.
  rewrite cleanPath_pathOf by done.
  rewrite shouldRedirect_slash by apply lastByte_pathOf.
  rewrite (bool_decide_eq_true_2 (pathOf segs = pathOf segs)) by done.
  by destruct (bool_decide (Method r = "CONNECT")).
Qed.

Lemma hasPrefix_elem (e x rest : list ascii) :
  Canon.noSlash e → Canon.noSlash x →
  hasPrefix (e ++ "/"%char :: rest) (x ++ ["/"%char]) = bool_decide (e = x).
Proof.
  intros He. revert x. induction He as [|c e Hc He IH]; intros x Hx.
  - destruct Hx as [|d x Hd Hx]; [reflexivity|].
    cbn [app hasPrefix]. unfold isSlash in Hd.
    by rewrite Hd, bool_decide_eq_false_2.
  - destruct Hx as [|d x Hd Hx].
    + cbn [app hasPrefix]. unfold isSlash in Hc.
      by rewrite Ascii.eqb_sym, Hc, bool_decide_eq_false_2.
    + cbn [app hasPrefix]. rewrite IH by done.
      destruct (Ascii.eqb_spec d c) as [->|Hne].
      * cbn [andb]. apply bool_decide_ext. split; [by intros ->|].
        by intros [= ->].
      * cbn [andb]. symmetry. apply bool_decide_eq_false_2.
        intros [= -> _]. done.
Qed.

(** A cleaned path starts with the pattern of a segment exactly when that
    segment is its first. *)
Lemma hasPrefix_pathOf (segs : list string) (x : string) :
  Forall properSeg segs → Canon.noSlash (list_ascii_of_string x) →
  hasPrefix (list_ascii_of_string (pathOf segs))
    (list_ascii_of_string ("/" +:+ x +:+ "/"))
  = bool_decide (head segs = Some x).
Proof.
  intros Hs Hx. rewrite !list_ascii_of_string_app.
  cbn [list_ascii_of_string app].
  destruct segs as [|seg rest].
  - change (list_ascii_of_string (pathOf [])) with ["/"%char].
    rewrite bool_decide_eq_false_2 by done.
    by destruct (list_ascii_of_string x).
  - inversion Hs as [|?? (_ & Hns & _) _]; subst.
    rewrite Segments_facts.pathOf_cons_bytes. cbn [hasPrefix head].
    rewrite Ascii.eqb_refl. cbn [andb].
    destruct (urlpath_facts.canon_starts
                (rev (map list_ascii_of_string rest))) as [t Ht].
    rewrite Segments_facts.pathOf_bytes, Ht.
    rewrite hasPrefix_elem by done.
    apply bool_decide_ext. split.
    + intros Heq. f_equal.
      rewrite <- (string_of_list_ascii_of_string seg), Heq.
      apply string_of_list_ascii_of_string.
    + by intros [= ->].
Qed.

Lemma hasPrefix_pathOf_root (segs : list string) :
  hasPrefix (list_ascii_of_string (pathOf segs)) (list_ascii_of_string "/")
  = true.
Proof. reflexivity. Qed.

(** Taking the first segment off a cleaned path. *)
Lemma TrimPrefix_pathOf (seg : string) (rest : list string) :
  TrimPrefix (pathOf (seg :: rest)) ("/" +:+ seg) = pathOf rest
  ∧ (String.length (pathOf rest) <? String.length (pathOf (seg :: rest)))%nat
    = true.
Proof.
  unfold TrimPrefix. rewrite Segments_facts.pathOf_cons_bytes.
  rewrite list_ascii_of_string_app. cbn [list_ascii_of_string].
  change ("/"%char :: list_ascii_of_string seg
          ++ list_ascii_of_string (pathOf rest))
    with (("/"%char :: list_ascii_of_string seg)
          ++ list_ascii_of_string (pathOf rest)).
  change ([ "/"%char ] ++ list_ascii_of_string seg)
    with ("/"%char :: list_ascii_of_string seg).
  rewrite hasPrefix_app. split.
  - rewrite string_length_bytes, list_ascii_of_string_app.
    cbn [list_ascii_of_string app].
    change (List.skipn ?n ("/"%char :: ?a ++ ?b))
      with (List.skipn n (("/"%char :: a) ++ b)).
    change (S (length (list_ascii_of_string seg)))
      with (length ("/"%char :: list_ascii_of_string seg)).
    rewrite skipn_length_app.
    apply string_of_list_ascii_of_string.
  - apply Nat.ltb_lt. rewrite !string_length_bytes.
    rewrite (Segments_facts.pathOf_cons_bytes seg rest). cbn [length].
    rewrite length_app. lia.
Qed.

End Route_facts.

Section RouteProperties.
Import Bytes swaghttp nethttp server Segments Route_facts.

Context {World : Type}.
Variable unicodeUpper : string → string.
Variable schemaDecode : Values → createForm.
Variable redirectURL : Request → string → string.

Implicit Types (oh : OrderHandler World) (ch : CampaignHandler World).
Implicit Types (r : Request) (w : World) (segs rest : list string).

(** An exact match of a pattern is also a prefix match. *)
Ltac exact_is_prefix H :=
  match type of H with
  | ?pat = pathOf ?segs =>
      let Hp := fresh "Hp" in
      pose proof (hasPrefix_refl (list_ascii_of_string pat)) as Hp;
      rewrite H in Hp at 1
  end.

Lemma noSlash_literal (x : string) :
  forallb (λ c, negb (isSlash c)) (list_ascii_of_string x) = true →
  Canon.noSlash (list_ascii_of_string x).
Proof.
  intros H. apply Forall_forall. intros c Hc.
  rewrite forallb_forall in H. apply list_elem_of_In in Hc.
  specialize (H c Hc). by destruct (isSlash c).
Qed.

Lemma properSegb_spec (x : string) : properSegb x = true → properSeg x.
Proof.
  unfold properSegb, properSeg, Canon.properElem. cbv zeta.
  rewrite !andb_true_iff, !negb_true_iff, !bool_decide_eq_false.
  intros [[[H1 H2] H3] H4]. repeat split; try done.
  by apply noSlash_literal.
Qed.

(** The multiplexer with one pattern for a first segment and the root
    pattern for everything else. *)
Lemma handler_segment_or_root (x : string) (h1 h2 : HandlerFunc World) segs :
  forallb (λ c, negb (isSlash c)) (list_ascii_of_string x) = true →
  x ≠ "" →
  Forall properSeg segs →
  handler (Handle (Handle NewServeMux ("/" +:+ x +:+ "/") h1) "/" h2)
    (pathOf segs)
  = if bool_decide (head segs = Some x) then h1 else h2.
Proof.
  intros Hx Hne Hs.
  pose proof (hasPrefix_pathOf segs x Hs (noSlash_literal x Hx)) as Hpre.
  assert (Hlast : lastByte (list_ascii_of_string ("/" +:+ x +:+ "/"))
                  = Some "/"%char).
  { rewrite !list_ascii_of_string_app, app_assoc. apply lastByte_snoc. }
  assert (Hlen : (String.length "/" <? String.length ("/" +:+ x +:+ "/"))%nat
                 = true).
  { apply Nat.ltb_lt. rewrite !string_length_bytes.
    rewrite !list_ascii_of_string_app, !length_app. simpl. lia. }
  unfold handler, muxMatch, Handle, NewServeMux.
  cbn [m es app find pattern h appendSorted]. rewrite Hlast.
  rewrite (bool_decide_eq_true_2 (Some "/"%char = Some "/"%char)) by done.
  change (lastByte (list_ascii_of_string "/")) with (Some "/"%char).
  rewrite (bool_decide_eq_true_2 (Some "/"%char = Some "/"%char)) by done.
  cbn [appendSorted pattern].
  replace (String.length ("/" +:+ x +:+ "/") <? String.length "/")%nat
    with false
    by (symmetry; apply Nat.ltb_ge; apply Nat.ltb_lt in Hlen; lia).
  cbn [find pattern h]. rewrite Hpre, hasPrefix_pathOf_root.
  destruct (decide ("/" +:+ x +:+ "/" = pathOf segs)) as [E1|N1].
  - rewrite (bool_decide_eq_true_2 _ E1). cbn [h].
    pose proof (hasPrefix_refl (list_ascii_of_string ("/" +:+ x +:+ "/")))
      as Hp.
    rewrite E1 in Hp at 1. rewrite Hpre in Hp. by rewrite Hp.
  - rewrite (bool_decide_eq_false_2 _ N1).
    destruct (decide ("/" = pathOf segs)) as [E2|N2].
    + rewrite (bool_decide_eq_true_2 _ E2). cbn [h].
      destruct segs as [|seg rest]; [done|].
      exfalso. apply (f_equal list_ascii_of_string) in E2.
      rewrite Segments_facts.pathOf_cons_bytes in E2.
      change (list_ascii_of_string "/") with ["/"%char] in E2.
      injection E2 as E2. symmetry in E2. apply app_eq_nil in E2 as [_ E2].
      change (pathOf rest) with (String "/" (segsPath rest)) in E2.
      discriminate.
    + rewrite (bool_decide_eq_false_2 _ N2).
      by destruct (bool_decide (head segs = Some x)).
Qed.

(** [http.StripPrefix] of a first segment on a cleaned path. *)
Lemma StripPrefix_segment (seg : string) (next : HandlerFunc World) r rest :
  URLPath r = pathOf (seg :: rest) →
  StripPrefix ("/" +:+ seg) next r = next (setURLPath r (pathOf rest)).
Proof.
  intros Hp. unfold StripPrefix.
  rewrite bool_decide_eq_false_2 by done. rewrite Hp.
  destruct (TrimPrefix_pathOf seg rest) as [-> ->]. reflexivity.
Qed.

(** The multiplexer with a single pattern for a first segment. *)
Lemma handler_segment_only (x : string) (h1 : HandlerFunc World) segs :
  forallb (λ c, negb (isSlash c)) (list_ascii_of_string x) = true →
  Forall properSeg segs →
  handler (Handle NewServeMux ("/" +:+ x +:+ "/") h1) (pathOf segs)
  = if bool_decide (head segs = Some x) then h1 else NotFoundHandler.
Proof.
  intros Hx Hs.
  pose proof (hasPrefix_pathOf segs x Hs (noSlash_literal x Hx)) as Hpre.
  assert (Hlast : lastByte (list_ascii_of_string ("/" +:+ x +:+ "/"))
                  = Some "/"%char).
  { rewrite !list_ascii_of_string_app, app_assoc. apply lastByte_snoc. }
  unfold handler, muxMatch, Handle, NewServeMux.
  cbn [m es app find pattern h appendSorted]. rewrite Hlast.
  rewrite (bool_decide_eq_true_2 (Some "/"%char = Some "/"%char)) by done.
  cbn [find pattern h appendSorted]. rewrite Hpre.
  destruct (decide ("/" +:+ x +:+ "/" = pathOf segs)) as [E1|N1].
  - rewrite (bool_decide_eq_true_2 _ E1). cbn [h].
    pose proof (hasPrefix_refl (list_ascii_of_string ("/" +:+ x +:+ "/")))
      as Hp.
    rewrite E1 in Hp at 1. rewrite Hpre in Hp. by rewrite Hp.
  - rewrite (bool_decide_eq_false_2 _ N1).
    by destruct (bool_decide (head segs = Some x)).
Qed.

(** The dispatch of [resourceMux]. *)
Lemma handler_resourceMux ch oh segs :
  Forall properSeg segs →
  handler (resourceMux unicodeUpper schemaDecode redirectURL ch oh)
    (pathOf segs)
  = if bool_decide (head segs = Some "campaigns")
    then StripPrefix "/campaigns"
           (campaignsMux redirectURL (CampaignMw ch) (New oh)
              (Create unicodeUpper schemaDecode oh))
    else if bool_decide (head segs = Some "orders")
    then StripPrefix "/orders"
           (ordersMux redirectURL (OrderMw oh) (Show oh) (Confirm oh))
    else ShowActive ch.
Proof.
  intros Hs.
  pose proof (hasPrefix_pathOf segs "campaigns" Hs
                (noSlash_literal "campaigns" eq_refl)) as Hc.
  pose proof (hasPrefix_pathOf segs "orders" Hs
                (noSlash_literal "orders" eq_refl)) as Ho.
  change (list_ascii_of_string ("/" +:+ "campaigns" +:+ "/"))
    with (list_ascii_of_string "/campaigns/") in Hc.
  change (list_ascii_of_string ("/" +:+ "orders" +:+ "/"))
    with (list_ascii_of_string "/orders/") in Ho.
  unfold handler, muxMatch, resourceMux, Handle, NewServeMux.
  cbn [m es app find pattern h appendSorted].
  change (lastByte (list_ascii_of_string "/")) with (Some "/"%char).
  change (lastByte (list_ascii_of_string "/campaigns/")) with (Some "/"%char).
  change (lastByte (list_ascii_of_string "/orders/")) with (Some "/"%char).
  rewrite !(bool_decide_eq_true_2 (Some "/"%char = Some "/"%char)) by done.
  cbn [appendSorted pattern String.length Nat.ltb Nat.leb find h].
  rewrite Hc, Ho, hasPrefix_pathOf_root.
  destruct (decide ("/" = pathOf segs)) as [E0|N0].
  { rewrite (bool_decide_eq_true_2 _ E0). cbn [h].
    rewrite <- E0 in Hc, Ho.
    change (hasPrefix _ _) with false in Hc.
    change (hasPrefix _ _) with false in Ho. by rewrite <- Hc, <- Ho. }
  rewrite (bool_decide_eq_false_2 _ N0).
  destruct (decide ("/campaigns/" = pathOf segs)) as [E1|N1].
  { rewrite (bool_decide_eq_true_2 _ E1). cbn [h].
    rewrite <- E1 in Hc. change (hasPrefix _ _) with true in Hc.
    by rewrite <- Hc. }
  rewrite (bool_decide_eq_false_2 _ N1).
  destruct (decide ("/orders/" = pathOf segs)) as [E2|N2].
  { rewrite (bool_decide_eq_true_2 _ E2). cbn [h].
    rewrite <- E2 in Hc, Ho.
    change (hasPrefix _ _) with false in Hc.
    change (hasPrefix _ _) with true in Ho. by rewrite <- Hc, <- Ho. }
  rewrite (bool_decide_eq_false_2 _ N2).
  destruct (bool_decide (head segs = Some "campaigns")); [reflexivity|].
  by destruct (bool_decide (head segs = Some "orders")).
Qed.

(** Under a known order, [ordersMux] runs the confirm handler when the
    segment after the customer ID is [confirm], and the show handler for
    every other path, whatever the method of the request; the handler gets
    the order in context and the path that follows the customer ID. *)
Theorem ordersMux_dispatch oh (showOrder confirmOrder : HandlerFunc World)
    r w c rest order w1 :
  Forall properSeg (c :: rest) →
  urlpath.Clean (URLPath r) = Some (pathOf (c :: rest)) →
  GetOrderViaPayCus (DB oh) c w = (w1, Ok order) →
  serve (ordersMux redirectURL (OrderMw oh) showOrder confirmOrder) r w
  = (if bool_decide (head rest = Some "confirm")
     then confirmOrder else showOrder)
      (mkRequest (Method r) (pathOf rest) (PostForm r)
         (("order", VOrder order) :: Ctx r))
      (mkHState w1 [DBGetOrderViaPayCus c (Ok order)]).
Proof.
  intros Hs Hp Hg. inversion Hs as [|?? Hc Hrest]; subst.
  unfold serve, ordersMux, OrderMw.
  rewrite (Segments_facts.Split_segments _ _ Hs Hp).
  cbv [mbind M_bind bind call]. cbn [world trace app]. rewrite Hg.
  cbn [world trace app].
  rewrite (ServeHTTP_pathOf _ _ _ rest) by done.
  change "/confirm/" with ("/" +:+ "confirm" +:+ "/").
  by rewrite handler_segment_or_root.
Qed.

(** Under a known campaign, [campaignsMux] serves only what follows the
    segment [orders]: the new-order handler when the next segment is [new],
    whatever the method; otherwise the create handler for a POST and [not
    found] for any other method. Every other path under the campaign is
    answered [not found]. *)
Theorem campaignsMux_dispatch ch (newOrder createOrder : HandlerFunc World)
    r w idStr rest id campaign w1 :
  Forall properSeg (idStr :: rest) →
  urlpath.Clean (URLPath r) = Some (pathOf (idStr :: rest)) →
  Atoi idStr = Some id →
  CampaignGetCampaign (CampaignHandlerDB ch) id w = (w1, Ok campaign) →
  serve (campaignsMux redirectURL (CampaignMw ch) newOrder createOrder) r w
  = if bool_decide (head rest = Some "orders") then
      if bool_decide (head (tail rest) = Some "new") then
        newOrder
          (mkRequest (Method r) (pathOf (tail rest)) (PostForm r)
             (("campaign", VCampaign campaign) :: Ctx r))
          (mkHState w1 [DBGetCampaign id (Ok campaign)])
      else if bool_decide (Method r = "POST") then
        createOrder
          (mkRequest (Method r) (pathOf (tail rest)) (PostForm r)
             (("campaign", VCampaign campaign) :: Ctx r))
          (mkHState w1 [DBGetCampaign id (Ok campaign)])
      else
        (Returned tt,
         mkHState w1 [DBGetCampaign id (Ok campaign); HTTPNotFound])
    else
      (Returned tt,
       mkHState w1 [DBGetCampaign id (Ok campaign); HTTPNotFound]).
Proof.
  intros Hs Hp Ha Hg. inversion Hs as [|?? Hc Hrest]; subst.
  unfold serve, campaignsMux, CampaignMw.
  rewrite (Segments_facts.Split_segments _ _ Hs Hp). rewrite Ha.
  cbv [mbind M_bind bind call]. cbn [world trace app]. rewrite Hg.
  cbn [world trace app].
  rewrite (ServeHTTP_pathOf _ _ _ rest) by done.
  change "/orders/" with ("/" +:+ "orders" +:+ "/").
  rewrite handler_segment_only by done.
  destruct rest as [|seg rest']; [reflexivity|].
  cbn [head tail]. case_bool_decide as Hseg; [|reflexivity].
  injection Hseg as ->. inversion Hrest as [|?? _ Hrest']; subst.
  change "/orders" with ("/" +:+ "orders").
  rewrite (StripPrefix_segment "orders" _ _ rest') by reflexivity.
  rewrite (ServeHTTP_pathOf _ _ _ rest') by done.
  change "/new/" with ("/" +:+ "new" +:+ "/").
  rewrite handler_segment_or_root by done.
  destruct (bool_decide (head rest' = Some "new")); [reflexivity|].
  cbn [Method setURLPath WithContext].
  by destruct (bool_decide (Method r = "POST")).
Qed.

(** The routes of [main] below its outer multiplexer: a path whose first
    segment is [campaigns] goes to [campaignsMux] and one whose first
    segment is [orders] to [ordersMux], each with the rest of the path;
    every other path, not only the root, shows the active campaign. *)
Theorem serveResources_routes ch oh r w segs :
  Forall properSeg segs →
  urlpath.Clean (URLPath r) = Some (pathOf segs) →
  serve (serveResources unicodeUpper schemaDecode redirectURL ch oh) r w
  = if bool_decide (head segs = Some "campaigns") then
      serve (campaignsMux redirectURL (CampaignMw ch) (New oh)
               (Create unicodeUpper schemaDecode oh))
        (setURLPath r (pathOf (tail segs))) w
    else if bool_decide (head segs = Some "orders") then
      serve (ordersMux redirectURL (OrderMw oh) (Show oh) (Confirm oh))
        (setURLPath r (pathOf (tail segs))) w
    else serve (ShowActive ch) (setURLPath r (pathOf segs)) w.
Proof.
  intros Hs Hp. unfold serve, serveResources. rewrite Hp.
  rewrite (ServeHTTP_pathOf _ _ _ segs) by done.
  rewrite handler_resourceMux by done.
  destruct segs as [|seg rest]; [reflexivity|]. cbn [head tail].
  case_bool_decide as Hc.
  { injection Hc as ->. change "/campaigns" with ("/" +:+ "campaigns").
    by rewrite (StripPrefix_segment "campaigns" _ _ rest). }
  case_bool_decide as Ho; [|reflexivity].
  injection Ho as ->. change "/orders" with ("/" +:+ "orders").
  by rewrite (StripPrefix_segment "orders" _ _ rest).
Qed.

(** The confirmation route does not look at the method: a request of any
    method, a GET as well, whose cleaned path is [/orders/], a known
    customer ID and [confirm] runs [Confirm] on that order, and once the
    campaign is found the customer is charged the campaign's price. *)
Theorem confirm_route_any_method ch oh r w c rest order campaign w1 w2 :
  Forall properSeg (c :: rest) →
  urlpath.Clean (URLPath r)
  = Some (pathOf ("orders" :: c :: "confirm" :: rest)) →
  GetOrderViaPayCus (DB oh) c w = (w1, Ok order) →
  GetCampaign (DB oh) (db.Order.CampaignID order) w1 = (w2, Ok campaign) →
  serve (serveResources unicodeUpper schemaDecode redirectURL ch oh) r w
  = Confirm oh
      (mkRequest (Method r) (pathOf ("confirm" :: rest)) (PostForm r)
         (("order", VOrder order) :: Ctx r))
      (mkHState w1 [DBGetOrderViaPayCus c (Ok order)])
  ∧ chargeCalls
      (trace
         (serve (serveResources unicodeUpper schemaDecode redirectURL ch oh)
            r w).2)
    = [(db.Payment.CustomerID (db.Order.Payment order),
        db.Campaign.Price campaign)].
Proof.
  intros Hs Hp Hg Hcamp.
  inversion Hs as [|?? Hc Hrest]; subst.
  assert (Hconfirm : Forall properSeg ("confirm" :: rest)).
  { constructor; [by apply properSegb_spec|done]. }
  assert (Horder : Forall properSeg (c :: "confirm" :: rest))
    by by constructor.
  assert (Hall : Forall properSeg ("orders" :: c :: "confirm" :: rest)).
  { constructor; [by apply properSegb_spec|done]. }
  assert (Hrun :
    serve (serveResources unicodeUpper schemaDecode redirectURL ch oh) r w
    = Confirm oh
        (mkRequest (Method r) (pathOf ("confirm" :: rest)) (PostForm r)
           (("order", VOrder order) :: Ctx r))
        (mkHState w1 [DBGetOrderViaPayCus c (Ok order)])).
  { unfold serve, serveResources. rewrite Hp.
    rewrite (ServeHTTP_pathOf redirectURL _
               (setURLPath r (pathOf ("orders" :: c :: "confirm" :: rest)))
               _ Hall eq_refl).
    rewrite handler_resourceMux by done. cbn [head].
    rewrite bool_decide_eq_false_2 by done.
    rewrite bool_decide_eq_true_2 by done.
    change "/orders" with ("/" +:+ "orders").
    rewrite (StripPrefix_segment "orders" _ _ (c :: "confirm" :: rest))
      by reflexivity.
    unfold ordersMux, OrderMw. cbn [URLPath setURLPath].
    rewrite (Segments_facts.Split_segments _ _ Horder
               (Segments_facts.Clean_of_pathOf _ Horder)).
    cbv [mbind M_bind bind call]. cbn [world trace app]. rewrite Hg.
    cbn [world trace app].
    rewrite (ServeHTTP_pathOf redirectURL _ _ _ Hconfirm)
      by reflexivity.
    change "/confirm/" with ("/" +:+ "confirm" +:+ "/").
    rewrite handler_segment_or_root by done. cbn [head].
    by rewrite bool_decide_eq_true_2. }
  split; [exact Hrun|]. rewrite Hrun.
  cbv [Confirm mbind M_bind bind call emit mret M_ret ret mustAssert panic
       logPrintf orderOf Value Ctx].
  rewrite decide_True by done. cbn [world trace app].
  rewrite Hcamp. cbn [world trace app].
  cbn [db.Order.setAddressRaw db.Order.setChargeID db.Order.Payment
       db.Order.Address db.Order.ID db.Address.Raw db.Payment.CustomerID
       db.Payment.ChargeID].
  destruct (Charge _ _ _ _) as [w3 [chg|e]]; cbn [world trace app].
  - by destruct (ConfirmOrder _ _ _ _ _) as [w4 [err|]].
  - by destruct e.
Qed.

(** On a path with no segment at all (the root, the empty path, slashes
    and dots only) the campaign middleware answers [not found] without
    asking storage, while the order middleware does ask storage, for the
    order whose payment customer ID is the empty string; either way the
    inner handler gets the root path if it runs. *)
Theorem middleware_on_root ch oh (next : HandlerFunc World) r w :
  urlpath.Clean (URLPath r) = Some "/" →
  serve (CampaignMw ch next) r w = (Returned tt, mkHState w [HTTPNotFound])
  ∧ ∀ w1 res,
      GetOrderViaPayCus (DB oh) "" w = (w1, res) →
      serve (OrderMw oh next) r w
      = match res with
        | Ok order =>
            next (mkRequest (Method r) "/" (PostForm r)
                    (("order", VOrder order) :: Ctx r))
                 (mkHState w1 [DBGetOrderViaPayCus "" res])
        | Err _ =>
            (Returned tt,
             mkHState w1 [DBGetOrderViaPayCus "" res; HTTPNotFound])
        end.
Proof.
  intros Hp.
  pose proof (Segments_facts.Split_segments (URLPath r) [] (Forall_nil_2 _) Hp)
    as Hsplit.
  split.
  - unfold serve, CampaignMw. by rewrite Hsplit.
  - intros w1 res Hg. unfold serve, OrderMw. rewrite Hsplit.
    cbv [mbind M_bind bind call emit]. cbn [world trace app]. rewrite Hg.
    by destruct res.
Qed.

End RouteProperties.

(** * The further properties on the stand-in collaborators *)

Module MoreWitnesses.
Import swaghttp Mock.

(** A creation request whose form has no email. *)
Lemma Create_empty_email_panics_witness :
  serve (Create id Mock.decode
           (Mock.orderHandler (Mock.order "") None (Ok charged) (Ok charged)))
        (Mock.request "POST" "/" [("Name", "Chris Greene")] campaignCtx) 0%nat
  = (Panicked (PanicString "email wasn't parsed!"), mkHState 0%nat []).
Proof.
  apply (Create_empty_email_panics id Mock.decode _ _ 0%nat Mock.campaign);
    reflexivity.
Defined.

(** The payment collaborator refuses to create the customer. *)
Lemma Create_customer_failure_witness :
  ∃ s,
    serve (Create id Mock.decode
             (Failing.orderHandler (Err (OtherError "connection refused"))
                (Ok 123) ("", None)))
          (Mock.createRequest "123 Sticker St" "" campaignCtx) 0%nat
    = (Returned tt, s)
    ∧ createOrderCalls (trace s) = []
    ∧ responseStatus (trace s) = 500.
Proof.
  destruct (Create_customer_failure id Mock.decode
              (Failing.orderHandler (Err (OtherError "connection refused"))
                 (Ok 123) ("", None))
              (Mock.createRequest "123 Sticker St" "" campaignCtx) 0%nat
              Mock.campaign (OtherError "connection refused") 1%nat)
    as (s & Hrun & Hcalls & Hstatus & _);
    [reflexivity | vm_compute; discriminate | reflexivity |].
  exists s. repeat split; assumption.
Defined.

(** Storage refuses the order after the customer was created. *)
Lemma Create_persistence_failure_witness :
  ∃ tr,
    serve (Create id Mock.decode
             (Failing.orderHandler (Ok (stripe.Customer.mk "cus_X"))
                (Err (OtherError "database is down")) ("", None)))
          (Mock.createRequest "123 Sticker St" "" campaignCtx) 0%nat
    = (Returned tt, mkHState 2%nat tr)
    ∧ responseStatus tr = 400
    ∧ redirectTarget tr = None.
Proof.
  destruct (Create_persistence_failure id Mock.decode
              (Failing.orderHandler (Ok (stripe.Customer.mk "cus_X"))
                 (Err (OtherError "database is down")) ("", None))
              (Mock.createRequest "123 Sticker St" "" campaignCtx) 0%nat
              Mock.campaign (stripe.Customer.mk "cus_X")
              (OtherError "database is down") 1%nat 2%nat)
    as (tr & Hrun & Hstatus & _ & Hredir & _);
    [reflexivity | vm_compute; discriminate | reflexivity | reflexivity |].
  exists tr. repeat split; assumption.
Defined.

(** An order whose campaign storage does not know. *)
Lemma campaign_lookup_failure_witness :
  ∃ tr,
    serve (Confirm (Mock.orderHandler (Mock.order "") None (Ok charged)
                      (Ok charged)))
          (Mock.request "POST" "/confirm/" []
             [("order", VOrder Failing.orphanOrder)]) 0%nat
    = (Returned tt, mkHState 2%nat tr)
    ∧ responseStatus tr = 500
    ∧ chargeCalls tr = [].
Proof.
  destruct (campaign_lookup_failure
              (Mock.orderHandler (Mock.order "") None (Ok charged) (Ok charged))
              (Mock.request "POST" "/confirm/" []
                 [("order", VOrder Failing.orphanOrder)]) 0%nat
              Failing.orphanOrder ErrNoRows 1%nat)
    as (tr & _ & Hrun & Hstatus & _ & Hcharge & _);
    [reflexivity | reflexivity |].
  exists tr. repeat split; assumption.
Defined.

(** [Show] on a request that carries no order. *)
Lemma order_handlers_panic_without_order_witness :
  serve (Show (Mock.orderHandler (Mock.order "") None (Ok charged)
                 (Ok charged)))
        (Mock.request "GET" "/" [] []) 0%nat
  = (Panicked (PanicTypeAssertion "order"), mkHState 0%nat []).
Proof.
  destruct (order_handlers_panic_without_order
              (Mock.orderHandler (Mock.order "") None (Ok charged) (Ok charged))
              (Mock.request "GET" "/" [] []) 0%nat eq_refl)
    as [Hshow _].
  exact Hshow.
Defined.

(** Confirming an order that already has the charge [chg_old]. *)
Lemma Confirm_ignores_prior_charge_witness :
  serve (Confirm (Mock.orderHandler (Mock.order "") None (Ok charged)
                    (Ok charged)))
        (Mock.confirmRequest "") 0%nat
  = serve (Confirm (Mock.orderHandler (Mock.order "") None (Ok charged)
                      (Ok charged)))
          (Mock.confirmRequest "chg_old") 0%nat.
Proof.
  apply (Confirm_ignores_prior_charge _ _ _ 0%nat (Mock.order "") "chg_old");
    reflexivity.
Defined.

(** A confirmation without the [address-raw] field. *)
Lemma Confirm_missing_address_witness :
  ∃ tr,
    serve (Confirm (Mock.orderHandler (Mock.order "") None (Ok charged)
                      (Ok charged)))
          (Mock.request "POST" "/confirm/" []
             [("order", VOrder (Mock.order ""))]) 0%nat
    = (Returned tt, mkHState 3%nat tr)
    ∧ confirmOrderCalls tr = [(123, "", "chg_Y")].
Proof.
  destruct (Confirm_missing_address
              (Mock.orderHandler (Mock.order "") None (Ok charged) (Ok charged))
              (Mock.request "POST" "/confirm/" []
                 [("order", VOrder (Mock.order ""))]) 0%nat
              (Mock.order "") Mock.campaign charged 1%nat 2%nat 3%nat)
    as (tr & Hrun & _ & Hcalls & _);
    [reflexivity | reflexivity | reflexivity | reflexivity | reflexivity |].
  exists tr. split; assumption.
Defined.

(** The form for campaign 999, with a template that fails. *)
Lemma New_renders_form_witness :
  ∃ s,
    serve (New (Failing.orderHandler (Ok (stripe.Customer.mk "cus_X")) (Ok 123)
                  ("", Some (OtherError "template: no such field"))))
          (Mock.request "GET" "/new/" [] campaignCtx) 0%nat
    = (Returned tt, s)
    ∧ trace s
      = [ExecuteNew (mkNewData 999 12 "pk_test") ""
           (Some (OtherError "template: no such field"));
         LogPrintf "Error executing the new_order template. err = %v"
           [LogError (OtherError "template: no such field")]].
Proof.
  destruct (New_renders_form
              (Failing.orderHandler (Ok (stripe.Customer.mk "cus_X")) (Ok 123)
                 ("", Some (OtherError "template: no such field")))
              (Mock.request "GET" "/new/" [] campaignCtx) 0%nat Mock.campaign
              "" (Some (OtherError "template: no such field")))
    as (s & Hrun & Htrace & _); [reflexivity | reflexivity |].
  exists s. split; assumption.
Defined.

(** No campaign is active. *)
Lemma ShowActive_without_campaign_witness :
  ∃ s,
    serve (ShowActive (Mock.campaignHandler (Err ErrNoRows) 0))
          (Mock.request "GET" "/" [] []) 0%nat
    = (Returned tt, s)
    ∧ trace s
      = [DBActiveCampaign (Err ErrNoRows); ExecuteEnded "campaign ended" None].
Proof.
  destruct (ShowActive_without_campaign
              (Mock.campaignHandler (Err ErrNoRows) 0)
              (Mock.request "GET" "/" [] []) 0%nat ErrNoRows 1%nat
              "campaign ended" None)
    as (s & Hrun & _ & _ & Hended & _); [reflexivity | reflexivity |].
  exists s. split; [exact Hrun|]. exact (Hended eq_refl).
Defined.

(** [/orders/cus_1/..] is [/orders/]. *)
Lemma Clean_resolves_segment_witness :
  urlpath.Clean "/orders/cus_1/.." = Some "/orders/".
Proof.
  destruct (Clean_resolves_segment ["orders"; "cus_1"] "x") as [Hup _].
  - constructor; [by apply properSegb_spec|].
    constructor; [by apply properSegb_spec|]. constructor.
  - exact Hup.
Defined.

(** Any path under a known order that is not [confirm] shows the order. *)
Lemma ordersMux_dispatch_witness :
  serve (server.ordersMux Failing.redirectURL
           (OrderMw (Mock.orderHandler (Mock.order "") None (Ok charged)
                       (Ok charged)))
           (Show (Mock.orderHandler (Mock.order "") None (Ok charged)
                    (Ok charged)))
           (Confirm (Mock.orderHandler (Mock.order "") None (Ok charged)
                       (Ok charged))))
        (Mock.request "GET" "/cus_abc123/anything" [] []) 0%nat
  = Show (Mock.orderHandler (Mock.order "") None (Ok charged) (Ok charged))
      (mkRequest "GET" "/anything/" ∅ [("order", VOrder (Mock.order ""))])
      (mkHState 1%nat [DBGetOrderViaPayCus "cus_abc123" (Ok (Mock.order ""))]).
Proof.
  apply (ordersMux_dispatch Failing.redirectURL _ _ _
           (Mock.request "GET" "/cus_abc123/anything" [] []) 0%nat
           "cus_abc123" ["anything"] (Mock.order "") 1%nat).
  - constructor; [by apply properSegb_spec|].
    constructor; [by apply properSegb_spec|]. constructor.
  - reflexivity.
  - reflexivity.
Defined.

(** A GET on the orders of a known campaign is answered [not found]. *)
Lemma campaignsMux_dispatch_witness :
  serve (server.campaignsMux Failing.redirectURL
           (CampaignMw (Mock.campaignHandler (Ok Mock.campaign) 0))
           (New (Mock.orderHandler (Mock.order "") None (Ok charged)
                   (Ok charged)))
           (Create id Mock.decode
              (Mock.orderHandler (Mock.order "") None (Ok charged)
                 (Ok charged))))
        (Mock.request "GET" "/999/orders" [] []) 0%nat
  = (Returned tt,
     mkHState 1%nat [DBGetCampaign 999 (Ok Mock.campaign); HTTPNotFound]).
Proof.
  apply (campaignsMux_dispatch Failing.redirectURL
           (Mock.campaignHandler (Ok Mock.campaign) 0) _ _
           (Mock.request "GET" "/999/orders" [] []) 0%nat
           "999" ["orders"] 999 Mock.campaign 1%nat).
  - constructor; [by apply properSegb_spec|].
    constructor; [by apply properSegb_spec|]. constructor.
  - reflexivity.
  - reflexivity.
  - reflexivity.
Defined.

(** A path outside [/campaigns/] and [/orders/] shows the campaign. *)
Lemma serveResources_routes_witness :
  serve (server.serveResources id Mock.decode Failing.redirectURL
           (Mock.campaignHandler (Ok Mock.campaign) 0)
           (Mock.orderHandler (Mock.order "") None (Ok charged) (Ok charged)))
        (Mock.request "GET" "/unknown/page" [] []) 0%nat
  = serve (ShowActive (Mock.campaignHandler (Ok Mock.campaign) 0))
      (Mock.request "GET" "/unknown/page/" [] []) 0%nat.
Proof.
  apply (serveResources_routes id Mock.decode Failing.redirectURL
           (Mock.campaignHandler (Ok Mock.campaign) 0)
           (Mock.orderHandler (Mock.order "") None (Ok charged) (Ok charged))
           (Mock.request "GET" "/unknown/page" [] []) 0%nat
           ["unknown"; "page"]).
  - constructor; [by apply properSegb_spec|].
    constructor; [by apply properSegb_spec|]. constructor.
  - reflexivity.
Defined.

(** A GET on the confirmation path of a known order charges its customer. *)
Lemma confirm_route_any_method_witness :
  chargeCalls
    (trace
       (serve (server.serveResources id Mock.decode Failing.redirectURL
                 (Mock.campaignHandler (Ok Mock.campaign) 0)
                 (Mock.orderHandler (Mock.order "") None (Ok charged)
                    (Ok charged)))
              (Mock.request "GET" "/orders/cus_abc123/confirm" [] [])
              0%nat).2)
  = [("cus_abc123", 1200)].
Proof.
  destruct (confirm_route_any_method id Mock.decode Failing.redirectURL
              (Mock.campaignHandler (Ok Mock.campaign) 0)
              (Mock.orderHandler (Mock.order "") None (Ok charged) (Ok charged))
              (Mock.request "GET" "/orders/cus_abc123/confirm" [] []) 0%nat
              "cus_abc123" [] (Mock.order "") Mock.campaign 1%nat 2%nat)
    as [_ Hcharge].
  - constructor; [by apply properSegb_spec|]. constructor.
  - reflexivity.
  - reflexivity.
  - reflexivity.
  - exact Hcharge.
Defined.

(** The path [/./] has no segment. *)
Lemma middleware_on_root_witness :
  serve (CampaignMw (Mock.campaignHandler (Ok Mock.campaign) 0) echoPath)
        (Mock.request "GET" "/./" [] []) 0%nat
  = (Returned tt, mkHState 0%nat [HTTPNotFound]).
Proof.
  destruct (middleware_on_root
              (Mock.campaignHandler (Ok Mock.campaign) 0)
              (Mock.orderHandler (Mock.order "") None (Ok charged) (Ok charged))
              echoPath (Mock.request "GET" "/./" [] []) 0%nat eq_refl)
    as [Hcampaign _].
  exact Hcampaign.
Defined.

End MoreWitnesses.
